(** * LTC4282 hot-swap controller driver (drivers/hwmon/ltc4282.c)

    A shallow embedding of the driver's conversion engine, power-on loop,
    configuration sequence and GPIO multiplexer, with the properties of its
    specification settled against it.

    Target model: an LP64 kernel build ([long] and [unsigned long] are 64 bits
    wide, [int] and [u32] 32 bits).  C integers are [Z] values with every
    wrap-around written out. *)

From Stdlib Require Import ZArith Lia List Bool.
From stdpp Require Import base functions gmap strings list.

Local Open Scope Z_scope.

(** ** Kernel helpers used by the driver *)

(** Modelled from the spec: the helper macros and constants of linux/limits.h,
    linux/units.h, linux/math.h, linux/overflow.h, linux/bits.h and
    linux/bitfield.h are not under src/.  They follow the spec's
    [round(x / d)] (add half the divisor, then divide) and the usual kernel
    definitions, on fixed-width unsigned operands. *)
Module K.

Definition wrap (bits x : Z) : Z := x mod 2 ^ bits.
Definition u8 : Z -> Z := wrap 8.
Definition u16 : Z -> Z := wrap 16.
Definition u32 : Z -> Z := wrap 32.
Definition u64 : Z -> Z := wrap 64.

(** Conversion of an unsigned 64-bit value to [long] (two's complement). *)
Definition to_long (x : Z) : Z :=
  let y := u64 x in if y <? 2 ^ 63 then y else y - 2 ^ 64.

Definition U8_MAX : Z := 255.
Definition U16_MAX : Z := 65535.

Definition DECA : Z := 10.
Definition CENTI : Z := 100.
Definition KILO : Z := 1000.
Definition MILLI : Z := 1000.
Definition MICRO : Z := 1000000.

Definition EIO : Z := 5.
Definition EINVAL : Z := 22.
Definition ETIMEDOUT : Z := 110.
Definition ENOTSUPP : Z := 524.

Definition BIT (n : Z) : Z := Z.shiftl 1 n.
Definition GENMASK (h l : Z) : Z := Z.shiftl (Z.ones (h - l + 1)) l.

(** [ffs]: one plus the index of the least significant set bit, 0 for 0. *)
Definition ffs (m : Z) : Z :=
  if m =? 0 then 0 else Z.log2 (Z.land m (- m)) + 1.

(** [FIELD_PREP(mask, val)] for a constant mask. *)
Definition FIELD_PREP (m v : Z) : Z := Z.land (Z.shiftl v (ffs m - 1)) m.

(** [!x] and [!!x] of C. *)
Definition lnot (x : Z) : Z := if x =? 0 then 1 else 0.
Definition to_bool (x : Z) : Z := if x =? 0 then 0 else 1.

Fixpoint int_pow_nat (base : Z) (exp : nat) : Z :=
  match exp with
  | O => 1
  | S e => u64 (base * int_pow_nat base e)
  end.
Definition int_pow (base exp : Z) : Z := int_pow_nat base (Z.to_nat exp).

(** [DIV_ROUND_CLOSEST(x, d)] on unsigned operands of width [bits].  This is
    the quotient for a divisor that is not 0.  A division by 0 traps in C,
    where Z's division gives 0: at a zero divisor the model does not
    describe the code. *)
Definition DIV_ROUND_CLOSEST (bits x d : Z) : Z := wrap bits (x + d / 2) / d.

(** [DIV_ROUND_CLOSEST_ULL(x, d)]: the sum [x + d / 2] is an
    [unsigned long long]; the division is [do_div], whose divisor is a
    [uint32_t], so only the low 32 bits of [d] divide.  This is the
    quotient when those 32 bits are not all 0.  [do_div] by 0 traps, where
    Z's division gives 0: at a zero divisor the model does not describe the
    code. *)
Definition DIV_ROUND_CLOSEST_ULL (x d : Z) : Z := u64 (x + d / 2) / u32 d.

(** [check_mul_overflow(a, b, &d)]: the flag tells whether [a * b] exceeds
    64 bits; the truncated product is stored in [d] in both cases. *)
Definition check_mul_overflow (a b : Z) : bool * Z :=
  (2 ^ 64 <=? a * b, u64 (a * b)).

(** [dev_err_probe(dev, err, ...)] logs and returns [err]. *)
Definition dev_err_probe (err : Z) : Z := err.

End K.
Import K.

(** The nearest integer to [x / d], ties upwards, as the spec writes
    [round(x / d)]. *)
Definition round_div (x d : Z) : Z := (2 * x + d) / (2 * d).

(** ** Register map *)

Definition LTC4282_CTRL_LSB : Z := 0x00.
Definition LTC4282_CTRL_OC_RETRY_MASK : Z := BIT 2.
Definition LTC4282_CTRL_ON_ACTIVE_LOW_MASK : Z := BIT 5.
Definition LTC4282_CTRL_ON_DELAY_MASK : Z := BIT 6.
Definition LTC4282_CTRL_MSB : Z := 0x01.
Definition LTC4282_CTRL_VIN_MODE_MASK : Z := GENMASK 1 0.
Definition LTC4282_CTRL_OV_MODE_MASK : Z := GENMASK 3 2.
Definition LTC4282_CTRL_UV_MODE_MASK : Z := GENMASK 5 4.
Definition LTC4282_ADC_ALERT_LOG : Z := 0x05.
Definition LTC4282_GPIO_ALARM_H_MASK : Z := BIT 0.
Definition LTC4282_GPIO_ALARM_L_MASK : Z := BIT 1.
Definition LTC4282_VSOURCE_ALARM_H_MASK : Z := BIT 2.
Definition LTC4282_VSOURCE_ALARM_L_MASK : Z := BIT 3.
Definition LTC4282_FET_BAD_FAULT_TIMEOUT : Z := 0x06.
Definition LTC4282_FET_BAD_MAX_TIMEOUT : Z := 255.
Definition LTC4282_GPIO_CONFIG : Z := 0x07.
Definition LTC4282_GPIO_2_FET_STRESS_MASK : Z := BIT 1.
Definition LTC4282_GPIO_1_OUT_MASK : Z := BIT 3.
Definition LTC4282_GPIO_1_CONFIG_MASK : Z := GENMASK 5 4.
Definition LTC4282_GPIO_2_OUT_MASK : Z := BIT 6.
Definition LTC4282_GPIO_3_OUT_MASK : Z := BIT 7.
Definition LTC4282_VGPIO_MIN : Z := 0x08.
Definition LTC4282_VGPIO_MAX : Z := 0x09.
Definition LTC4282_VSOURCE_MIN : Z := 0x0a.
Definition LTC4282_VSOURCE_MAX : Z := 0x0b.
Definition LTC4282_POWER_MIN : Z := 0x0e.
Definition LTC4282_POWER_MAX : Z := 0x0f.
Definition LTC4282_CLK_DIV : Z := 0x10.
Definition LTC4282_CLK_DIV_MASK : Z := GENMASK 4 0.
Definition LTC4282_CLKOUT_MASK : Z := GENMASK 6 5.
Definition LTC4282_ILIM_ADJUST : Z := 0x11.
Definition LTC4282_GPIO_MODE_MASK : Z := BIT 1.
Definition LTC4282_VDD_MONITOR_MASK : Z := BIT 2.
Definition LTC4282_FOLDBACK_MODE_MASK : Z := GENMASK 4 3.
Definition LTC4282_ILIM_ADJUST_MASK : Z := GENMASK 7 5.
Definition LTC4282_ENERGY : Z := 0x12.
Definition LTC4282_TIME_COUNTER : Z := 0x18.
Definition LTC4282_ALERT_CTRL : Z := 0x1C.
Definition LTC4282_ALERT_OUT_MASK : Z := BIT 6.
Definition LTC4282_ADC_CTRL : Z := 0x1D.
Definition LTC4282_RESET_MASK : Z := BIT 7.
Definition LTC4282_STATUS_LSB : Z := 0x1E.
Definition LTC4282_OV_STATUS_MASK : Z := BIT 0.
Definition LTC4282_UV_STATUS_MASK : Z := BIT 1.
Definition LTC4282_VDD_STATUS_MASK : Z :=
  Z.lor LTC4282_OV_STATUS_MASK LTC4282_UV_STATUS_MASK.
Definition LTC4282_FET_BAD_STATUS_MASK : Z := BIT 6.
Definition LTC4282_STATUS_MSB : Z := 0x1F.
Definition LTC4282_ALERT_STATUS_MASK : Z := BIT 4.
Definition LTC4282_GPIO_1_STATUS_MASK : Z := BIT 5.
Definition LTC4282_GPIO_2_STATUS_MASK : Z := BIT 6.
Definition LTC4282_GPIO_3_STATUS_MASK : Z := BIT 7.
Definition LTC4282_RESERVED_1 : Z := 0x32.
Definition LTC4282_RESERVED_2 : Z := 0x33.
Definition LTC4282_VGPIO : Z := 0x34.
Definition LTC4282_VGPIO_LOWEST : Z := 0x36.
Definition LTC4282_VGPIO_HIGHEST : Z := 0x38.
Definition LTC4282_VSOURCE : Z := 0x3a.
Definition LTC4282_VSOURCE_LOWEST : Z := 0x3c.
Definition LTC4282_VSOURCE_HIGHEST : Z := 0x3e.
Definition LTC4282_POWER : Z := 0x46.
Definition LTC4282_POWER_LOWEST : Z := 0x48.
Definition LTC4282_POWER_HIGHEST : Z := 0x4a.
Definition LTC4282_RESERVED_3 : Z := 0x50.

Definition LTC4282_CLKIN_MIN : Z := 250 * KILO.
Definition LTC4282_CLKIN_MAX : Z := 15500 * KILO.
Definition LTC4282_TCONV_US : Z := 65535.
Definition LTC4282_GPIO_NR : nat := 4.

(** [LTC4282_FIELD_PREP(m, v)], the relaxed variant for masks that are not
    compile-time constants. *)
Definition LTC4282_FIELD_PREP (m v : Z) : Z := Z.land (Z.shiftl v (ffs m - 1)) m.

Definition ltc4282_readable_reg (reg : Z) : bool :=
  if (reg =? LTC4282_RESERVED_1) || (reg =? LTC4282_RESERVED_2) then false
  else true.

Definition ltc4282_writable_reg (reg : Z) : bool :=
  if (reg =? LTC4282_STATUS_LSB) || (reg =? LTC4282_STATUS_MSB) then false
  else if (reg =? LTC4282_RESERVED_1) || (reg =? LTC4282_RESERVED_2) then false
  else true.

(** ** Transport: the regmap over the I2C bus

    The chip is a file of 8-bit registers.  [xfer] is the outcome of the bus
    transfer that addresses a register: 0 when it succeeds, a negative errno
    otherwise. *)

Inductive result (A : Type) : Type :=
| Ok (a : A)
| Err (e : Z).
Arguments Ok {A} a.
Arguments Err {A} e.

#[global] Instance result_ret : MRet result := fun _ a => Ok a.
#[global] Instance result_bind : MBind result :=
  fun _ _ f m => match m with Ok a => f a | Err e => Err e end.

Record regmap : Type := {
  regs : Z -> Z;
  xfer : Z -> Z;
}.

Definition max_register : Z := LTC4282_RESERVED_3.

Definition bus_ok (m : regmap) : Prop := forall reg, xfer m reg = 0.

(** Registers the driver may both read and write. *)
Definition accessible (reg : Z) : bool :=
  (reg <=? max_register) && ltc4282_readable_reg reg
  && ltc4282_writable_reg reg.

Definition regmap_read (m : regmap) (reg : Z) : result Z :=
  if (max_register <? reg) || negb (ltc4282_readable_reg reg) then Err (- EIO)
  else if xfer m reg =? 0 then Ok (u8 (regs m reg))
  else Err (xfer m reg).

Definition regmap_write (m : regmap) (reg val : Z) : Z * regmap :=
  if (max_register <? reg) || negb (ltc4282_writable_reg reg) then (- EIO, m)
  else if xfer m reg =? 0
       then (0, {| regs := <[reg := u8 val]> (regs m); xfer := xfer m |})
       else (xfer m reg, m).

(** Read-modify-write; the register is written only when its value changes. *)
Definition regmap_update_bits (m : regmap) (reg mask val : Z) : Z * regmap :=
  match regmap_read m reg with
  | Err e => (e, m)
  | Ok orig =>
      let tmp := Z.lor (Z.land orig (Z.lnot mask)) (Z.land val mask) in
      if tmp =? orig then (0, m) else regmap_write m reg tmp
  end.

Definition regmap_set_bits (m : regmap) (reg bits : Z) : Z * regmap :=
  regmap_update_bits m reg bits bits.

Definition regmap_clear_bits (m : regmap) (reg bits : Z) : Z * regmap :=
  regmap_update_bits m reg bits 0.

(** [regmap_bulk_read] of [count] consecutive registers, decoded as a
    little-endian integer ([le16_to_cpu], [le32_to_cpu], [le64_to_cpu]). *)
Fixpoint regmap_bulk_read_le (m : regmap) (reg : Z) (count : nat) : result Z :=
  match count with
  | O => Ok 0
  | S n =>
      b ← regmap_read m reg;
      rest ← regmap_bulk_read_le m (reg + 1) n;
      Ok (b + 256 * rest)
  end.

(** ** Driver state *)

Record ltc4282_state : Type := {
  map : regmap;
  gpio_map : list Z;
  rsense : Z;
  vin_mode : Z;
  vfs_out : Z;
  vdd_monitor : bool;
  (** [hwmon_info->info] points to [ltc4282_info_vdd] *)
  info_vdd : bool;
  (** the GPIO chip [gc] has been registered *)
  gc_added : bool;
}.

Definition LTC4282_VIN_3_3V : Z := 0.
Definition LTC4282_VIN_5V : Z := 1.
Definition LTC4282_VIN_12V : Z := 2.
Definition LTC4282_VIN_24V : Z := 3.

Definition LTC4282_CHAN_VSOURCE : Z := 0.
Definition LTC4282_CHAN_VGPIO : Z := 1.
Definition LTC4282_CHAN_VFET : Z := 2.
Definition LTC4282_CHAN_VDD : Z := 3.

Definition LTC4282_GPIO_1 : Z := 0.
Definition LTC4282_GPIO_2 : Z := 1.
Definition LTC4282_GPIO_3 : Z := 2.
Definition LTC4282_ALERT : Z := 3.

(** This maps the Vout full scale for the given Vin mode. *)
Definition ltc4282_vfs_milli : list Z := [5540; 8320; 16640; 33280].

(** ** Conversion engine

    Each read helper is split into the arithmetic on the raw code (suffix
    [_conv]) and the register access that feeds it. *)

Definition ltc4282_read_voltage_word_conv (fs code : Z) : Z :=
  to_long (DIV_ROUND_CLOSEST_ULL (u64 (code * u64 fs)) U16_MAX).

Definition ltc4282_read_voltage_word (st : ltc4282_state) (reg fs : Z)
  : result Z :=
  code ← regmap_bulk_read_le (map st) reg 2;
  Ok (ltc4282_read_voltage_word_conv fs code).

Definition ltc4282_read_voltage_byte_conv (fs code : Z) : Z :=
  DIV_ROUND_CLOSEST 32 (u32 (code * fs)) U8_MAX.

Definition ltc4282_read_voltage_byte (st : ltc4282_state) (reg fs : Z)
  : result Z :=
  code ← regmap_read (map st) reg;
  Ok (ltc4282_read_voltage_byte_conv fs code).

Definition ltc4282_read_alarm (st : ltc4282_state) (reg mask : Z) : result Z :=
  alarm ← regmap_read (map st) reg;
  Ok (to_bool (Z.land alarm mask)).

(** The two branches of [ltc4282_read_power_word], as functions of the value
    [temp] holds when they run.  [check_mul_overflow] has stored the
    truncated product [power * temp * MICRO] in [temp] by then. *)
Definition ltc4282_power_word_fallback (rsense power temp : Z) : Z :=
  let temp := DIV_ROUND_CLOSEST_ULL (u64 (power * temp)) U16_MAX in
  to_long (DIV_ROUND_CLOSEST_ULL (u64 (temp * MICRO)) (u32 (U16_MAX * rsense))).

Definition ltc4282_power_word_fast (rsense power temp : Z) : Z :=
  to_long (DIV_ROUND_CLOSEST_ULL (u64 (u64 (power * temp) * MICRO))
                                 (u64 (rsense * int_pow U16_MAX 2))).

Definition ltc4282_read_power_word_conv (vfs rs power : Z) : Z :=
  let temp := u64 (DECA * 40 * vfs * Z.shiftl 1 16) in
  let '(overflow, temp) := check_mul_overflow (u64 (power * temp)) MICRO in
  if overflow then ltc4282_power_word_fallback rs power temp
  else ltc4282_power_word_fast rs power temp.

Definition ltc4282_read_power_word (st : ltc4282_state) (reg : Z) : result Z :=
  power ← regmap_bulk_read_le (map st) reg 2;
  Ok (ltc4282_read_power_word_conv (vfs_out st) (rsense st) power).

Definition ltc4282_read_power_byte_conv (vfs rs power : Z) : Z :=
  let temp := u64 (u32 (power * 40) * DECA * vfs * 256) in
  to_long (DIV_ROUND_CLOSEST_ULL (u64 (temp * MICRO))
                                 (u64 (int_pow U8_MAX 2 * rs))).

Definition ltc4282_read_power_byte (st : ltc4282_state) (reg : Z) : result Z :=
  power ← regmap_read (map st) reg;
  Ok (ltc4282_read_power_byte_conv (vfs_out st) (rsense st) power).

(** The constant factor [DECA * st->vfs_out * 40 * 256] of the energy
    formula, an [unsigned long]. *)
Definition ltc4282_energy_factor (vfs : Z) : Z := u64 (DECA * vfs * 40 * 256).

(** The two branches of [ltc4282_read_energy]. *)
Definition ltc4282_energy_fallback (vfs rs energy : Z) : Z :=
  let temp := DIV_ROUND_CLOSEST 64 (ltc4282_energy_factor vfs) U16_MAX in
  DIV_ROUND_CLOSEST_ULL (u64 (temp * energy)) rs.

Definition ltc4282_energy_fast (vfs rs energy : Z) : Z :=
  DIV_ROUND_CLOSEST_ULL (u64 (ltc4282_energy_factor vfs * energy))
                        (u32 (U16_MAX * rs)).

Definition ltc4282_read_energy_conv (vfs rs energy : Z) : Z :=
  let '(overflow, _) := check_mul_overflow (ltc4282_energy_factor vfs) energy in
  if overflow then ltc4282_energy_fallback vfs rs energy
  else ltc4282_energy_fast vfs rs energy.

Definition ltc4282_read_energy (st : ltc4282_state) : result Z :=
  energy ← regmap_bulk_read_le (map st) LTC4282_ENERGY 6;
  Ok (ltc4282_read_energy_conv (vfs_out st) (rsense st) energy).

Definition ltc4282_read_power_average_conv (energy count : Z) : Z :=
  if count =? 0 then 0
  else
    let '(overflow, temp) := check_mul_overflow energy MICRO in
    if overflow then
      let temp := DIV_ROUND_CLOSEST_ULL energy LTC4282_TCONV_US in
      to_long (DIV_ROUND_CLOSEST_ULL (u64 (temp * MICRO)) count)
    else
      to_long (DIV_ROUND_CLOSEST_ULL temp (u32 (LTC4282_TCONV_US * count))).

Definition ltc4282_read_power_average (st : ltc4282_state) : result Z :=
  energy ← ltc4282_read_energy st;
  count ← regmap_bulk_read_le (map st) LTC4282_TIME_COUNTER 4;
  Ok (ltc4282_read_power_average_conv energy count).

(** ** Threshold writes *)

Definition set_map (st : ltc4282_state) (m : regmap) : ltc4282_state :=
  {| map := m; gpio_map := gpio_map st; rsense := rsense st;
     vin_mode := vin_mode st; vfs_out := vfs_out st;
     vdd_monitor := vdd_monitor st; info_vdd := info_vdd st;
     gc_added := gc_added st |}.

(** A register operation run on [st->map]: the return code and the state
    with the device it leaves. *)
Definition on_map (st : ltc4282_state) (op : regmap -> Z * regmap)
  : Z * ltc4282_state :=
  let '(ret, m) := op (map st) in (ret, set_map st m).

(** The value [ltc4282_write_power_byte] hands to [regmap_write]. *)
Definition ltc4282_write_power_byte_conv (vfs rs val : Z) : Z :=
  let temp := u64 (val * int_pow U8_MAX 2 * rs) in
  let power :=
    u32 (DIV_ROUND_CLOSEST_ULL temp (u64 (MICRO * DECA * 256 * vfs * 40))) in
  if U8_MAX <? power then U8_MAX else power.

Definition ltc4282_write_power_byte (st : ltc4282_state) (reg val : Z)
  : Z * ltc4282_state :=
  on_map st (fun m =>
    regmap_write m reg
      (ltc4282_write_power_byte_conv (vfs_out st) (rsense st) val)).

(** The value [ltc4282_write_voltage_byte] hands to [regmap_write].  The
    local [in] is declared without an initialiser and assigned only in the
    [val >= fs] branch; the other branch evaluates
    [DIV_ROUND_CLOSEST(val * U8_MAX, fs)] and drops the result.  [in_uninit]
    is the indeterminate content [in] has at its declaration. *)
Definition ltc4282_write_voltage_byte_conv (in_uninit fs val : Z) : Z :=
  if fs <=? val then U8_MAX else in_uninit.

Definition ltc4282_write_voltage_byte (in_uninit : Z) (st : ltc4282_state)
  (reg fs val : Z) : Z * ltc4282_state :=
  on_map st (fun m =>
    regmap_write m reg (ltc4282_write_voltage_byte_conv in_uninit fs val)).

(** What the spec words ask the byte-width inverse conversion to write:
    the register maximum at or above full scale, the rounded code
    [round(val * 255 / fs)] below it. *)
Definition voltage_byte_code_spec (fs val : Z) : Z :=
  if fs <=? val then U8_MAX
  else Z.min U8_MAX (Z.max 0 (round_div (val * U8_MAX) fs)).

(** ** hwmon attribute dispatch *)

Inductive hwmon_in_attributes : Type :=
| hwmon_in_input
| hwmon_in_highest
| hwmon_in_lowest
| hwmon_in_max_alarm
| hwmon_in_min_alarm
| hwmon_in_crit_alarm
| hwmon_in_lcrit_alarm
| hwmon_in_max
| hwmon_in_min
| hwmon_in_label.

Definition ltc4282_read_in (st : ltc4282_state) (attr : hwmon_in_attributes)
  (channel : Z) : result Z :=
  match attr with
  | hwmon_in_input =>
      if channel =? LTC4282_CHAN_VSOURCE
      then ltc4282_read_voltage_word st LTC4282_VSOURCE (vfs_out st)
      else ltc4282_read_voltage_word st LTC4282_VGPIO 1280
  | hwmon_in_highest =>
      if channel =? LTC4282_CHAN_VSOURCE
      then ltc4282_read_voltage_word st LTC4282_VSOURCE_HIGHEST (vfs_out st)
      else ltc4282_read_voltage_word st LTC4282_VGPIO_HIGHEST 1280
  | hwmon_in_lowest =>
      if channel =? LTC4282_CHAN_VSOURCE
      then ltc4282_read_voltage_word st LTC4282_VSOURCE_LOWEST (vfs_out st)
      else ltc4282_read_voltage_word st LTC4282_VGPIO_LOWEST 1280
  | hwmon_in_max_alarm =>
      if channel =? LTC4282_CHAN_VSOURCE
      then ltc4282_read_alarm st LTC4282_ADC_ALERT_LOG
             LTC4282_VSOURCE_ALARM_H_MASK
      else ltc4282_read_alarm st LTC4282_ADC_ALERT_LOG LTC4282_GPIO_ALARM_H_MASK
  | hwmon_in_min_alarm =>
      if channel =? LTC4282_CHAN_VSOURCE
      then ltc4282_read_alarm st LTC4282_ADC_ALERT_LOG
             LTC4282_VSOURCE_ALARM_L_MASK
      else ltc4282_read_alarm st LTC4282_ADC_ALERT_LOG LTC4282_GPIO_ALARM_L_MASK
  | hwmon_in_crit_alarm =>
      ltc4282_read_alarm st LTC4282_STATUS_LSB LTC4282_OV_STATUS_MASK
  | hwmon_in_lcrit_alarm =>
      if channel =? LTC4282_CHAN_VFET
      then ltc4282_read_alarm st LTC4282_STATUS_LSB LTC4282_FET_BAD_STATUS_MASK
      else ltc4282_read_alarm st LTC4282_STATUS_LSB LTC4282_UV_STATUS_MASK
  | hwmon_in_max =>
      if channel =? LTC4282_CHAN_VSOURCE
      then ltc4282_read_voltage_byte st LTC4282_VSOURCE_MAX (vfs_out st)
      else ltc4282_read_voltage_byte st LTC4282_VGPIO_MAX 1280
  | hwmon_in_min =>
      if channel =? LTC4282_CHAN_VSOURCE
      then ltc4282_read_voltage_byte st LTC4282_VSOURCE_MAX (vfs_out st)
      else ltc4282_read_voltage_byte st LTC4282_VGPIO_MAX 1280
  | _ => Err (- ENOTSUPP)
  end.

Definition ltc4282_write_in (in_uninit : Z) (st : ltc4282_state)
  (attr : hwmon_in_attributes) (val channel : Z) : Z * ltc4282_state :=
  match attr with
  | hwmon_in_max =>
      if channel =? LTC4282_CHAN_VSOURCE
      then ltc4282_write_voltage_byte in_uninit st LTC4282_VSOURCE_MAX
             (vfs_out st) val
      else ltc4282_write_voltage_byte in_uninit st LTC4282_VGPIO_MAX 1280 val
  | hwmon_in_min =>
      if channel =? LTC4282_CHAN_VSOURCE
      then ltc4282_write_voltage_byte in_uninit st LTC4282_VSOURCE_MIN
             (vfs_out st) val
      else ltc4282_write_voltage_byte in_uninit st LTC4282_VGPIO_MIN 1280 val
  | _ => (- ENOTSUPP, st)
  end.

(** ** GPIO multiplexer *)

Record ltc4282_gpio : Type := {
  out_reg : Z;
  out_mask : Z;
  in_reg : Z;
  in_mask : Z;
  active_high : bool;
  n_funcs : Z;
}.

Definition ltc4282_gpios : list ltc4282_gpio := [
  {| in_reg := LTC4282_STATUS_MSB; in_mask := LTC4282_GPIO_1_STATUS_MASK;
     out_reg := LTC4282_GPIO_CONFIG; out_mask := LTC4282_GPIO_1_OUT_MASK;
     active_high := true; n_funcs := 3 |};
  {| in_reg := LTC4282_STATUS_MSB; in_mask := LTC4282_GPIO_2_STATUS_MASK;
     out_reg := LTC4282_GPIO_CONFIG; out_mask := LTC4282_GPIO_2_OUT_MASK;
     active_high := false; n_funcs := 3 |};
  {| in_reg := LTC4282_STATUS_MSB; in_mask := LTC4282_GPIO_3_STATUS_MASK;
     out_reg := LTC4282_GPIO_CONFIG; out_mask := LTC4282_GPIO_3_OUT_MASK;
     active_high := false; n_funcs := 2 |};
  {| in_reg := LTC4282_STATUS_MSB; in_mask := LTC4282_ALERT_STATUS_MASK;
     out_reg := LTC4282_ALERT_CTRL; out_mask := LTC4282_ALERT_OUT_MASK;
     active_high := false; n_funcs := 0 |}
].

(** [ltc4282_gpios[pin]]; the table has an entry for each of the four pins,
    an index past it is outside the C program's defined behaviour. *)
Definition gpio_desc (pin : Z) : ltc4282_gpio :=
  nth (Z.to_nat pin) ltc4282_gpios
      {| in_reg := 0; in_mask := 0; out_reg := 0; out_mask := 0;
         active_high := false; n_funcs := 0 |}.

(** [st->gpio_map[offset]]. *)
Definition gpio_pin (st : ltc4282_state) (offset : Z) : Z :=
  nth (Z.to_nat offset) (gpio_map st) 0.

Definition ltc4282_gpio_input_set (st : ltc4282_state) (offset : Z)
  : Z * ltc4282_state :=
  if negb (gpio_pin st offset =? LTC4282_GPIO_1) then (0, st)
  else on_map st (fun m =>
         regmap_set_bits m LTC4282_GPIO_CONFIG LTC4282_GPIO_1_CONFIG_MASK).

Definition ltc4282_gpio_output_set (st : ltc4282_state) (offset val : Z)
  : Z * ltc4282_state :=
  let pin := gpio_pin st offset in
  let gpio := gpio_desc pin in
  let '(ret, st1) :=
    if pin =? LTC4282_GPIO_1
    then on_map st (fun m =>
           regmap_update_bits m LTC4282_GPIO_CONFIG LTC4282_GPIO_1_CONFIG_MASK
             (FIELD_PREP LTC4282_GPIO_1_CONFIG_MASK 2))
    else (0, st) in
  if negb (ret =? 0) then (ret, st1)
  else
    let val := if active_high gpio then val else lnot val in
    on_map st1 (fun m =>
      regmap_update_bits m (out_reg gpio) (out_mask gpio)
        (LTC4282_FIELD_PREP (out_mask gpio) val)).

(** [ltc4282_gpio_set] returns nothing; the model returns the state it
    leaves (the register operation's return code is dropped). *)
Definition ltc4282_gpio_set (st : ltc4282_state) (offset val : Z)
  : ltc4282_state :=
  let gpio := gpio_desc (gpio_pin st offset) in
  let val := if active_high gpio then val else lnot val in
  snd (on_map st (fun m =>
         regmap_update_bits m (out_reg gpio) (out_mask gpio)
           (LTC4282_FIELD_PREP (out_mask gpio) val))).

Definition ltc4282_gpio_get (st : ltc4282_state) (offset : Z) : Z :=
  let gpio := gpio_desc (gpio_pin st offset) in
  match regmap_read (map st) (in_reg gpio) with
  | Err ret => ret
  | Ok val => to_bool (Z.land val (in_mask gpio))
  end.

(** ** Power-on sequence *)

(** How the polling loop of [ltc4282_power_on] ends: by a [return] inside
    the body, or by leaving the loop with the value [n_tries] then has. *)
Inductive loop_exit : Type :=
| Returned (ret : Z)
| Left_loop (n_tries : Z).

(** The [do { ... } while (n_tries--)] loop.  [poll k] is the return code of
    the [k]-th call (counted from 0) of [regmap_read_poll_timeout] on the
    status register: 0 when an over- or under-voltage bit showed up within
    the 50 ms window, [-ETIMEDOUT] when none did (the supply was stable),
    another errno when the read failed.  [polled] counts the calls made so
    far; the recursion is on [n_tries].  A [continue] jumps to the loop
    condition, which tests [n_tries] and then decrements it, wrapping
    around below 0 as a [u32] does. *)
Fixpoint ltc4282_power_on_loop (poll : nat -> Z) (polled n_tries : nat)
  : loop_exit * nat :=
  let ret := poll polled in
  if ret =? 0 then
    match n_tries with
    | O => (Left_loop (u32 (0 - 1)), S polled)
    | S n => ltc4282_power_on_loop poll (S polled) n
    end
  else if negb (ret =? - ETIMEDOUT) then (Returned (dev_err_probe ret), S polled)
  else (Left_loop (Z.of_nat n_tries), S polled).

(** [ltc4282_power_on]: the return code and the number of polls made.
    [vdd_enable] is the return code of [devm_regulator_get_enable]. *)
Definition ltc4282_power_on (vdd_enable : Z) (poll : nat -> Z) : Z * nat :=
  if negb (vdd_enable =? 0) then (dev_err_probe vdd_enable, O)
  else
    match ltc4282_power_on_loop poll 0 5 with
    | (Returned ret, polled) => (ret, polled)
    | (Left_loop n_tries, polled) =>
        if n_tries =? 0 then (dev_err_probe (- ETIMEDOUT), polled)
        else (0, polled)
    end.

(** ** Configuration *)

(** The firmware node: the [u32] properties that are present, by name. *)
Definition device_property_read_u32 (fw : gmap string Z) (name : string)
  : result Z :=
  match fw !! name with
  | Some v => Ok (u32 v)
  | None => Err (- EINVAL)
  end.

Definition device_property_read_bool (fw : gmap string Z) (name : string)
  : bool :=
  match fw !! name with
  | Some _ => true
  | None => false
  end.

(** Code that runs on the driver state and either goes on to the next
    statement with a value or executes a [return]. *)
Inductive flow (A : Type) : Type :=
| Next (a : A)
| Return (ret : Z).
Arguments Next {A} a.
Arguments Return {A} ret.

Definition proc (A : Type) : Type := ltc4282_state -> flow A * ltc4282_state.

#[global] Instance proc_ret : MRet proc := fun _ a st => (Next a, st).
#[global] Instance proc_bind : MBind proc :=
  fun _ _ f m st =>
    match m st with
    | (Next a, st1) => f a st1
    | (Return ret, st1) => (Return ret, st1)
    end.

(** [return ret;] *)
Definition creturn {A : Type} (ret : Z) : proc A := fun st => (Return ret, st).

(** [if (ret) return ret;] *)
Definition return_if_err (ret : Z) : proc unit :=
  fun st => if ret =? 0 then (Next tt, st) else (Return ret, st).

Definition get_state : proc ltc4282_state := fun st => (Next st, st).

Definition modify (f : ltc4282_state -> ltc4282_state) : proc unit :=
  fun st => (Next tt, f st).

(** A register operation on [st->map], yielding its return code. *)
Definition reg_op (op : regmap -> Z * regmap) : proc Z :=
  fun st => let '(ret, st1) := on_map st op in (Next ret, st1).

(** What holds of an outcome: [N] when the code goes on, [R] when it has
    returned. *)
Definition post {A : Type} (N : A -> ltc4282_state -> Prop)
  (R : Z -> ltc4282_state -> Prop) (res : flow A * ltc4282_state) : Prop :=
  match res with
  | (Next a, st) => N a st
  | (Return ret, st) => R ret st
  end.

(** The return code of a function body and the state it leaves. *)
Definition run (p : proc Z) (st : ltc4282_state) : Z * ltc4282_state :=
  match p st with
  | (Next ret, st1) => (ret, st1)
  | (Return ret, st1) => (ret, st1)
  end.

Definition set_rsense (v : Z) (st : ltc4282_state) : ltc4282_state :=
  {| map := map st; gpio_map := gpio_map st; rsense := v;
     vin_mode := vin_mode st; vfs_out := vfs_out st;
     vdd_monitor := vdd_monitor st; info_vdd := info_vdd st;
     gc_added := gc_added st |}.

Definition set_vin_mode (v : Z) (st : ltc4282_state) : ltc4282_state :=
  {| map := map st; gpio_map := gpio_map st; rsense := rsense st;
     vin_mode := v; vfs_out := vfs_out st;
     vdd_monitor := vdd_monitor st; info_vdd := info_vdd st;
     gc_added := gc_added st |}.

Definition set_vfs_out (v : Z) (st : ltc4282_state) : ltc4282_state :=
  {| map := map st; gpio_map := gpio_map st; rsense := rsense st;
     vin_mode := vin_mode st; vfs_out := v;
     vdd_monitor := vdd_monitor st; info_vdd := info_vdd st;
     gc_added := gc_added st |}.

Definition set_vdd_monitor (v : bool) (st : ltc4282_state) : ltc4282_state :=
  {| map := map st; gpio_map := gpio_map st; rsense := rsense st;
     vin_mode := vin_mode st; vfs_out := vfs_out st;
     vdd_monitor := v; info_vdd := info_vdd st;
     gc_added := gc_added st |}.

Definition set_info_vdd (v : bool) (st : ltc4282_state) : ltc4282_state :=
  {| map := map st; gpio_map := gpio_map st; rsense := rsense st;
     vin_mode := vin_mode st; vfs_out := vfs_out st;
     vdd_monitor := vdd_monitor st; info_vdd := v;
     gc_added := gc_added st |}.

Definition set_gc_added (v : bool) (st : ltc4282_state) : ltc4282_state :=
  {| map := map st; gpio_map := gpio_map st; rsense := rsense st;
     vin_mode := vin_mode st; vfs_out := vfs_out st;
     vdd_monitor := vdd_monitor st; info_vdd := info_vdd st;
     gc_added := v |}.

(** [st->gpio_map[i] = pin] *)
Definition set_gpio_map (i pin : Z) (st : ltc4282_state) : ltc4282_state :=
  {| map := map st; gpio_map := <[Z.to_nat i := pin]> (gpio_map st);
     rsense := rsense st; vin_mode := vin_mode st; vfs_out := vfs_out st;
     vdd_monitor := vdd_monitor st; info_vdd := info_vdd st;
     gc_added := gc_added st |}.

Definition LTC4282_CLKOUT_INT : Z := 0.
Definition LTC4282_CLKOUT_TICK : Z := 1.

(** [clkin] is what [devm_clk_get_optional_enabled] yields: an error, no
    clock, or a clock with its rate. *)
Definition ltc428_clks_setup (clkin : result (option Z)) (fw : gmap string Z)
  : proc Z :=
  match clkin with
  | Err e => creturn (dev_err_probe e)
  | Ok None => creturn 0
  | Ok (Some rate) =>
      if (rate <? LTC4282_CLKIN_MIN) || (LTC4282_CLKIN_MAX <? rate)
      then creturn (dev_err_probe (- EINVAL))
      else
        let val := u32 (rate / (2 * LTC4282_CLKIN_MIN)) in
        ret ← reg_op (fun m =>
                 regmap_update_bits m LTC4282_CLK_DIV LTC4282_CLK_DIV_MASK
                   (FIELD_PREP LTC4282_CLK_DIV_MASK val));
        return_if_err ret;;
        match device_property_read_u32 fw "adi,clkout-mode" with
        | Err _ => creturn 0
        | Ok val =>
            if LTC4282_CLKOUT_TICK <? val
            then creturn (dev_err_probe (- EINVAL))
            else reg_op (fun m =>
                   regmap_update_bits m LTC4282_CLK_DIV LTC4282_CLKOUT_MASK
                     (FIELD_PREP LTC4282_CLKOUT_MASK (val + 1)))
        end
  end.

(** Valid GPIO functions.  [LTC4282_PIN_ADC] is given the value 2
    explicitly, so it coincides with [LTC4282_PIN_POWER_GOOD]. *)
Definition LTC4282_PIN_GPIO : Z := 0.
Definition LTC4282_PIN_POWER_BAD : Z := 1.
Definition LTC4282_PIN_POWER_GOOD : Z := 2.
Definition LTC4282_PIN_ADC : Z := 2.
Definition LTC4282_PIN_FET_STRESS : Z := 3.

(** What the platform provides besides the bus: the firmware properties,
    whether [CONFIG_GPIOLIB] is enabled, and the return code of
    [devm_gpiochip_add_data]. *)
Record ltc4282_env : Type := {
  props : gmap string Z;
  config_gpiolib : bool;
  gpiochip_add_ret : Z;
}.

(** [ltc4282_non_gpio_setup]: yields its return code and the value it leaves
    in [*adc_in]. *)
Definition ltc4282_non_gpio_setup (pin func : Z) (adc_in : bool)
  : proc (Z * bool) :=
  if pin =? LTC4282_GPIO_1 then
    let val :=
      if func =? LTC4282_PIN_POWER_GOOD then 0 else LTC4282_PIN_POWER_BAD in
    ret ← reg_op (fun m =>
             regmap_update_bits m LTC4282_GPIO_CONFIG LTC4282_GPIO_1_CONFIG_MASK
               (FIELD_PREP LTC4282_GPIO_1_CONFIG_MASK val));
    mret (ret, adc_in)
  else if func =? LTC4282_PIN_FET_STRESS then
    ret ← reg_op (fun m =>
             regmap_update_bits m LTC4282_GPIO_CONFIG
               LTC4282_GPIO_2_FET_STRESS_MASK
               (FIELD_PREP LTC4282_GPIO_2_FET_STRESS_MASK 1));
    mret (ret, adc_in)
  else if adc_in then mret (dev_err_probe (- EINVAL), adc_in)
  else
    ret ← reg_op (fun m =>
             regmap_update_bits m LTC4282_ILIM_ADJUST LTC4282_GPIO_MODE_MASK
               (FIELD_PREP LTC4282_GPIO_MODE_MASK
                  (if pin =? LTC4282_GPIO_2 then 1 else 0)));
    mret (ret, true).

Definition ltc4282_gpio_prop : list string :=
  ["adi,gpio0-mode"; "adi,gpio1-mode"; "adi,gpio2-mode"]%string.

(** One iteration of the loop of [ltc4282_gpio_setup] over the pin [gpio];
    the locals [ngpios] and [adc_in] go in and come out.  On the invalid
    function branch [ret] still holds the 0 of the successful property read,
    and that is what [dev_err_probe] is given and returns. *)
Definition ltc4282_gpio_setup_iter (fw : gmap string Z) (gpio : Z)
  (locals : Z * bool) : proc (Z * bool) :=
  let '(ngpios, adc_in) := locals in
  match device_property_read_u32 fw
          (nth (Z.to_nat gpio) ltc4282_gpio_prop EmptyString) with
  | Err _ => mret locals
  | Ok func =>
      let ret := 0 in
      if n_funcs (gpio_desc gpio) <=? func then creturn (dev_err_probe ret)
      else if func =? LTC4282_PIN_GPIO then
        modify (set_gpio_map ngpios gpio);;
        (if gpio =? LTC4282_GPIO_1 then
           ret ← reg_op (fun m =>
                    regmap_set_bits m LTC4282_GPIO_CONFIG
                      LTC4282_GPIO_1_CONFIG_MASK);
           return_if_err ret
         else mret tt);;
        mret (ngpios + 1, adc_in)
      else
        r ← ltc4282_non_gpio_setup gpio func adc_in;
        return_if_err (fst r);;
        mret (ngpios, snd r)
  end.

Fixpoint ltc4282_gpio_setup_loop (fw : gmap string Z) (gpios : list Z)
  (locals : Z * bool) : proc (Z * bool) :=
  match gpios with
  | [] => mret locals
  | gpio :: rest =>
      locals1 ← ltc4282_gpio_setup_iter fw gpio locals;
      ltc4282_gpio_setup_loop fw rest locals1
  end.

Definition ltc4282_gpio_setup (env : ltc4282_env) : proc Z :=
  if negb (config_gpiolib env) then creturn 0
  else
    locals ← ltc4282_gpio_setup_loop (props env)
               [LTC4282_GPIO_1; LTC4282_GPIO_2; LTC4282_GPIO_3] (0, false);
    ngpios ← (if device_property_read_bool (props env) "adi,alert-as-gp"
              then modify (set_gpio_map (fst locals) LTC4282_ALERT);;
                   mret (fst locals + 1)
              else mret (fst locals));
    if ngpios =? 0 then creturn 0
    else if gpiochip_add_ret env =? 0
         then modify (set_gc_added true);; creturn 0
         else creturn (gpiochip_add_ret env).

Definition LTC4282_DIV_EXTERNAL : Z := 0.
Definition LTC4282_DIV_5_PERCENT : Z := 1.
Definition LTC4282_DIV_10_PERCENT : Z := 2.
Definition LTC4282_DIV_15_PERCENT : Z := 3.

(** [ltc4282_setup] is one long function; the model cuts it at its blank
    lines into the blocks below, one per property, in source order. *)

Definition setup_rsense (fw : gmap string Z) : proc unit :=
  match device_property_read_u32 fw "adi,rsense-nano-ohms" with
  | Err ret => creturn (dev_err_probe ret)
  | Ok v => modify (set_rsense (v / CENTI))
  end.

Definition setup_vin_mode (fw : gmap string Z) : proc unit :=
  modify (set_vin_mode LTC4282_VIN_12V);;
  match device_property_read_u32 fw "vin-mode-microvolt" with
  | Err _ => mret tt
  | Ok val =>
      (if val =? 3300000 then modify (set_vin_mode LTC4282_VIN_3_3V)
       else if val =? 5000000 then modify (set_vin_mode LTC4282_VIN_5V)
       else if val =? 12000000 then modify (set_vin_mode LTC4282_VIN_12V)
       else if val =? 24000000 then modify (set_vin_mode LTC4282_VIN_24V)
       else creturn (dev_err_probe (- EINVAL)));;
      st ← get_state;
      ret ← reg_op (fun m =>
               regmap_update_bits m LTC4282_CTRL_MSB LTC4282_CTRL_VIN_MODE_MASK
                 (FIELD_PREP LTC4282_CTRL_VIN_MODE_MASK (vin_mode st)));
      return_if_err ret;;
      ret ← reg_op (fun m =>
               regmap_update_bits m LTC4282_ILIM_ADJUST
                 LTC4282_FOLDBACK_MODE_MASK
                 (FIELD_PREP LTC4282_FOLDBACK_MODE_MASK (vin_mode st)));
      return_if_err ret
  end.

Definition setup_vfs_out : proc unit :=
  modify (fun st =>
    set_vfs_out (nth (Z.to_nat (vin_mode st)) ltc4282_vfs_milli 0) st).

Definition setup_current_limit (fw : gmap string Z) : proc unit :=
  match device_property_read_u32 fw "adi,current-limit-microvolt" with
  | Err _ => mret tt
  | Ok val =>
      val ← (if val =? 12500 then mret 0
             else if val =? 15625 then mret 1
             else if val =? 18750 then mret 2
             else if val =? 21875 then mret 3
             else if val =? 25000 then mret 4
             else if val =? 28125 then mret 5
             else if val =? 31250 then mret 6
             else if val =? 34375 then mret 7
             else creturn (dev_err_probe (- EINVAL)));
      ret ← reg_op (fun m =>
               regmap_update_bits m LTC4282_ILIM_ADJUST LTC4282_ILIM_ADJUST_MASK
                 (FIELD_PREP LTC4282_ILIM_ADJUST_MASK val));
      return_if_err ret
  end.

Definition setup_vdd_monitor (fw : gmap string Z) : proc unit :=
  modify (set_vdd_monitor (device_property_read_bool fw "adi,vin_monitor"));;
  st ← get_state;
  if vdd_monitor st then
    modify (set_info_vdd true);;
    ret ← reg_op (fun m =>
             regmap_clear_bits m LTC4282_ILIM_ADJUST LTC4282_VDD_MONITOR_MASK);
    return_if_err ret
  else mret tt.

(** The return code of the register update is overwritten by the next
    property read without being tested. *)
Definition setup_divider (fw : gmap string Z) (name : string) (mask : Z)
  : proc unit :=
  match device_property_read_u32 fw name with
  | Err _ => mret tt
  | Ok val =>
      if LTC4282_DIV_15_PERCENT <? val then creturn (dev_err_probe (- EINVAL))
      else
        reg_op (fun m =>
          regmap_update_bits m LTC4282_CTRL_MSB mask (FIELD_PREP mask val));;
        mret tt
  end.

Definition setup_flag (fw : gmap string Z) (name : string)
  (op : regmap -> Z * regmap) : proc unit :=
  if device_property_read_bool fw name then
    ret ← reg_op op;
    return_if_err ret
  else mret tt.

Definition setup_fet_bad_timeout (fw : gmap string Z) : proc unit :=
  match device_property_read_u32 fw "adi,fet-bad-timeout-ms" with
  | Err _ => mret tt
  | Ok val =>
      if LTC4282_FET_BAD_MAX_TIMEOUT <? val
      then creturn (dev_err_probe (- EINVAL))
      else
        ret ← reg_op (fun m =>
                 regmap_write m LTC4282_FET_BAD_FAULT_TIMEOUT val);
        return_if_err ret
  end.

Definition ltc4282_setup (env : ltc4282_env) : proc Z :=
  let fw := props env in
  setup_rsense fw;;
  setup_vin_mode fw;;
  setup_vfs_out;;
  setup_current_limit fw;;
  setup_vdd_monitor fw;;
  setup_divider fw "adi,overvoltage-dividers" LTC4282_CTRL_OV_MODE_MASK;;
  setup_divider fw "adi,undervoltage-dividers" LTC4282_CTRL_UV_MODE_MASK;;
  setup_flag fw "adi,on-delay" (fun m =>
    regmap_set_bits m LTC4282_CTRL_LSB LTC4282_CTRL_ON_DELAY_MASK);;
  setup_flag fw "adi,on-active-low" (fun m =>
    regmap_clear_bits m LTC4282_CTRL_LSB LTC4282_CTRL_ON_ACTIVE_LOW_MASK);;
  setup_flag fw "adi,overcurrent-retry" (fun m =>
    regmap_clear_bits m LTC4282_CTRL_LSB LTC4282_CTRL_OC_RETRY_MASK);;
  setup_fet_bad_timeout fw;;
  ltc4282_gpio_setup env.

(** The blocks of [ltc4282_setup] that have run when it comes to examine
    the current limit, the overvoltage divider, the undervoltage divider
    and the FET-bad timeout: [ltc4282_setup] cut before that block. *)
Definition setup_before_current_limit (fw : gmap string Z) : proc unit :=
  setup_rsense fw;;
  setup_vin_mode fw;;
  setup_vfs_out.

Definition setup_before_overvoltage (fw : gmap string Z) : proc unit :=
  setup_rsense fw;;
  setup_vin_mode fw;;
  setup_vfs_out;;
  setup_current_limit fw;;
  setup_vdd_monitor fw.

Definition setup_before_undervoltage (fw : gmap string Z) : proc unit :=
  setup_rsense fw;;
  setup_vin_mode fw;;
  setup_vfs_out;;
  setup_current_limit fw;;
  setup_vdd_monitor fw;;
  setup_divider fw "adi,overvoltage-dividers" LTC4282_CTRL_OV_MODE_MASK.

Definition setup_before_fet_bad_timeout (fw : gmap string Z) : proc unit :=
  setup_rsense fw;;
  setup_vin_mode fw;;
  setup_vfs_out;;
  setup_current_limit fw;;
  setup_vdd_monitor fw;;
  setup_divider fw "adi,overvoltage-dividers" LTC4282_CTRL_OV_MODE_MASK;;
  setup_divider fw "adi,undervoltage-dividers" LTC4282_CTRL_UV_MODE_MASK;;
  setup_flag fw "adi,on-delay" (fun m =>
    regmap_set_bits m LTC4282_CTRL_LSB LTC4282_CTRL_ON_DELAY_MASK);;
  setup_flag fw "adi,on-active-low" (fun m =>
    regmap_clear_bits m LTC4282_CTRL_LSB LTC4282_CTRL_ON_ACTIVE_LOW_MASK);;
  setup_flag fw "adi,overcurrent-retry" (fun m =>
    regmap_clear_bits m LTC4282_CTRL_LSB LTC4282_CTRL_OC_RETRY_MASK).

(** ** Concrete devices used by the examples *)

(** A device whose registers all read 0, except [reg] which holds [v], on a
    bus without faults. *)
Definition device_with (reg v : Z) : regmap :=
  {| regs := <[reg := v]> (fun _ => 0); xfer := fun _ => 0 |}.

(** A device that holds the listed register values and reads 0 elsewhere,
    on a bus without faults. *)
Definition device_regs (l : list (Z * Z)) : regmap :=
  {| regs := fun reg =>
       foldr (fun av acc => if reg =? fst av then snd av else acc) 0 l;
     xfer := fun _ => 0 |}.

(** Energy code 1000000 (0x0f4240, little endian from [LTC4282_ENERGY]) and
    a time counter of 100 conversions. *)
Definition device_energy : regmap :=
  device_regs [(0x12, 0x40); (0x13, 0x42); (0x14, 0x0f); (0x18, 100)].

(** The driver state right after allocation ([devm_kzalloc] zeroes it),
    attached to the device [m]. *)
Definition fresh_state (m : regmap) : ltc4282_state :=
  {| map := m; gpio_map := [0; 0; 0; 0]; rsense := 0; vin_mode := 0;
     vfs_out := 0; vdd_monitor := false; info_vdd := false;
     gc_added := false |}.

(** A configured state: 12 V input mode, 0.2 mOhm sense resistor. *)
Definition state_12v (m : regmap) : ltc4282_state :=
  {| map := m; gpio_map := [0; 1; 2; 3]; rsense := 2000;
     vin_mode := LTC4282_VIN_12V; vfs_out := 16640; vdd_monitor := false;
     info_vdd := false; gc_added := true |}.

(** The configured state on a device whose status register shows the
    GPIO2 pin high. *)
Definition state_gpio2_high : ltc4282_state :=
  state_12v (device_with LTC4282_STATUS_MSB 0x40).

(** A firmware node that asks for the ADC input on both GPIO2 and GPIO3. *)
Definition env_two_adc : ltc4282_env :=
  {| props := {[ "adi,gpio1-mode"%string := 2; "adi,gpio2-mode"%string := 1 ]};
     config_gpiolib := true; gpiochip_add_ret := 0 |}.

(** A firmware node that gives GPIO2 and GPIO3 both the function
    [LTC4282_PIN_ADC], with a sense resistor of 0.2 mOhm. *)
Definition env_adc_twice : ltc4282_env :=
  {| props := {[ "adi,rsense-nano-ohms"%string := 200000;
                 "adi,gpio1-mode"%string := 2; "adi,gpio2-mode"%string := 2 ]};
     config_gpiolib := true; gpiochip_add_ret := 0 |}.

(** A firmware node with a valid 24 V input mode and a current limit that
    is not one of the eight thresholds. *)
Definition env_bad_current_limit : ltc4282_env :=
  {| props := {[ "adi,rsense-nano-ohms"%string := 200000;
                 "vin-mode-microvolt"%string := 24000000;
                 "adi,current-limit-microvolt"%string := 20000 ]};
     config_gpiolib := true; gpiochip_add_ret := 0 |}.

(** A firmware node whose only fault is a GPIO function out of range. *)
Definition env_bad_gpio_func : ltc4282_env :=
  {| props := {[ "adi,rsense-nano-ohms"%string := 200000;
                 "adi,gpio0-mode"%string := 7 ]};
     config_gpiolib := true; gpiochip_add_ret := 0 |}.

(** A firmware node that makes GPIO1 and GPIO3 plain GPIOs, gives GPIO2 to
    the ADC input and makes the ALERT pin a GPIO; the chip registration
    answers [-ENOMEM]. *)
Definition env_plain_gpios : ltc4282_env :=
  {| props := {[ "adi,gpio0-mode"%string := 0; "adi,gpio1-mode"%string := 2;
                 "adi,gpio2-mode"%string := 0;
                 "adi,alert-as-gp"%string := 1 ]};
     config_gpiolib := true; gpiochip_add_ret := -12 |}.

(** A firmware node that asks for the tick signal on the clock output. *)
Definition fw_clkout_tick : gmap string Z :=
  {[ "adi,clkout-mode"%string := 1 ]}.

(** A firmware node whose clock-output mode, 5, is not one of the two
    modes. *)
Definition fw_clkout_bad : gmap string Z :=
  {[ "adi,clkout-mode"%string := 5 ]}.

(** A firmware node with a sense resistor of 0.2 mOhm and the 24 V input
    mode, nothing else. *)
Definition env_24v : ltc4282_env :=
  {| props := {[ "adi,rsense-nano-ohms"%string := 200000;
                 "vin-mode-microvolt"%string := 24000000 ]};
     config_gpiolib := true; gpiochip_add_ret := 0 |}.

(** ** Configuration values the spec rules out

    The constraints of the spec's table of configuration keys: the input
    mode is one of the four voltage classes, the current limit one of the
    eight microvolt thresholds, a divider one of four enumerators, the
    FET-bad timeout at most 255 ms. *)

Definition vin_mode_valid (v : Z) : bool :=
  existsb (Z.eqb v) [3300000; 5000000; 12000000; 24000000].

Definition current_limit_valid (v : Z) : bool :=
  existsb (Z.eqb v) [12500; 15625; 18750; 21875; 25000; 28125; 31250; 34375].

Definition divider_valid (v : Z) : bool := v <=? LTC4282_DIV_15_PERCENT.

Definition fet_bad_timeout_valid (v : Z) : bool :=
  v <=? LTC4282_FET_BAD_MAX_TIMEOUT.

(** The property [name] is present with a value outside [valid]. *)
Definition bad_property (fw : gmap string Z) (name : string)
  (valid : Z -> bool) : bool :=
  match device_property_read_u32 fw name with
  | Ok v => negb (valid v)
  | Err _ => false
  end.

(** One of the values [ltc4282_setup] validates is out of range. *)
Definition bad_config (fw : gmap string Z) : bool :=
  bad_property fw "vin-mode-microvolt" vin_mode_valid
  || bad_property fw "adi,current-limit-microvolt" current_limit_valid
  || bad_property fw "adi,overvoltage-dividers" divider_valid
  || bad_property fw "adi,undervoltage-dividers" divider_valid
  || bad_property fw "adi,fet-bad-timeout-ms" fet_bad_timeout_valid.

(** The device with register [reg] overwritten behind the driver's back. *)
Definition poke (st : ltc4282_state) (reg v : Z) : ltc4282_state :=
  set_map st {| regs := <[reg := v]> (regs (map st)); xfer := xfer (map st) |}.

(** ** Current channel, attribute dispatch and attach *)

Definition LTC4282_VSENSE_ALARM_H_MASK : Z := BIT 4.
Definition LTC4282_VSENSE_ALARM_L_MASK : Z := BIT 5.
Definition LTC4282_POWER_ALARM_H_MASK : Z := BIT 6.
Definition LTC4282_POWER_ALARM_L_MASK : Z := BIT 7.
Definition LTC4282_VSENSE_MIN : Z := 0x0c.
Definition LTC4282_VSENSE_MAX : Z := 0x0d.
Definition LTC4282_OC_STATUS_MASK : Z := BIT 2.
Definition LTC4282_VSENSE : Z := 0x40.
Definition LTC4282_VSENSE_LOWEST : Z := 0x42.
Definition LTC4282_VSENSE_HIGHEST : Z := 0x44.

Definition ENOMEM : Z := 12.

(** The second step of the current reads: the sense voltage, in tenths of a
    microvolt and held in a [long], times [MILLI] (an [unsigned long]),
    divided by the sense resistance with [DIV_ROUND_CLOSEST]. *)
Definition ltc4282_current_of_sense (rs sense : Z) : Z :=
  to_long (DIV_ROUND_CLOSEST 64 (u64 (sense * MILLI)) rs).

Definition ltc4282_read_current_word (st : ltc4282_state) (reg : Z)
  : result Z :=
  sense ← ltc4282_read_voltage_word st reg (400 * MILLI);
  Ok (ltc4282_current_of_sense (rsense st) sense).

Definition ltc4282_read_current_byte (st : ltc4282_state) (reg : Z)
  : result Z :=
  sense ← ltc4282_read_voltage_byte st reg (400 * MILLI);
  Ok (ltc4282_current_of_sense (rsense st) sense).

(** Modelled from the spec: linux/hwmon.h is not under src/.  The attributes
    of a current channel and of a power channel, in the order of the
    kernel's enumerations; the driver names some of them and leaves the
    others to its [default] branches. *)
Inductive hwmon_curr_attributes : Type :=
| hwmon_curr_enable
| hwmon_curr_input
| hwmon_curr_label
| hwmon_curr_min
| hwmon_curr_max
| hwmon_curr_lcrit
| hwmon_curr_crit
| hwmon_curr_average
| hwmon_curr_lowest
| hwmon_curr_highest
| hwmon_curr_reset_history
| hwmon_curr_min_alarm
| hwmon_curr_max_alarm
| hwmon_curr_alarm
| hwmon_curr_lcrit_alarm
| hwmon_curr_crit_alarm
| hwmon_curr_rated_min
| hwmon_curr_rated_max
| hwmon_curr_beep.

Inductive hwmon_power_attributes : Type :=
| hwmon_power_enable
| hwmon_power_average
| hwmon_power_average_interval
| hwmon_power_average_interval_max
| hwmon_power_average_interval_min
| hwmon_power_average_highest
| hwmon_power_average_lowest
| hwmon_power_average_max
| hwmon_power_average_min
| hwmon_power_input
| hwmon_power_input_highest
| hwmon_power_input_lowest
| hwmon_power_reset_history
| hwmon_power_accuracy
| hwmon_power_cap
| hwmon_power_cap_hyst
| hwmon_power_cap_max
| hwmon_power_cap_min
| hwmon_power_min
| hwmon_power_max
| hwmon_power_crit
| hwmon_power_lcrit
| hwmon_power_label
| hwmon_power_alarm
| hwmon_power_cap_alarm
| hwmon_power_min_alarm
| hwmon_power_max_alarm
| hwmon_power_lcrit_alarm
| hwmon_power_crit_alarm
| hwmon_power_rated_min
| hwmon_power_rated_max.

(** A sensor type of [enum hwmon_sensor_types] with the attribute it is
    asked for; the driver looks at the attribute only for voltage, current
    and power. *)
Inductive hwmon_sensor : Type :=
| hwmon_chip
| hwmon_temp
| hwmon_in (attr : hwmon_in_attributes)
| hwmon_curr (attr : hwmon_curr_attributes)
| hwmon_power (attr : hwmon_power_attributes)
| hwmon_energy
| hwmon_humidity
| hwmon_fan
| hwmon_pwm
| hwmon_intrusion.

Definition ltc4282_read_curr (st : ltc4282_state)
  (attr : hwmon_curr_attributes) : result Z :=
  match attr with
  | hwmon_curr_input => ltc4282_read_current_word st LTC4282_VSENSE
  | hwmon_curr_highest => ltc4282_read_current_word st LTC4282_VSENSE_HIGHEST
  | hwmon_curr_lowest => ltc4282_read_current_word st LTC4282_VSENSE_LOWEST
  | hwmon_curr_max => ltc4282_read_current_byte st LTC4282_VSENSE_MAX
  | hwmon_curr_min => ltc4282_read_current_byte st LTC4282_VSENSE_MIN
  | hwmon_curr_max_alarm =>
      ltc4282_read_alarm st LTC4282_ADC_ALERT_LOG LTC4282_VSENSE_ALARM_H_MASK
  | hwmon_curr_min_alarm =>
      ltc4282_read_alarm st LTC4282_ADC_ALERT_LOG LTC4282_VSENSE_ALARM_L_MASK
  | hwmon_curr_crit_alarm =>
      ltc4282_read_alarm st LTC4282_STATUS_LSB LTC4282_OC_STATUS_MASK
  | _ => Err (- ENOTSUPP)
  end.

Definition ltc4282_read_power (st : ltc4282_state)
  (attr : hwmon_power_attributes) : result Z :=
  match attr with
  | hwmon_power_input => ltc4282_read_power_word st LTC4282_POWER
  | hwmon_power_input_highest =>
      ltc4282_read_power_word st LTC4282_POWER_HIGHEST
  | hwmon_power_input_lowest => ltc4282_read_power_word st LTC4282_POWER_LOWEST
  | hwmon_power_max_alarm =>
      ltc4282_read_alarm st LTC4282_ADC_ALERT_LOG LTC4282_POWER_ALARM_H_MASK
  | hwmon_power_min_alarm =>
      ltc4282_read_alarm st LTC4282_ADC_ALERT_LOG LTC4282_POWER_ALARM_L_MASK
  | hwmon_power_average => ltc4282_read_power_average st
  | hwmon_power_max => ltc4282_read_power_byte st LTC4282_POWER_MAX
  | hwmon_power_min => ltc4282_read_power_byte st LTC4282_POWER_MIN
  | _ => Err (- ENOTSUPP)
  end.

Definition ltc4282_read (st : ltc4282_state) (sensor : hwmon_sensor)
  (channel : Z) : result Z :=
  match sensor with
  | hwmon_in attr => ltc4282_read_in st attr channel
  | hwmon_curr attr => ltc4282_read_curr st attr
  | hwmon_power attr => ltc4282_read_power st attr
  | _ => Err (- ENOTSUPP)
  end.

Definition ltc4282_write_power (st : ltc4282_state)
  (attr : hwmon_power_attributes) (val : Z) : Z * ltc4282_state :=
  match attr with
  | hwmon_power_max => ltc4282_write_power_byte st LTC4282_POWER_MAX val
  | hwmon_power_min => ltc4282_write_power_byte st LTC4282_POWER_MIN val
  | _ => (- ENOTSUPP, st)
  end.

(** The sense voltage in millivolt that [ltc4282_write_curr] computes from
    the requested current before it looks at the attribute. *)
Definition ltc4282_write_curr_conv (rs val : Z) : Z :=
  u32 (DIV_ROUND_CLOSEST_ULL (u64 (u64 val * rs)) (DECA * MICRO)).

Definition ltc4282_write_curr (in_uninit : Z) (st : ltc4282_state)
  (attr : hwmon_curr_attributes) (val : Z) : Z * ltc4282_state :=
  let sense := ltc4282_write_curr_conv (rsense st) val in
  match attr with
  | hwmon_curr_max =>
      ltc4282_write_voltage_byte in_uninit st LTC4282_VSENSE_MAX 40 sense
  | hwmon_curr_min =>
      ltc4282_write_voltage_byte in_uninit st LTC4282_VSENSE_MIN 40 sense
  | _ => (- ENOTSUPP, st)
  end.

Definition ltc4282_write (in_uninit : Z) (st : ltc4282_state)
  (sensor : hwmon_sensor) (channel val : Z) : Z * ltc4282_state :=
  match sensor with
  | hwmon_power attr => ltc4282_write_power st attr val
  | hwmon_in attr => ltc4282_write_in in_uninit st attr val channel
  | hwmon_curr attr => ltc4282_write_curr in_uninit st attr val
  | _ => (- ENOTSUPP, st)
  end.

(** The octal file modes 0444 and 0644. *)
Definition mode_0444 : Z := 292.
Definition mode_0644 : Z := 420.

Definition ltc4282_in_is_visible (attr : hwmon_in_attributes) : Z :=
  match attr with
  | hwmon_in_input | hwmon_in_highest | hwmon_in_lowest
  | hwmon_in_max_alarm | hwmon_in_min_alarm | hwmon_in_label
  | hwmon_in_lcrit_alarm | hwmon_in_crit_alarm => mode_0444
  | hwmon_in_max | hwmon_in_min => mode_0644
  end.

Definition ltc4282_curr_is_visible (attr : hwmon_curr_attributes) : Z :=
  match attr with
  | hwmon_curr_input | hwmon_curr_highest | hwmon_curr_lowest
  | hwmon_curr_max_alarm | hwmon_curr_min_alarm | hwmon_curr_crit_alarm
  | hwmon_curr_label => mode_0444
  | hwmon_curr_max | hwmon_curr_min => mode_0644
  | _ => 0
  end.

Definition ltc4282_power_is_visible (attr : hwmon_power_attributes) : Z :=
  match attr with
  | hwmon_power_input | hwmon_power_input_highest | hwmon_power_input_lowest
  | hwmon_power_label | hwmon_power_max_alarm | hwmon_power_min_alarm
  | hwmon_power_average => mode_0444
  | hwmon_power_max | hwmon_power_min => mode_0644
  | _ => 0
  end.

(** [ltc4282_is_visible] returns a [umode_t], an [unsigned short]: the
    [-ENOTSUPP] of its [default] branch is converted to it. *)
Definition ltc4282_is_visible (sensor : hwmon_sensor) : Z :=
  match sensor with
  | hwmon_in attr => u16 (ltc4282_in_is_visible attr)
  | hwmon_curr attr => u16 (ltc4282_curr_is_visible attr)
  | hwmon_power attr => u16 (ltc4282_power_is_visible attr)
  | _ => u16 (- ENOTSUPP)
  end.

(** The attributes that carry a label: they are served by
    [ltc4282_read_labels], not by [ltc4282_read]. *)
Definition is_label (sensor : hwmon_sensor) : bool :=
  match sensor with
  | hwmon_in hwmon_in_label | hwmon_curr hwmon_curr_label
  | hwmon_power hwmon_power_label => true
  | _ => false
  end.

(** The sensor types the chip description declares channels for. *)
Definition has_channels (sensor : hwmon_sensor) : bool :=
  match sensor with
  | hwmon_in _ | hwmon_curr _ | hwmon_power _ => true
  | _ => false
  end.

(** What [ltc4282_probe] gets from the rest of the kernel: whether the two
    allocations succeed, the regmap [devm_regmap_init_i2c] yields (or its
    error), the regulator and polling outcomes of the power-on sequence, the
    input clock, the firmware node and GPIO layer, and the return code of
    the hwmon registration ([PTR_ERR_OR_ZERO]). *)
Record probe_env : Type := {
  pe_kzalloc : bool;
  pe_kmemdup : bool;
  pe_regmap : result regmap;
  pe_vdd_enable : Z;
  pe_poll : nat -> Z;
  pe_clkin : result (option Z);
  pe_env : ltc4282_env;
  pe_hwmon_register : Z;
}.

(** [ltc4282_probe]: the return code, and the driver state when one was
    allocated and attached to a regmap.  The 3.2 s sleep after the reset
    has no effect on the state. *)
Definition ltc4282_probe (pe : probe_env) : Z * option ltc4282_state :=
  if negb (pe_kzalloc pe) then (dev_err_probe (- ENOMEM), None)
  else if negb (pe_kmemdup pe) then (dev_err_probe (- ENOMEM), None)
  else
    match pe_regmap pe with
    | Err e => (dev_err_probe e, None)
    | Ok m =>
        let st := fresh_state m in
        let ret := fst (ltc4282_power_on (pe_vdd_enable pe) (pe_poll pe)) in
        if negb (ret =? 0) then (ret, Some st)
        else
          let '(ret, st) :=
            on_map st (fun m =>
              regmap_set_bits m LTC4282_ADC_CTRL LTC4282_RESET_MASK) in
          if negb (ret =? 0) then (ret, Some st)
          else
            let '(ret, st) :=
              run (ltc428_clks_setup (pe_clkin pe) (props (pe_env pe))) st in
            if negb (ret =? 0) then (ret, Some st)
            else
              let '(ret, st) := run (ltc4282_setup (pe_env pe)) st in
              if negb (ret =? 0) then (ret, Some st)
              else (pe_hwmon_register pe, Some st)
    end.

(** The registers the attach sequence writes: the reset bit, the clock
    divider, the two control bytes, the FET-bad timeout, the GPIO
    configuration and the current-limit adjust register. *)
Definition config_registers : list Z :=
  [LTC4282_ADC_CTRL; LTC4282_CLK_DIV; LTC4282_CTRL_LSB; LTC4282_CTRL_MSB;
   LTC4282_FET_BAD_FAULT_TIMEOUT; LTC4282_GPIO_CONFIG; LTC4282_ILIM_ADJUST].

(** The pins [ltc4282_gpio_setup] is asked to expose as plain GPIOs, in the
    order of the loop, the ALERT pin last. *)
Definition asks_plain_gpio (fw : gmap string Z) (gpio : Z) : bool :=
  match device_property_read_u32 fw
          (nth (Z.to_nat gpio) ltc4282_gpio_prop EmptyString) with
  | Ok func => func =? LTC4282_PIN_GPIO
  | Err _ => false
  end.

Definition plain_gpio_pins (fw : gmap string Z) : list Z :=
  List.filter (asks_plain_gpio fw)
    [LTC4282_GPIO_1; LTC4282_GPIO_2; LTC4282_GPIO_3]
  ++ (if device_property_read_bool fw "adi,alert-as-gp"
      then [LTC4282_ALERT] else []).

(** The function given for a pin, if any, is one of the pin's functions. *)
Definition func_in_range (fw : gmap string Z) (gpio : Z) : bool :=
  match device_property_read_u32 fw
          (nth (Z.to_nat gpio) ltc4282_gpio_prop EmptyString) with
  | Ok func => func <? n_funcs (gpio_desc gpio)
  | Err _ => true
  end.

(** The function given for a pin sends [ltc4282_non_gpio_setup] to the ADC
    input: the pin is GPIO2 or GPIO3 and the function is neither plain GPIO
    nor FET stress. *)
Definition asks_adc (fw : gmap string Z) (gpio : Z) : bool :=
  match device_property_read_u32 fw
          (nth (Z.to_nat gpio) ltc4282_gpio_prop EmptyString) with
  | Ok func =>
      negb (gpio =? LTC4282_GPIO_1) && negb (func =? LTC4282_PIN_GPIO)
      && negb (func =? LTC4282_PIN_FET_STRESS)
  | Err _ => false
  end.

(** A property of the state that the code keeps, whether it goes on or
    returns. *)
Definition preserves {A : Type} (P : ltc4282_state -> Prop) (p : proc A)
  : Prop :=
  forall st, P st -> post (fun _ s => P s) (fun _ s => P s) (p st).

(** The [count] registers from [reg] on are all within the map and
    readable. *)
Fixpoint readable_span (reg : Z) (count : nat) : bool :=
  match count with
  | O => true
  | S n =>
      (reg <=? max_register) && ltc4282_readable_reg reg
      && readable_span (reg + 1) n
  end.

(** An attach on a device whose VSOURCE max threshold holds 200: every
    allocation succeeds, the supply is found stable at the first poll, no
    input clock, the firmware node [env_24v]. *)
Definition probe_env_24v : probe_env :=
  {| pe_kzalloc := true; pe_kmemdup := true;
     pe_regmap := Ok (device_with LTC4282_VSOURCE_MAX 200);
     pe_vdd_enable := 0; pe_poll := fun _ => - ETIMEDOUT;
     pe_clkin := Ok None; pe_env := env_24v; pe_hwmon_register := 0 |}.

(** * Properties *)

(** ** Fixed-width arithmetic *)

Section Arith.

Lemma wrap_small bits x : 0 <= x < 2 ^ bits -> wrap bits x = x.
Proof. intros H. unfold wrap. now apply Z.mod_small. Qed.

Lemma wrap_range bits x : 0 <= bits -> 0 <= wrap bits x < 2 ^ bits.
Proof.
  intros Hb. unfold wrap. apply Z.mod_pos_bound.
  now apply Z.pow_pos_nonneg.
Qed.

Lemma u64_small x : 0 <= x < 2 ^ 64 -> u64 x = x.
Proof. apply wrap_small. Qed.

Lemma u32_small x : 0 <= x < 2 ^ 32 -> u32 x = x.
Proof. apply wrap_small. Qed.

Lemma u8_small x : 0 <= x < 2 ^ 8 -> u8 x = x.
Proof. apply wrap_small. Qed.

Lemma to_long_small x : 0 <= x < 2 ^ 63 -> to_long x = x.
Proof.
  intros H. unfold to_long. rewrite u64_small by lia.
  destruct (Z.ltb_spec x (2 ^ 63)); lia.
Qed.

(** Adding half the divisor and truncating is rounding to nearest. *)
Lemma half_up_round_div x d : 0 < d -> (x + d / 2) / d = round_div x d.
Proof.
  intros Hd. unfold round_div.
  assert (Hh : d = 2 * (d / 2) + d mod 2) by (apply Z.div_mod; lia).
  assert (Hm : 0 <= d mod 2 < 2) by (apply Z.mod_pos_bound; lia).
  set (h := d / 2) in *.
  set (m := d mod 2) in *.
  set (q := (x + h) / d).
  assert (Hq : d * q <= x + h < d * q + d).
  { pose proof (Z.mul_div_le (x + h) d Hd).
    pose proof (Z.mul_succ_div_gt (x + h) d Hd). fold q in H, H0. lia. }
  clearbody h m q.
  apply Z.div_unique with (r := 2 * x + d - 2 * d * q); lia.
Qed.

Lemma DIV_ROUND_CLOSEST_ULL_exact x d :
  0 <= x -> 0 < d < 2 ^ 32 -> x + d / 2 < 2 ^ 64 ->
  DIV_ROUND_CLOSEST_ULL x d = round_div x d.
Proof.
  intros Hx Hd Hs. unfold DIV_ROUND_CLOSEST_ULL.
  assert (0 <= d / 2) by (apply Z.div_pos; lia).
  rewrite u64_small, u32_small by lia.
  apply half_up_round_div; lia.
Qed.

Lemma DIV_ROUND_CLOSEST_ULL_range x d :
  0 <= DIV_ROUND_CLOSEST_ULL x d < 2 ^ 64.
Proof.
  unfold DIV_ROUND_CLOSEST_ULL.
  pose proof (wrap_range 64 (x + d / 2) ltac:(lia)) as Hn.
  pose proof (wrap_range 32 d ltac:(lia)) as Hd.
  fold u64 in Hn. fold u32 in Hd.
  destruct (Z.eq_dec (u32 d) 0) as [E | E].
  - rewrite E, Z.div_0_r. lia.
  - split.
    + apply Z.div_pos; lia.
    + apply Z.le_lt_trans with (m := u64 (x + d / 2)); [|lia].
      apply Z.div_le_upper_bound; nia.
Qed.

Lemma round_div_mono x y d : 0 < d -> x <= y -> round_div x d <= round_div y d.
Proof.
  intros Hd Hxy. unfold round_div. apply Z.div_le_mono; lia.
Qed.

End Arith.

(** Replace the powers of two that bound the integer types by their
    values, for the arithmetic solvers. *)
Ltac pow2 :=
  change (2 ^ 8) with 256 in *;
  change (2 ^ 32) with 4294967296 in *;
  change (2 ^ 48) with 281474976710656 in *;
  change (2 ^ 63) with 9223372036854775808 in *;
  change (2 ^ 64) with 18446744073709551616 in *.

(** ** Voltage conversion *)

(** Below 32 bits of full scale nothing wraps: the word-width conversion is
    [round(code * fs / 65535)]. *)
Lemma ltc4282_read_voltage_word_conv_exact fs code :
  0 <= code <= 65535 -> 0 <= fs < 2 ^ 32 ->
  ltc4282_read_voltage_word_conv fs code = round_div (code * fs) 65535.
Proof.
  intros Hc Hf. unfold ltc4282_read_voltage_word_conv, U16_MAX.
  assert (Hp : 0 <= code * fs < 2 ^ 48) by (pow2; nia).
  rewrite (u64_small fs) by lia.
  rewrite (u64_small (code * fs)) by lia.
  assert (Hh : 65535 / 2 = 32767) by reflexivity.
  rewrite DIV_ROUND_CLOSEST_ULL_exact by (pow2; lia).
  apply to_long_small.
  unfold round_div. pow2. split.
  - apply Z.div_pos; lia.
  - apply Z.div_lt_upper_bound; lia.
Qed.

(** The register access of [ltc4282_read_voltage_word] only feeds the code to
    the conversion. *)
Lemma ltc4282_read_voltage_word_code st reg fs code :
  regmap_bulk_read_le (map st) reg 2 = Ok code ->
  ltc4282_read_voltage_word st reg fs
  = Ok (ltc4282_read_voltage_word_conv fs code).
Proof. intros H. unfold ltc4282_read_voltage_word. now rewrite H. Qed.

(** C9: for every pair of 16-bit codes [c1 <= c2] and each of the four
    full-scale classes 5540, 8320, 16640 and 33280 mV, the word-width
    code-to-voltage conversion of [c1] is at most that of [c2]. *)
Theorem code_to_voltage_monotonic fs c1 c2 :
  In fs ltc4282_vfs_milli ->
  0 <= c1 -> c1 <= c2 -> c2 <= 65535 ->
  ltc4282_read_voltage_word_conv fs c1 <= ltc4282_read_voltage_word_conv fs c2.
Proof.
  intros Hfs H1 H12 H2.
  assert (Hf : 0 < fs < 2 ^ 32).
  { unfold ltc4282_vfs_milli in Hfs. cbn in Hfs.
    destruct Hfs as [<- | [<- | [<- | [<- | []]]]]; lia. }
  rewrite !ltc4282_read_voltage_word_conv_exact by lia.
  apply round_div_mono; nia.
Qed.

Lemma code_to_voltage_monotonic_witness :
  ltc4282_read_voltage_word_conv 16640 100
  <= ltc4282_read_voltage_word_conv 16640 65535.
Proof.
  apply (code_to_voltage_monotonic 16640 100 65535).
  - cbn. tauto.
  - lia.
  - lia.
  - lia.
Defined.

(** ** Byte-width power conversion *)

(** C2, the claim as stated fails: in 12 V mode (full scale 16640 mV) with a
    sense resistance of 2000, the power code 240 converts to 3144518570 uW,
    more than 500 times the 6289000 uW of the claim. *)
Lemma power_byte_example_counterexample :
  ltc4282_read_power_byte (state_12v (device_with LTC4282_POWER_MAX 240))
    LTC4282_POWER_MAX = Ok 3144518570
  /\ 500 * 6289000 < 3144518570.
Proof. split; [vm_compute; reflexivity | lia]. Qed.

(** C2 as amended: with a sense resistance of 2000 and the power code 240 in
    the register, the byte-width power conversion yields 3144518570 uW at
    the 16640 mV full scale of the 12 V mode, and 6289037140 uW (about
    6289000000 uW) at the 33280 mV full scale of the 24 V mode. *)
Theorem power_byte_example st reg :
  rsense st = 2000 ->
  regmap_read (map st) reg = Ok 240 ->
  (vfs_out st = 16640 -> ltc4282_read_power_byte st reg = Ok 3144518570)
  /\ (vfs_out st = 33280 -> ltc4282_read_power_byte st reg = Ok 6289037140).
Proof.
  intros Hr Hreg. unfold ltc4282_read_power_byte. rewrite Hreg, Hr.
  split; intros ->; reflexivity.
Qed.

Lemma power_byte_example_witness :
  ltc4282_read_power_byte (state_12v (device_with LTC4282_POWER_MAX 240))
    LTC4282_POWER_MAX = Ok 3144518570.
Proof.
  apply (power_byte_example
           (state_12v (device_with LTC4282_POWER_MAX 240)) LTC4282_POWER_MAX).
  - reflexivity.
  - vm_compute. reflexivity.
  - reflexivity.
Defined.

(** ** Threshold writes *)

(** Below full scale the value written is whatever [in] held at its
    declaration: the requested value plays no part. *)
Lemma ltc4282_write_voltage_byte_conv_below in_uninit fs val :
  val < fs -> ltc4282_write_voltage_byte_conv in_uninit fs val = in_uninit.
Proof.
  intros H. unfold ltc4282_write_voltage_byte_conv.
  destruct (Z.leb_spec fs val); [lia | reflexivity].
Qed.

(** At or above full scale the register maximum is written. *)
Lemma ltc4282_write_voltage_byte_conv_clamp in_uninit fs val :
  fs <= val -> ltc4282_write_voltage_byte_conv in_uninit fs val = U8_MAX.
Proof.
  intros H. unfold ltc4282_write_voltage_byte_conv.
  destruct (Z.leb_spec fs val); [reflexivity | lia].
Qed.

(** The power threshold write never hands more than 255 to the register. *)
Lemma ltc4282_write_power_byte_conv_clamped vfs rs val :
  0 <= ltc4282_write_power_byte_conv vfs rs val <= U8_MAX.
Proof.
  unfold ltc4282_write_power_byte_conv.
  match goal with |- context [u32 ?x] => set (power := u32 x) end.
  assert (0 <= power < 2 ^ 32) by (apply wrap_range; lia).
  unfold U8_MAX. destruct (Z.ltb_spec 255 power); lia.
Qed.

(** C3, evaluated at the failing input: a request of 640 mV against the
    1280 mV full scale of the VGPIO thresholds should write the code 128,
    and the driver writes the indeterminate content of [in], whatever it
    is, to the register; requests of 0 and of 1279 mV write the same. *)
Theorem write_voltage_byte_drops_code in_uninit :
  voltage_byte_code_spec 1280 640 = 128
  /\ ltc4282_write_voltage_byte_conv in_uninit 1280 640 = in_uninit
  /\ ltc4282_write_voltage_byte_conv in_uninit 1280 0 = in_uninit
  /\ ltc4282_write_voltage_byte_conv in_uninit 1280 1279 = in_uninit
  /\ regs (map (snd (ltc4282_write_in in_uninit
                       (fresh_state (device_with 0 0))
                       hwmon_in_max 640 LTC4282_CHAN_VGPIO)))
          LTC4282_VGPIO_MAX
     = u8 in_uninit.
Proof. repeat split. Qed.

(** ** Minimum and maximum voltage thresholds *)

(** C10: for every voltage channel, reading the min threshold reads the
    register the max threshold is read from, so both reads return the same
    on any register state; what the MIN registers hold has no effect on
    the min threshold read. *)
Theorem read_in_min_reads_max_register st channel v :
  ltc4282_read_in st hwmon_in_min channel
  = ltc4282_read_in st hwmon_in_max channel
  /\ ltc4282_read_in st hwmon_in_min channel
     = ltc4282_read_voltage_byte st
         (if channel =? LTC4282_CHAN_VSOURCE
          then LTC4282_VSOURCE_MAX else LTC4282_VGPIO_MAX)
         (if channel =? LTC4282_CHAN_VSOURCE then vfs_out st else 1280)
  /\ ltc4282_read_in (poke st LTC4282_VSOURCE_MIN v) hwmon_in_min channel
     = ltc4282_read_in st hwmon_in_min channel
  /\ ltc4282_read_in (poke st LTC4282_VGPIO_MIN v) hwmon_in_min channel
     = ltc4282_read_in st hwmon_in_min channel.
Proof.
  split; [reflexivity |].
  split; [cbn; destruct (channel =? LTC4282_CHAN_VSOURCE); reflexivity |].
  split; cbn; destruct (channel =? LTC4282_CHAN_VSOURCE); reflexivity.
Qed.

(** ** Power-on sequence *)

(** A supply found stable at the third poll: power-on succeeds after three
    polls. *)
Lemma ltc4282_power_on_third_poll poll :
  poll 0%nat = 0 -> poll 1%nat = 0 -> poll 2%nat = - ETIMEDOUT ->
  ltc4282_power_on 0 poll = (0, 3%nat).
Proof.
  intros H0 H1 H2. unfold ltc4282_power_on. cbn.
  rewrite H0. cbn. rewrite H1. cbn. rewrite H2. reflexivity.
Qed.

(** C5, evaluated at the failing input: with a status register that shows
    an over- or under-voltage bit in every polling window, the loop polls
    six times, leaves with [n_tries] wrapped around to 4294967295, and
    power-on returns 0; it is a supply found stable at the sixth poll that
    gets the timeout error.  A supply stable at the third poll succeeds. *)
Theorem power_on_never_stable_succeeds :
  ltc4282_power_on_loop (fun _ => 0) 0 5 = (Left_loop 4294967295, 6%nat)
  /\ ltc4282_power_on 0 (fun _ => 0) = (0, 6%nat)
  /\ ltc4282_power_on 0 (fun k => if (k <? 5)%nat then 0 else - ETIMEDOUT)
     = (- ETIMEDOUT, 6%nat)
  /\ ltc4282_power_on 0 (fun k => if (k <? 2)%nat then 0 else - ETIMEDOUT)
     = (0, 3%nat).
Proof. repeat split; vm_compute; reflexivity. Qed.

(** ** Register reads *)

Lemma result_bind_ok {A B : Type} (a : A) (f : A -> result B) :
  (Ok a ≫= f) = f a.
Proof. reflexivity. Qed.

Lemma regmap_read_range m reg v : regmap_read m reg = Ok v -> 0 <= v < 2 ^ 8.
Proof.
  unfold regmap_read. intros H.
  destruct ((max_register <? reg) || negb (ltc4282_readable_reg reg));
    [discriminate |].
  destruct (xfer m reg =? 0); [| discriminate].
  injection H as <-. apply wrap_range. lia.
Qed.

Lemma regmap_bulk_read_le_range count : forall m reg v,
  regmap_bulk_read_le m reg count = Ok v ->
  0 <= v < 2 ^ (8 * Z.of_nat count).
Proof.
  induction count as [| n IH]; intros m reg v H.
  - injection H as <-. cbn. lia.
  - cbn [regmap_bulk_read_le] in H.
    destruct (regmap_read m reg) as [b |] eqn:Hb; [| discriminate].
    cbn in H.
    destruct (regmap_bulk_read_le m (reg + 1) n) as [rest |] eqn:Hr;
      [| discriminate].
    cbn in H. injection H as <-.
    apply regmap_read_range in Hb. apply IH in Hr.
    replace (8 * Z.of_nat (S n)) with (8 + 8 * Z.of_nat n) by lia.
    rewrite Z.pow_add_r by lia. pow2. nia.
Qed.

Lemma ltc4282_read_energy_range st energy :
  ltc4282_read_energy st = Ok energy -> 0 <= energy < 2 ^ 64.
Proof.
  unfold ltc4282_read_energy. intros H.
  destruct (regmap_bulk_read_le (map st) LTC4282_ENERGY 6) as [code |];
    [| discriminate].
  cbn in H. injection H as <-.
  unfold ltc4282_read_energy_conv, check_mul_overflow.
  unfold ltc4282_energy_fallback, ltc4282_energy_fast.
  destruct (2 ^ 64 <=? ltc4282_energy_factor (vfs_out st) * code);
    apply DIV_ROUND_CLOSEST_ULL_range.
Qed.

(** ** Average power *)

Lemma ltc4282_read_power_average_split st energy count :
  ltc4282_read_energy st = Ok energy ->
  regmap_bulk_read_le (map st) LTC4282_TIME_COUNTER 4 = Ok count ->
  ltc4282_read_power_average st
  = Ok (ltc4282_read_power_average_conv energy count).
Proof.
  intros He Hc. unfold ltc4282_read_power_average.
  rewrite He, result_bind_ok, Hc. reflexivity.
Qed.

(** No overflow of [energy * MICRO] and no wrap of [65535 * count]: the
    exact quotient. *)
Lemma ltc4282_read_power_average_conv_exact energy count :
  0 <= energy -> 0 < count ->
  LTC4282_TCONV_US * count < 2 ^ 32 ->
  energy * MICRO + LTC4282_TCONV_US * count / 2 < 2 ^ 64 ->
  ltc4282_read_power_average_conv energy count
  = round_div (energy * MICRO) (count * LTC4282_TCONV_US).
Proof.
  unfold LTC4282_TCONV_US, MICRO. intros He Hc Hw Hs.
  assert (Hh : 0 <= 65535 * count / 2) by (apply Z.div_pos; lia).
  unfold ltc4282_read_power_average_conv, check_mul_overflow.
  unfold LTC4282_TCONV_US, MICRO.
  destruct (Z.eqb_spec count 0); [lia |].
  destruct (Z.leb_spec (2 ^ 64) (energy * 1000000)); [lia |].
  rewrite (u64_small (energy * 1000000)) by lia.
  rewrite (u32_small (65535 * count)) by lia.
  rewrite DIV_ROUND_CLOSEST_ULL_exact by lia.
  replace (count * 65535) with (65535 * count) by lia.
  apply to_long_small. unfold round_div. split.
  - apply Z.div_pos; lia.
  - apply Z.div_lt_upper_bound; pow2; lia.
Qed.

(** Overflow of [energy * MICRO]: the energy is divided by the conversion
    time first. *)
Lemma ltc4282_read_power_average_conv_fallback energy count :
  0 <= energy -> 0 < count < 2 ^ 32 ->
  2 ^ 64 <= energy * MICRO ->
  round_div energy LTC4282_TCONV_US * MICRO + count / 2 < 2 ^ 63 ->
  ltc4282_read_power_average_conv energy count
  = round_div (round_div energy LTC4282_TCONV_US * MICRO) count.
Proof.
  unfold LTC4282_TCONV_US, MICRO. intros He Hc Ho Hs.
  assert (Hh : 0 <= count / 2) by (apply Z.div_pos; lia).
  assert (Hr : 0 <= round_div energy 65535)
    by (unfold round_div; apply Z.div_pos; lia).
  assert (Hb : energy + 65535 / 2 < 2 ^ 64).
  { unfold round_div in Hs, Hr. pow2.
    pose proof (Z.mul_succ_div_gt (2 * energy + 65535) (2 * 65535)
                  ltac:(lia)) as Hq.
    set (q := (2 * energy + 65535) / (2 * 65535)) in *. clearbody q.
    change (65535 / 2) with 32767. lia. }
  assert (Hr' : 0 <= round_div energy 65535)
    by (unfold round_div; apply Z.div_pos; lia).
  unfold ltc4282_read_power_average_conv, check_mul_overflow.
  unfold LTC4282_TCONV_US, MICRO.
  destruct (Z.eqb_spec count 0); [lia |].
  destruct (Z.leb_spec (2 ^ 64) (energy * 1000000)); [| lia].
  rewrite (DIV_ROUND_CLOSEST_ULL_exact energy 65535) by (pow2; lia).
  rewrite (u64_small (round_div energy 65535 * 1000000)) by (pow2; lia).
  rewrite DIV_ROUND_CLOSEST_ULL_exact by (pow2; lia).
  apply to_long_small.
  rewrite <- half_up_round_div by lia. split.
  - apply Z.div_pos; lia.
  - apply Z.div_lt_upper_bound; [lia |]. nia.
Qed.

(** C4, the claim as stated fails on non-zero counters.  An energy of
    20000000000000 uJ over one conversion: [energy * MICRO] overflows, the
    fallback divides by the conversion time first and returns
    305180438000000, where [round(energy * 1000000 / 65535)] is
    305180437933928.  An energy of 65535 uJ over 65538 conversions: the
    32-bit product [65535 * 65538] wraps to 65534, and 1000015 is returned
    where the quotient is 15. *)
Lemma power_average_counterexample :
  ltc4282_read_power_average_conv 20000000000000 1 = 305180438000000
  /\ round_div (20000000000000 * 1000000) (1 * LTC4282_TCONV_US)
     = 305180437933928
  /\ ltc4282_read_power_average_conv 65535 65538 = 1000015
  /\ round_div (65535 * 1000000) (65538 * LTC4282_TCONV_US) = 15.
Proof. repeat split; vm_compute; reflexivity. Qed.

(** C4 as amended: with the energy and the counter read from the device,
    a counter of 0 gives success with result 0; a non-zero counter gives
    [round(energy * 1000000 / (counter * 65535))] when neither
    [energy * 1000000] (with its rounding addend) exceeds 64 bits nor
    [65535 * counter] exceeds 32 bits; and when [energy * 1000000]
    overflows 64 bits it gives the fallback
    [round(round(energy / 65535) * 1000000 / counter)]. *)
Theorem power_average_amended st energy count :
  ltc4282_read_energy st = Ok energy ->
  regmap_bulk_read_le (map st) LTC4282_TIME_COUNTER 4 = Ok count ->
  (count = 0 -> ltc4282_read_power_average st = Ok 0)
  /\ (count <> 0 ->
      LTC4282_TCONV_US * count < 2 ^ 32 ->
      energy * MICRO + LTC4282_TCONV_US * count / 2 < 2 ^ 64 ->
      ltc4282_read_power_average st
      = Ok (round_div (energy * MICRO) (count * LTC4282_TCONV_US)))
  /\ (count <> 0 ->
      2 ^ 64 <= energy * MICRO ->
      round_div energy LTC4282_TCONV_US * MICRO + count / 2 < 2 ^ 63 ->
      ltc4282_read_power_average st
      = Ok (round_div (round_div energy LTC4282_TCONV_US * MICRO) count)).
Proof.
  intros He Hc.
  rewrite (ltc4282_read_power_average_split st energy count He Hc).
  pose proof (ltc4282_read_energy_range st energy He) as Hre.
  pose proof (regmap_bulk_read_le_range 4 _ _ _ Hc) as Hrc.
  change (2 ^ (8 * Z.of_nat 4)) with (2 ^ 32) in Hrc.
  repeat split.
  - intros ->. reflexivity.
  - intros Hn Hw Hs. f_equal.
    apply ltc4282_read_power_average_conv_exact; lia.
  - intros Hn Ho Hs. f_equal.
    apply ltc4282_read_power_average_conv_fallback; lia.
Qed.

Lemma power_average_amended_witness :
  ltc4282_read_power_average (state_12v device_energy) = Ok 1983703.
Proof.
  refine (proj1 (proj2 (power_average_amended
                          (state_12v device_energy) 13000198 100 _ _)) _ _ _).
  - vm_compute. reflexivity.
  - vm_compute. reflexivity.
  - lia.
  - vm_compute. reflexivity.
  - vm_compute. reflexivity.
Defined.

(** ** The two paths of the energy conversion *)

(** Rounding [K * e / (65535 * r)] against rounding [q * e / r], where [q]
    is [K / 65535] rounded: the results are at most [1 + e / (2 * r)]
    apart. *)
Lemma predivision_error K q e r :
  0 < r -> 0 <= e ->
  -32767 <= 65535 * q - K <= 32767 ->
  Z.abs (round_div (K * e) (65535 * r) - round_div (q * e) r)
  <= 1 + e / (2 * r).
Proof.
  intros Hr He Hq. unfold round_div.
  set (f := (2 * (K * e) + 65535 * r) / (2 * (65535 * r))).
  set (g := (2 * (q * e) + r) / (2 * r)).
  assert (Hf : 2 * (65535 * r) * f <= 2 * (K * e) + 65535 * r
               < 2 * (65535 * r) * f + 2 * (65535 * r)).
  { pose proof (Z.mul_div_le (2 * (K * e) + 65535 * r) (2 * (65535 * r))
                  ltac:(lia)).
    pose proof (Z.mul_succ_div_gt (2 * (K * e) + 65535 * r)
                  (2 * (65535 * r)) ltac:(lia)).
    fold f in H, H0. lia. }
  assert (Hg : 2 * r * g <= 2 * (q * e) + r < 2 * r * g + 2 * r).
  { pose proof (Z.mul_div_le (2 * (q * e) + r) (2 * r) ltac:(lia)).
    pose proof (Z.mul_succ_div_gt (2 * (q * e) + r) (2 * r) ltac:(lia)).
    fold g in H, H0. lia. }
  clearbody f g.
  assert (Hd : -32767 * e <= 65535 * (q * e) - K * e <= 32767 * e) by nia.
  assert (Hb : 2 * r * (Z.abs (f - g) - 1) <= e).
  { destruct (Z.abs_spec (f - g)) as [[_ ->] | [_ ->]]; lia. }
  assert (Z.abs (f - g) - 1 <= e / (2 * r)); [| lia].
  apply Z.div_le_lower_bound; lia.
Qed.

Lemma ltc4282_energy_factor_class vfs :
  In vfs ltc4282_vfs_milli ->
  ltc4282_energy_factor vfs = 102400 * vfs
  /\ 0 < vfs <= 33280
  /\ -32767 <= 65535 * ((102400 * vfs + 32767) / 65535) - 102400 * vfs
     <= 32767.
Proof.
  unfold ltc4282_vfs_milli. cbn.
  intros [<- | [<- | [<- | [<- | []]]]]; vm_compute; intuition congruence.
Qed.

Lemma ltc4282_energy_fast_exact vfs rs energy :
  In vfs ltc4282_vfs_milli ->
  0 < rs -> U16_MAX * rs < 2 ^ 32 -> 0 <= energy ->
  ltc4282_energy_factor vfs * energy + U16_MAX * rs / 2 < 2 ^ 64 ->
  ltc4282_energy_fast vfs rs energy
  = round_div (102400 * vfs * energy) (65535 * rs).
Proof.
  intros Hv Hr Hw He Hs.
  destruct (ltc4282_energy_factor_class vfs Hv) as (HK & Hvr & _).
  unfold ltc4282_energy_fast. rewrite HK in *. unfold U16_MAX in *.
  assert (0 <= 65535 * rs / 2) by (apply Z.div_pos; lia).
  assert (0 <= 102400 * vfs * energy) by nia.
  rewrite (u32_small (65535 * rs)) by lia.
  rewrite (u64_small (102400 * vfs * energy)) by lia.
  apply DIV_ROUND_CLOSEST_ULL_exact; lia.
Qed.

Lemma ltc4282_energy_fallback_exact vfs rs energy :
  In vfs ltc4282_vfs_milli ->
  0 < rs < 2 ^ 32 -> 0 <= energy < 2 ^ 48 ->
  ltc4282_energy_fallback vfs rs energy
  = round_div ((102400 * vfs + 32767) / 65535 * energy) rs.
Proof.
  intros Hv Hr He.
  destruct (ltc4282_energy_factor_class vfs Hv) as (HK & Hvr & _).
  unfold ltc4282_energy_fallback, DIV_ROUND_CLOSEST. rewrite HK.
  unfold U16_MAX. change (65535 / 2) with 32767.
  rewrite (wrap_small 64 (102400 * vfs + 32767)) by (pow2; lia).
  set (q := (102400 * vfs + 32767) / 65535).
  assert (Hq : 0 <= q < 52002).
  { unfold q. split.
    - apply Z.div_pos; lia.
    - apply Z.div_lt_upper_bound; lia. }
  clearbody q.
  assert (0 <= rs / 2 < 2147483648).
  { split; [apply Z.div_pos; lia |].
    apply Z.div_lt_upper_bound; pow2; lia. }
  assert (0 <= q * energy < 52002 * 2 ^ 48) by (pow2; nia).
  rewrite (u64_small (q * energy)) by (pow2; lia).
  apply DIV_ROUND_CLOSEST_ULL_exact; pow2; lia.
Qed.

(** C1, the claim as stated fails: in 12 V mode with a sense resistance of
    2000, the energy code 1000000 does not overflow the fast path
    ([1703936000 * 1000000] fits 64 bits) and converts to 13000198 uJ on
    the fast path, to 13000000 uJ on the pre-division path: 198 apart. *)
Lemma energy_paths_counterexample :
  check_mul_overflow (ltc4282_energy_factor 16640) 1000000
  = (false, 1703936000000000)
  /\ ltc4282_energy_fast 16640 2000 1000000 = 13000198
  /\ ltc4282_energy_fallback 16640 2000 1000000 = 13000000
  /\ ltc4282_read_energy_conv 16640 2000 1000000 = 13000198.
Proof. repeat split; vm_compute; reflexivity. Qed.

(** C1 as amended: for every 48-bit energy code, full-scale class and
    positive sense resistance (with [65535 * rsense] within 32 bits) for
    which the fast-path product with its rounding addend does not overflow
    64 bits, the energy conversion takes the fast path, and the fast path
    and the pre-division path differ by at most [1 + code / (2 * rsense)]
    microjoule; by at most 1 for codes below [2 * rsense]. *)
Theorem energy_paths_bound vfs rs energy :
  In vfs ltc4282_vfs_milli ->
  0 < rs -> U16_MAX * rs < 2 ^ 32 -> 0 <= energy < 2 ^ 48 ->
  ltc4282_energy_factor vfs * energy + U16_MAX * rs / 2 < 2 ^ 64 ->
  ltc4282_read_energy_conv vfs rs energy = ltc4282_energy_fast vfs rs energy
  /\ Z.abs (ltc4282_energy_fast vfs rs energy
            - ltc4282_energy_fallback vfs rs energy)
     <= 1 + energy / (2 * rs)
  /\ (energy < 2 * rs ->
      Z.abs (ltc4282_energy_fast vfs rs energy
             - ltc4282_energy_fallback vfs rs energy) <= 1).
Proof.
  intros Hv Hr Hw He Hs.
  destruct (ltc4282_energy_factor_class vfs Hv) as (HK & Hvr & Hq).
  assert (Hbound : Z.abs (ltc4282_energy_fast vfs rs energy
                          - ltc4282_energy_fallback vfs rs energy)
                   <= 1 + energy / (2 * rs)).
  { rewrite ltc4282_energy_fast_exact by (assumption || lia).
    rewrite ltc4282_energy_fallback_exact
      by (try assumption; unfold U16_MAX in *; lia).
    apply predivision_error; lia. }
  split; [| split].
  - unfold ltc4282_read_energy_conv, check_mul_overflow.
    assert (0 <= U16_MAX * rs / 2)
      by (apply Z.div_pos; unfold U16_MAX; lia).
    destruct (Z.leb_spec (2 ^ 64) (ltc4282_energy_factor vfs * energy));
      [lia | reflexivity].
  - exact Hbound.
  - intros Hlt. rewrite (Z.div_small energy (2 * rs)) in Hbound by lia. lia.
Qed.

Lemma energy_paths_bound_witness :
  Z.abs (ltc4282_energy_fast 16640 2000 1000000
         - ltc4282_energy_fallback 16640 2000 1000000)
  <= 1 + 1000000 / (2 * 2000).
Proof.
  refine (proj1 (proj2 (energy_paths_bound 16640 2000 1000000 _ _ _ _ _))).
  - cbn. tauto.
  - lia.
  - vm_compute. reflexivity.
  - lia.
  - vm_compute. reflexivity.
Defined.

(** The fast path of the word-width power conversion runs on a [temp] that
    [check_mul_overflow] has already multiplied by the code and by MICRO:
    for the code 100 in 12 V mode with a sense resistance of 2000 it
    returns 21212333242, where the formula of the source comment gives
    5078280 uW. *)
Example power_word_reuses_temp :
  ltc4282_read_power_word_conv 16640 2000 100 = 21212333242
  /\ round_div (100 * (DECA * 40 * 16640 * 2 ^ 16) * MICRO)
               (2000 * (U16_MAX * U16_MAX)) = 5078280.
Proof. split; vm_compute; reflexivity. Qed.

(** ** Register updates on a bus without faults *)

Lemma u8_idem x : u8 (u8 x) = u8 x.
Proof. unfold u8, wrap. apply Z.mod_mod. lia. Qed.

Lemma regmap_read_bus_ok m reg :
  bus_ok m -> reg <= max_register -> ltc4282_readable_reg reg = true ->
  regmap_read m reg = Ok (u8 (regs m reg)).
Proof.
  intros Hb Hm Hr. unfold regmap_read. rewrite Hr, (Hb reg).
  destruct (Z.ltb_spec max_register reg); [lia | reflexivity].
Qed.

Lemma regmap_write_bus_ok m reg val :
  bus_ok m -> accessible reg = true ->
  regmap_write m reg val
  = (0, {| regs := <[reg := u8 val]> (regs m); xfer := xfer m |}).
Proof.
  intros Hb Ha. unfold accessible in Ha.
  apply andb_prop in Ha as [Ha Hw]. apply andb_prop in Ha as [Hm Hr].
  unfold regmap_write. rewrite Hw, (Hb reg).
  destruct (Z.ltb_spec max_register reg); [lia | reflexivity].
Qed.

(** On a bus without faults an update of an accessible register succeeds,
    leaves the masked combination in that register and touches no other. *)
Lemma regmap_update_bits_bus_ok m reg mask val :
  bus_ok m -> accessible reg = true ->
  exists m',
    regmap_update_bits m reg mask val = (0, m')
    /\ bus_ok m'
    /\ u8 (regs m' reg)
       = u8 (Z.lor (Z.land (u8 (regs m reg)) (Z.lnot mask)) (Z.land val mask))
    /\ (forall r, r <> reg -> regs m' r = regs m r).
Proof.
  intros Hb Ha. pose proof Ha as Ha'. unfold accessible in Ha'.
  apply andb_prop in Ha' as [Ha' Hw]. apply andb_prop in Ha' as [Hm Hr].
  unfold regmap_update_bits.
  rewrite regmap_read_bus_ok by (assumption || lia).
  set (tmp := Z.lor _ _).
  destruct (Z.eqb_spec tmp (u8 (regs m reg))) as [E | E].
  - exists m. repeat split; try assumption.
    now rewrite E, u8_idem.
  - rewrite regmap_write_bus_ok by assumption.
    eexists. split; [reflexivity |]. cbn. repeat split.
    + exact Hb.
    + now rewrite fn_lookup_insert, u8_idem.
    + intros r Hne. apply fn_lookup_insert_ne. congruence.
Qed.

(** ** GPIO polarity *)

Lemma to_bool_land_bit x k :
  0 <= k -> to_bool (Z.land x (Z.shiftl 1 k)) = Z.b2z (Z.testbit x k).
Proof.
  intros Hk. rewrite Z.shiftl_1_l. unfold to_bool.
  destruct (Z.testbit x k) eqn:Hx.
  - destruct (Z.eqb_spec (Z.land x (2 ^ k)) 0) as [E | E]; [| reflexivity].
    assert (Hbit : Z.testbit (Z.land x (2 ^ k)) k = true).
    { rewrite Z.land_spec, Hx, Z.pow2_bits_true by lia. reflexivity. }
    rewrite E, Z.bits_0 in Hbit. discriminate.
  - assert (E : Z.land x (2 ^ k) = 0).
    { apply Z.bits_inj'. intros i Hi.
      rewrite Z.land_spec, Z.bits_0, Z.pow2_bits_eqb by lia.
      destruct (Z.eqb_spec k i) as [-> |]; [now rewrite Hx |].
      apply andb_false_r. }
    rewrite E. reflexivity.
Qed.

(** The bit an update with [LTC4282_FIELD_PREP] leaves under a one-bit
    mask is bit 0 of the value given. *)
Lemma update_one_bit orig v k :
  0 <= k < 8 -> ffs (Z.shiftl 1 k) - 1 = k ->
  Z.testbit
    (u8 (Z.lor (Z.land orig (Z.lnot (Z.shiftl 1 k)))
               (Z.land (LTC4282_FIELD_PREP (Z.shiftl 1 k) v) (Z.shiftl 1 k))))
    k
  = Z.testbit v 0.
Proof.
  intros Hk Hf. unfold LTC4282_FIELD_PREP. rewrite Hf.
  unfold u8, wrap. rewrite Z.mod_pow2_bits_low by lia.
  rewrite !Z.shiftl_1_l.
  rewrite Z.lor_spec, !Z.land_spec, Z.lnot_spec, Z.shiftl_spec by lia.
  rewrite Z.pow2_bits_true by lia.
  rewrite Z.sub_diag. cbn. now rewrite andb_false_r, !andb_true_r.
Qed.

Lemma lnot_bit0 val : Z.b2z (Z.testbit (lnot val) 0) = lnot val.
Proof. unfold lnot. destruct (val =? 0); reflexivity. Qed.

(** What [ltc4282_gpio_set] leaves under the output mask of a pin. *)
Lemma ltc4282_gpio_set_bit st offset val k :
  bus_ok (map st) ->
  let gpio := gpio_desc (gpio_pin st offset) in
  accessible (out_reg gpio) = true ->
  out_mask gpio = Z.shiftl 1 k -> 0 <= k < 8 -> ffs (Z.shiftl 1 k) - 1 = k ->
  to_bool (Z.land (u8 (regs (map (ltc4282_gpio_set st offset val))
                            (out_reg gpio)))
                  (out_mask gpio))
  = Z.b2z (Z.testbit (if active_high gpio then val else lnot val) 0).
Proof.
  intros Hb gpio Ha Hm Hk Hf. unfold ltc4282_gpio_set, on_map. fold gpio.
  set (v := if active_high gpio then val else lnot val).
  destruct (regmap_update_bits_bus_ok (map st) (out_reg gpio) (out_mask gpio)
              (LTC4282_FIELD_PREP (out_mask gpio) v) Hb Ha)
    as (m' & Hu & _ & Hreg & _).
  rewrite Hu.
  change (map (snd (0, set_map st m'))) with m'.
  rewrite Hreg, Hm, to_bool_land_bit by lia.
  f_equal. apply update_one_bit; assumption.
Qed.

(** C8, the claim as stated fails for value-get: on the active-low pin
    GPIO2 (logical offset 1) with its status bit set in the register,
    [ltc4282_gpio_get] returns 1, the register bit as it is, not its
    inverse. *)
Lemma gpio_get_counterexample :
  gpio_pin state_gpio2_high 1 = LTC4282_GPIO_2
  /\ active_high (gpio_desc LTC4282_GPIO_2) = false
  /\ to_bool (Z.land (regs (map state_gpio2_high) LTC4282_STATUS_MSB)
                     LTC4282_GPIO_2_STATUS_MASK) = 1
  /\ ltc4282_gpio_get state_gpio2_high 1 = 1.
Proof. repeat split. Qed.

(** C8 as amended: on a bus without faults, for each of the four pins,
    value-set leaves bit 0 of the requested value under the pin's output
    mask when the pin is active-high (GPIO1) and the logical negation of
    the requested value when it is active-low (GPIO2, GPIO3, ALERT);
    value-get returns the pin's status bit as it is, on every pin. *)
Theorem gpio_polarity st offset val :
  bus_ok (map st) ->
  0 <= gpio_pin st offset <= 3 ->
  let gpio := gpio_desc (gpio_pin st offset) in
  to_bool (Z.land (u8 (regs (map (ltc4282_gpio_set st offset val))
                            (out_reg gpio)))
                  (out_mask gpio))
  = (if active_high gpio then Z.b2z (Z.testbit val 0) else lnot val)
  /\ ltc4282_gpio_get st offset
     = to_bool (Z.land (u8 (regs (map st) (in_reg gpio))) (in_mask gpio)).
Proof.
  intros Hb Hp gpio.
  assert (Hcase : gpio_pin st offset = 0 \/ gpio_pin st offset = 1
                  \/ gpio_pin st offset = 2 \/ gpio_pin st offset = 3) by lia.
  split.
  - assert (Hset : exists k,
               accessible (out_reg gpio) = true
               /\ out_mask gpio = Z.shiftl 1 k /\ 0 <= k < 8
               /\ ffs (Z.shiftl 1 k) - 1 = k).
    { unfold gpio.
      destruct Hcase as [-> | [-> | [-> | ->]]];
        [exists 3 | exists 6 | exists 7 | exists 6];
        repeat split; lia. }
    destruct Hset as (k & Ha & Hm & Hk & Hf).
    pose proof (ltc4282_gpio_set_bit st offset val k Hb Ha Hm Hk Hf) as Hs.
    cbv zeta in Hs. subst gpio. rewrite Hs.
    destruct (active_high (gpio_desc (gpio_pin st offset)));
      [reflexivity | apply lnot_bit0].
  - unfold ltc4282_gpio_get. subst gpio.
    rewrite regmap_read_bus_ok; [reflexivity | exact Hb | |];
      destruct Hcase as [-> | [-> | [-> | ->]]];
      vm_compute; congruence.
Qed.

Lemma gpio_polarity_witness :
  to_bool (Z.land (u8 (regs (map (ltc4282_gpio_set state_gpio2_high 1 1))
                            LTC4282_GPIO_CONFIG))
                  LTC4282_GPIO_2_OUT_MASK) = 0
  /\ ltc4282_gpio_get state_gpio2_high 1 = 1.
Proof.
  apply (gpio_polarity state_gpio2_high 1 1).
  - intros reg. reflexivity.
  - change (0 <= 1 <= 3). lia.
Defined.

(** ** Reasoning about code with early returns *)

Lemma post_bind {A B : Type} (m : proc A) (f : A -> proc B) st N N' R :
  post N R (m st) ->
  (forall a s, N a s -> post N' R (f a s)) ->
  post N' R ((m ≫= f) st).
Proof.
  intros Hm Hf. unfold mbind, proc_bind.
  destruct (m st) as [[a | r] s]; cbn in *; auto.
Qed.

Lemma post_weaken {A : Type} (N N' : A -> ltc4282_state -> Prop)
  (R R' : Z -> ltc4282_state -> Prop) res :
  post N R res ->
  (forall a s, N a s -> N' a s) -> (forall r s, R r s -> R' r s) ->
  post N' R' res.
Proof. destruct res as [[a | r] s]; cbn; auto. Qed.

Lemma post_run (p : proc Z) st (R : Z -> ltc4282_state -> Prop) :
  post R R (p st) -> R (fst (run p st)) (snd (run p st)).
Proof. unfold run. destruct (p st) as [[a | r] s]; cbn; auto. Qed.

(** Name the outcome of the next register operation. *)
Ltac on_map_cases ret st1 :=
  match goal with
  | |- context [on_map ?s ?op] => destruct (on_map s op) as [ret st1]
  end.

(** A checked register operation goes on with return code 0 or returns a
    non-zero code. *)
Lemma checked_reg_op op st :
  post (fun _ _ => True) (fun r _ => r <> 0)
       ((reg_op op ≫= return_if_err) st).
Proof.
  unfold mbind, proc_bind, reg_op, return_if_err.
  on_map_cases ret st1.
  destruct (Z.eqb_spec ret 0); cbn; auto.
Qed.

(** ** GPIO function assignment *)

(** Once a pin holds the ADC input, a further request for it is refused
    before any register is touched. *)
Lemma ltc4282_non_gpio_setup_second_adc pin func st :
  pin <> LTC4282_GPIO_1 -> func <> LTC4282_PIN_FET_STRESS ->
  ltc4282_non_gpio_setup pin func true st = (Next (- EINVAL, true), st).
Proof.
  intros Hp Hf. unfold ltc4282_non_gpio_setup.
  destruct (Z.eqb_spec pin LTC4282_GPIO_1); [contradiction |].
  destruct (Z.eqb_spec func LTC4282_PIN_FET_STRESS); [contradiction |].
  reflexivity.
Qed.

(** The first such request is recorded in [*adc_in]. *)
Lemma ltc4282_non_gpio_setup_first_adc pin func st :
  pin <> LTC4282_GPIO_1 -> func <> LTC4282_PIN_FET_STRESS ->
  exists ret st1,
    ltc4282_non_gpio_setup pin func false st = (Next (ret, true), st1).
Proof.
  intros Hp Hf. unfold ltc4282_non_gpio_setup.
  destruct (Z.eqb_spec pin LTC4282_GPIO_1); [contradiction |].
  destruct (Z.eqb_spec func LTC4282_PIN_FET_STRESS); [contradiction |].
  unfold mbind, proc_bind, reg_op.
  on_map_cases ret st1. now exists ret, st1.
Qed.

(** The flag is never cleared. *)
Lemma ltc4282_non_gpio_setup_keeps_adc pin func st :
  post (fun r _ => snd r = true) (fun _ _ => False)
       (ltc4282_non_gpio_setup pin func true st).
Proof.
  unfold ltc4282_non_gpio_setup.
  destruct (pin =? LTC4282_GPIO_1); [| destruct (func =? _)];
    unfold mbind, proc_bind, reg_op;
    try on_map_cases ret st1; reflexivity.
Qed.

(** The iteration over GPIO1, with a function that is absent or in range:
    the ADC input stays free. *)
Lemma ltc4282_gpio_setup_iter_gpio1 fw ngpios st :
  (forall f0, device_property_read_u32 fw "adi,gpio0-mode" = Ok f0 -> f0 < 3) ->
  post (fun l _ => snd l = false) (fun r _ => r <> 0)
       (ltc4282_gpio_setup_iter fw LTC4282_GPIO_1 (ngpios, false) st).
Proof.
  intros Hv. unfold ltc4282_gpio_setup_iter.
  change (nth (Z.to_nat LTC4282_GPIO_1) ltc4282_gpio_prop EmptyString)
    with "adi,gpio0-mode"%string.
  destruct (device_property_read_u32 fw "adi,gpio0-mode") as [f0 |];
    [| reflexivity].
  specialize (Hv f0 eq_refl).
  change (n_funcs (gpio_desc LTC4282_GPIO_1)) with 3.
  destruct (Z.leb_spec 3 f0); [lia |].
  destruct (f0 =? LTC4282_PIN_GPIO).
  - change (LTC4282_GPIO_1 =? LTC4282_GPIO_1) with true. cbv iota.
    unfold mbind, proc_bind, modify, reg_op, return_if_err.
    on_map_cases ret st1.
    destruct (Z.eqb_spec ret 0); cbn; auto.
  - unfold ltc4282_non_gpio_setup.
    change (LTC4282_GPIO_1 =? LTC4282_GPIO_1) with true. cbv iota.
    unfold mbind, proc_bind, reg_op, return_if_err.
    on_map_cases ret st1. cbn.
    destruct (Z.eqb_spec ret 0); cbn; auto.
Qed.

(** The iteration over GPIO2 with function 1 or 2 takes the ADC input. *)
Lemma ltc4282_gpio_setup_iter_gpio2 fw ngpios f2 st :
  device_property_read_u32 fw "adi,gpio1-mode" = Ok f2 ->
  f2 = 1 \/ f2 = 2 ->
  post (fun l _ => snd l = true) (fun r _ => r <> 0)
       (ltc4282_gpio_setup_iter fw LTC4282_GPIO_2 (ngpios, false) st).
Proof.
  intros Hf Hv. unfold ltc4282_gpio_setup_iter.
  change (nth (Z.to_nat LTC4282_GPIO_2) ltc4282_gpio_prop EmptyString)
    with "adi,gpio1-mode"%string.
  rewrite Hf.
  destruct (ltc4282_non_gpio_setup_first_adc LTC4282_GPIO_2 f2 st)
    as (ret & st1 & Hn);
    [discriminate | unfold LTC4282_PIN_FET_STRESS; lia |].
  change (n_funcs (gpio_desc LTC4282_GPIO_2)) with 3.
  destruct (Z.leb_spec 3 f2); [lia |].
  destruct (Z.eqb_spec f2 LTC4282_PIN_GPIO);
    [unfold LTC4282_PIN_GPIO in *; lia |].
  unfold mbind, proc_bind. rewrite Hn.
  unfold return_if_err. cbn [fst snd].
  destruct (Z.eqb_spec ret 0); cbn; auto.
Qed.

(** The iteration over GPIO3 with function 1, when the ADC input is taken:
    it returns [-EINVAL]. *)
Lemma ltc4282_gpio_setup_iter_gpio3 fw ngpios st :
  device_property_read_u32 fw "adi,gpio2-mode" = Ok 1 ->
  post (fun _ _ => False) (fun r s => r = - EINVAL /\ s = st)
       (ltc4282_gpio_setup_iter fw LTC4282_GPIO_3 (ngpios, true) st).
Proof.
  intros Hf. unfold ltc4282_gpio_setup_iter.
  change (nth (Z.to_nat LTC4282_GPIO_3) ltc4282_gpio_prop EmptyString)
    with "adi,gpio2-mode"%string.
  rewrite Hf.
  change (n_funcs (gpio_desc LTC4282_GPIO_3) <=? 1) with false.
  change (1 =? LTC4282_PIN_GPIO) with false. cbv iota.
  unfold mbind, proc_bind.
  rewrite ltc4282_non_gpio_setup_second_adc by discriminate.
  cbn [fst snd].
  change (return_if_err (- EINVAL) st) with (@Return unit (- EINVAL), st).
  cbn. auto.
Qed.

(** A register update through [st->map] on a bus without faults. *)
Lemma on_map_update_bits_bus_ok st reg mask val :
  bus_ok (map st) -> accessible reg = true ->
  exists st1,
    on_map st (fun m => regmap_update_bits m reg mask val) = (0, st1)
    /\ bus_ok (map st1)
    /\ (forall r, r <> reg -> regs (map st1) r = regs (map st) r).
Proof.
  intros Hb Ha. unfold on_map.
  destruct (regmap_update_bits_bus_ok (map st) reg mask val Hb Ha)
    as (m' & -> & Hb' & _ & Ho).
  exists (set_map st m'). repeat split; assumption.
Qed.

Lemma ltc4282_gpio_setup_iter_gpio1_bus_ok fw ngpios st :
  bus_ok (map st) ->
  (forall f0, device_property_read_u32 fw "adi,gpio0-mode" = Ok f0 -> f0 < 3) ->
  post (fun l s => snd l = false /\ bus_ok (map s)) (fun _ _ => False)
       (ltc4282_gpio_setup_iter fw LTC4282_GPIO_1 (ngpios, false) st).
Proof.
  intros Hb Hv. unfold ltc4282_gpio_setup_iter.
  change (nth (Z.to_nat LTC4282_GPIO_1) ltc4282_gpio_prop EmptyString)
    with "adi,gpio0-mode"%string.
  destruct (device_property_read_u32 fw "adi,gpio0-mode") as [f0 |];
    [| cbn; auto].
  specialize (Hv f0 eq_refl).
  change (n_funcs (gpio_desc LTC4282_GPIO_1)) with 3.
  destruct (Z.leb_spec 3 f0); [lia |].
  destruct (f0 =? LTC4282_PIN_GPIO).
  - change (LTC4282_GPIO_1 =? LTC4282_GPIO_1) with true. cbv iota.
    unfold mbind, proc_bind, modify, reg_op, return_if_err, regmap_set_bits.
    destruct (on_map_update_bits_bus_ok
                (set_gpio_map ngpios LTC4282_GPIO_1 st) LTC4282_GPIO_CONFIG
                LTC4282_GPIO_1_CONFIG_MASK LTC4282_GPIO_1_CONFIG_MASK)
      as (st1 & -> & Hb1 & _); [exact Hb | reflexivity |].
    cbn. auto.
  - unfold ltc4282_non_gpio_setup.
    change (LTC4282_GPIO_1 =? LTC4282_GPIO_1) with true. cbv iota.
    unfold mbind, proc_bind, reg_op, return_if_err.
    match goal with
    | |- context [on_map st (fun m => regmap_update_bits m ?r ?k ?v)] =>
        destruct (on_map_update_bits_bus_ok st r k v)
          as (st1 & -> & Hb1 & _); [exact Hb | reflexivity |]
    end.
    cbn. auto.
Qed.

Lemma ltc4282_gpio_setup_iter_gpio2_bus_ok fw ngpios f2 st :
  bus_ok (map st) ->
  device_property_read_u32 fw "adi,gpio1-mode" = Ok f2 ->
  f2 = 1 \/ f2 = 2 ->
  post (fun l s => snd l = true /\ bus_ok (map s)) (fun _ _ => False)
       (ltc4282_gpio_setup_iter fw LTC4282_GPIO_2 (ngpios, false) st).
Proof.
  intros Hb Hf Hv. unfold ltc4282_gpio_setup_iter.
  change (nth (Z.to_nat LTC4282_GPIO_2) ltc4282_gpio_prop EmptyString)
    with "adi,gpio1-mode"%string.
  rewrite Hf.
  change (n_funcs (gpio_desc LTC4282_GPIO_2)) with 3.
  destruct (Z.leb_spec 3 f2); [lia |].
  destruct (Z.eqb_spec f2 LTC4282_PIN_GPIO);
    [unfold LTC4282_PIN_GPIO in *; lia |].
  unfold ltc4282_non_gpio_setup.
  change (LTC4282_GPIO_2 =? LTC4282_GPIO_1) with false. cbv iota.
  destruct (Z.eqb_spec f2 LTC4282_PIN_FET_STRESS);
    [unfold LTC4282_PIN_FET_STRESS in *; lia |].
  unfold mbind, proc_bind, reg_op, return_if_err.
  match goal with
  | |- context [on_map st (fun m => regmap_update_bits m ?r ?k ?v)] =>
      destruct (on_map_update_bits_bus_ok st r k v)
        as (st1 & -> & Hb1 & _); [exact Hb | reflexivity |]
  end.
  cbn. auto.
Qed.

(** The path that refuses a second pin.  When GPIO2 (function 1 or 2) has
    taken the ADC input and GPIO3 asks with function 1, the one function
    that gets it past the range check, and the function of GPIO1 is absent
    or in range, [ltc4282_gpio_setup] never returns success: the second
    request is refused, with [-EINVAL] on a bus without faults.  The
    refusal is that of [ltc4282_non_gpio_setup], which returns [-EINVAL]
    without touching a register whenever the ADC input is asked for while
    [*adc_in] is set. *)
Lemma adc_input_exclusive env st f2 :
  config_gpiolib env = true ->
  (forall f0,
      device_property_read_u32 (props env) "adi,gpio0-mode" = Ok f0 ->
      f0 < 3) ->
  device_property_read_u32 (props env) "adi,gpio1-mode" = Ok f2 ->
  f2 = 1 \/ f2 = 2 ->
  device_property_read_u32 (props env) "adi,gpio2-mode" = Ok 1 ->
  fst (run (ltc4282_gpio_setup env) st) <> 0
  /\ (bus_ok (map st) -> fst (run (ltc4282_gpio_setup env) st) = - EINVAL)
  /\ (forall pin func,
         pin <> LTC4282_GPIO_1 -> func <> LTC4282_PIN_FET_STRESS ->
         ltc4282_non_gpio_setup pin func true st
         = (Next (- EINVAL, true), st)).
Proof.
  intros Hg H0 H1 Hf2 H2. split; [| split].
  3: { intros pin func Hp Hf.
       now apply ltc4282_non_gpio_setup_second_adc. }
  - apply (post_run (ltc4282_gpio_setup env) st (fun r _ => r <> 0)).
    unfold ltc4282_gpio_setup. rewrite Hg. cbv iota. cbn [negb].
    eapply post_weaken with (N := fun _ _ => False) (R := fun r _ => r <> 0);
      [| tauto | auto].
    eapply post_bind with (N := fun _ _ => False); [| tauto].
    cbn [ltc4282_gpio_setup_loop].
    eapply post_bind; [apply ltc4282_gpio_setup_iter_gpio1, H0 |].
    intros [n1 a1] s1 Ha1. cbn in Ha1. subst a1.
    eapply post_bind;
      [apply (ltc4282_gpio_setup_iter_gpio2 _ _ f2); assumption |].
    intros [n2 a2] s2 Ha2. cbn in Ha2. subst a2.
    eapply post_bind with (N := fun _ _ => False); [| tauto].
    eapply post_weaken;
      [apply ltc4282_gpio_setup_iter_gpio3, H2 | tauto |].
    cbn. intros r s [-> _]. discriminate.
  - intros Hb.
    apply (post_run (ltc4282_gpio_setup env) st (fun r _ => r = - EINVAL)).
    unfold ltc4282_gpio_setup. rewrite Hg. cbv iota. cbn [negb].
    eapply post_weaken
      with (N := fun _ _ => False) (R := fun r _ => r = - EINVAL);
      [| tauto | auto].
    eapply post_bind with (N := fun _ _ => False); [| tauto].
    cbn [ltc4282_gpio_setup_loop].
    eapply post_bind with (R := fun r _ => r = - EINVAL).
    { eapply post_weaken;
        [apply ltc4282_gpio_setup_iter_gpio1_bus_ok; [exact Hb | exact H0]
        | intros a s H; exact H | tauto]. }
    intros [n1 a1] s1 [Ha1 Hb1]. cbn in Ha1. subst a1.
    eapply post_bind with (R := fun r _ => r = - EINVAL).
    { eapply post_weaken;
        [apply (ltc4282_gpio_setup_iter_gpio2_bus_ok _ _ f2); assumption
        | intros a s H; exact H | tauto]. }
    intros [n2 a2] s2 [Ha2 Hb2]. cbn in Ha2. subst a2.
    eapply post_bind with (N := fun _ _ => False); [| tauto].
    eapply post_weaken;
      [apply ltc4282_gpio_setup_iter_gpio3, H2 | tauto |].
    cbn. tauto.
Qed.

Lemma adc_input_exclusive_witness :
  fst (run (ltc4282_gpio_setup env_two_adc) (fresh_state (device_with 0 0)))
  = - EINVAL.
Proof.
  refine (proj1 (proj2 (adc_input_exclusive env_two_adc
                          (fresh_state (device_with 0 0)) 2 _ _ _ _ _)) _).
  - reflexivity.
  - intros f0 H. vm_compute in H. discriminate.
  - vm_compute. reflexivity.
  - right. reflexivity.
  - vm_compute. reflexivity.
  - intros reg. reflexivity.
Defined.



(** ** Configuration on a bus without faults *)

Lemma on_map_write_bus_ok st reg val :
  bus_ok (map st) -> accessible reg = true ->
  exists st1,
    on_map st (fun m => regmap_write m reg val) = (0, st1)
    /\ bus_ok (map st1).
Proof.
  intros Hb Ha. unfold on_map. rewrite regmap_write_bus_ok by assumption.
  eexists. split; [reflexivity | exact Hb].
Qed.

(** Run the next register update, which succeeds under [Hb]. *)
Ltac update_ok Hb st1 Hb1 :=
  match goal with
  | |- context [on_map ?s (fun m => regmap_update_bits m ?r ?k ?v)] =>
      let H := fresh "Hupd" in
      destruct (on_map_update_bits_bus_ok s r k v) as (st1 & H & Hb1 & _);
      [exact Hb | reflexivity | rewrite H; clear H; cbv beta iota zeta]
  end.

Ltac unfold_proc :=
  unfold mbind, proc_bind, mret, proc_ret, modify, get_state, creturn,
    return_if_err, reg_op, regmap_set_bits, regmap_clear_bits, dev_err_probe;
  cbv beta iota zeta.

Lemma bad_property_ok fw name valid v :
  device_property_read_u32 fw name = Ok v -> valid v = true ->
  bad_property fw name valid = false.
Proof. intros H Hv. unfold bad_property. now rewrite H, Hv. Qed.

Lemma bad_property_absent fw name valid e :
  device_property_read_u32 fw name = Err e ->
  bad_property fw name valid = false.
Proof. intros H. unfold bad_property. now rewrite H. Qed.

Lemma setup_vin_mode_spec fw st :
  bus_ok (map st) ->
  post (fun _ s =>
          bus_ok (map s)
          /\ bad_property fw "vin-mode-microvolt" vin_mode_valid = false)
       (fun r s => r = - EINVAL /\ map s = map st)
       (setup_vin_mode fw st).
Proof.
  intros Hb. unfold setup_vin_mode.
  destruct (device_property_read_u32 fw "vin-mode-microvolt") as [v | e]
    eqn:Hv.
  2: { unfold_proc. cbn. split; [exact Hb |].
       now apply bad_property_absent with (e := e). }
  unfold_proc.
  destruct (Z.eqb_spec v 3300000) as [-> |];
    [| destruct (Z.eqb_spec v 5000000) as [-> |];
       [| destruct (Z.eqb_spec v 12000000) as [-> |];
          [| destruct (Z.eqb_spec v 24000000) as [-> |]]]].
  5: { cbn. auto. }
  all: cbv beta iota zeta.
  all: update_ok Hb st1 Hb1; cbn [Z.eqb].
  all: update_ok Hb1 st2 Hb2; cbn [Z.eqb].
  all: cbn; split; [exact Hb2 |].
  all: eapply bad_property_ok; [exact Hv | reflexivity].
Qed.

Lemma setup_current_limit_spec fw st :
  bus_ok (map st) ->
  post (fun _ s =>
          bus_ok (map s)
          /\ bad_property fw "adi,current-limit-microvolt" current_limit_valid
             = false)
       (fun r _ => r = - EINVAL)
       (setup_current_limit fw st).
Proof.
  intros Hb. unfold setup_current_limit.
  destruct (device_property_read_u32 fw "adi,current-limit-microvolt")
    as [v | e] eqn:Hv.
  2: { cbn. split; [exact Hb |].
       now apply bad_property_absent with (e := e). }
  unfold_proc.
  destruct (Z.eqb_spec v 12500) as [-> |];
    [| destruct (Z.eqb_spec v 15625) as [-> |];
       [| destruct (Z.eqb_spec v 18750) as [-> |];
          [| destruct (Z.eqb_spec v 21875) as [-> |];
             [| destruct (Z.eqb_spec v 25000) as [-> |];
                [| destruct (Z.eqb_spec v 28125) as [-> |];
                   [| destruct (Z.eqb_spec v 31250) as [-> |];
                      [| destruct (Z.eqb_spec v 34375) as [-> |]]]]]]]].
  9: { cbn. reflexivity. }
  all: update_ok Hb st1 Hb1; cbn; split; [exact Hb1 |].
  all: eapply bad_property_ok; [exact Hv | reflexivity].
Qed.

Lemma setup_vdd_monitor_spec fw st :
  bus_ok (map st) ->
  post (fun _ s => bus_ok (map s)) (fun r _ => r = - EINVAL)
       (setup_vdd_monitor fw st).
Proof.
  intros Hb. unfold setup_vdd_monitor. unfold_proc.
  cbn [vdd_monitor set_vdd_monitor].
  destruct (device_property_read_bool fw "adi,vin_monitor").
  - update_ok Hb st1 Hb1. cbn. exact Hb1.
  - cbn. exact Hb.
Qed.

Lemma setup_divider_spec fw name mask st :
  bus_ok (map st) ->
  post (fun _ s =>
          bus_ok (map s) /\ bad_property fw name divider_valid = false)
       (fun r _ => r = - EINVAL)
       (setup_divider fw name mask st).
Proof.
  intros Hb. unfold setup_divider.
  destruct (device_property_read_u32 fw name) as [v | e] eqn:Hv.
  2: { cbn. split; [exact Hb |].
       now apply bad_property_absent with (e := e). }
  destruct (Z.ltb_spec LTC4282_DIV_15_PERCENT v).
  - cbn. reflexivity.
  - unfold_proc. update_ok Hb st1 Hb1. cbn. split; [exact Hb1 |].
    eapply bad_property_ok; [exact Hv |].
    unfold divider_valid. now apply Z.leb_le.
Qed.

Lemma setup_flag_spec fw name reg mask val st :
  bus_ok (map st) -> accessible reg = true ->
  post (fun _ s => bus_ok (map s)) (fun r _ => r = - EINVAL)
       (setup_flag fw name (fun m => regmap_update_bits m reg mask val) st).
Proof.
  intros Hb Ha. unfold setup_flag.
  destruct (device_property_read_bool fw name); [| cbn; exact Hb].
  unfold_proc.
  destruct (on_map_update_bits_bus_ok st reg mask val Hb Ha)
    as (st1 & -> & Hb1 & _).
  cbn. exact Hb1.
Qed.

Lemma setup_fet_bad_timeout_spec fw st :
  bus_ok (map st) ->
  post (fun _ s =>
          bus_ok (map s)
          /\ bad_property fw "adi,fet-bad-timeout-ms" fet_bad_timeout_valid
             = false)
       (fun r _ => r = - EINVAL)
       (setup_fet_bad_timeout fw st).
Proof.
  intros Hb. unfold setup_fet_bad_timeout.
  destruct (device_property_read_u32 fw "adi,fet-bad-timeout-ms")
    as [v | e] eqn:Hv.
  2: { cbn. split; [exact Hb |].
       now apply bad_property_absent with (e := e). }
  destruct (Z.ltb_spec LTC4282_FET_BAD_MAX_TIMEOUT v).
  - cbn. reflexivity.
  - unfold_proc.
    destruct (on_map_write_bus_ok st LTC4282_FET_BAD_FAULT_TIMEOUT v Hb
                eq_refl) as (st1 & -> & Hb1).
    cbn. split; [exact Hb1 |].
    eapply bad_property_ok; [exact Hv |].
    unfold fet_bad_timeout_valid. now apply Z.leb_le.
Qed.

(** Everything [ltc4282_setup] does before the GPIO setup: with a value out
    of range it has returned [-EINVAL] by then. *)
Lemma ltc4282_setup_rejects env st :
  bus_ok (map st) ->
  bad_config (props env) = true ->
  (exists v,
      device_property_read_u32 (props env) "adi,rsense-nano-ohms" = Ok v) ->
  post (fun r _ => r = - EINVAL) (fun r _ => r = - EINVAL)
       (ltc4282_setup env st).
Proof.
  intros Hb Hbad [rs Hrs]. unfold ltc4282_setup.
  eapply post_bind with (N := fun _ s => bus_ok (map s)).
  { unfold setup_rsense. rewrite Hrs. cbn. exact Hb. }
  intros u1 s1 Hb1.
  eapply post_bind.
  { eapply post_weaken;
      [apply setup_vin_mode_spec, Hb1 | intros a s H; exact H
      | intros r s [H _]; exact H]. }
  intros u2 s2 [Hb2 Hvin].
  eapply post_bind with (N := fun _ s => bus_ok (map s));
    [cbn; exact Hb2 |].
  intros u3 s3 Hb3.
  eapply post_bind; [apply setup_current_limit_spec, Hb3 |].
  intros u4 s4 [Hb4 Hilim].
  eapply post_bind; [apply setup_vdd_monitor_spec, Hb4 |].
  intros u5 s5 Hb5.
  eapply post_bind; [apply setup_divider_spec, Hb5 |].
  intros u6 s6 [Hb6 Hov].
  eapply post_bind; [apply setup_divider_spec, Hb6 |].
  intros u7 s7 [Hb7 Huv].
  eapply post_bind; [apply setup_flag_spec; [exact Hb7 | reflexivity] |].
  intros u8 s8 Hb8.
  eapply post_bind; [apply setup_flag_spec; [exact Hb8 | reflexivity] |].
  intros u9 s9 Hb9.
  eapply post_bind; [apply setup_flag_spec; [exact Hb9 | reflexivity] |].
  intros u10 s10 Hb10.
  eapply post_bind; [apply setup_fet_bad_timeout_spec, Hb10 |].
  intros u11 s11 [Hb11 Hfet].
  unfold bad_config in Hbad.
  rewrite Hvin, Hilim, Hov, Huv, Hfet in Hbad. discriminate.
Qed.

(** An input mode out of range is met before any register is written. *)
Lemma ltc4282_setup_bad_vin_mode env st :
  bus_ok (map st) ->
  (exists v,
      device_property_read_u32 (props env) "adi,rsense-nano-ohms" = Ok v) ->
  bad_property (props env) "vin-mode-microvolt" vin_mode_valid = true ->
  post (fun r s => r = - EINVAL /\ map s = map st)
       (fun r s => r = - EINVAL /\ map s = map st)
       (ltc4282_setup env st).
Proof.
  intros Hb [rs Hrs] Hbad. unfold ltc4282_setup.
  eapply post_bind
    with (N := fun _ s => bus_ok (map s) /\ map s = map st).
  { unfold setup_rsense. rewrite Hrs. cbn. auto. }
  intros u1 s1 [Hb1 Hm1].
  eapply post_bind with (N := fun _ _ => False); [| tauto].
  eapply post_weaken; [apply setup_vin_mode_spec, Hb1 | |].
  - intros a s [_ H]. rewrite H in Hbad. discriminate.
  - intros r s [-> H]. split; [reflexivity | congruence].
Qed.

(** A clock-output mode above 1 is refused, after the clock divider has
    been written. *)
Lemma ltc428_clks_setup_bad_clkout fw st rate v :
  bus_ok (map st) ->
  LTC4282_CLKIN_MIN <= rate <= LTC4282_CLKIN_MAX ->
  device_property_read_u32 fw "adi,clkout-mode" = Ok v ->
  LTC4282_CLKOUT_TICK < v ->
  fst (run (ltc428_clks_setup (Ok (Some rate)) fw) st) = - EINVAL.
Proof.
  intros Hb Hr Hv Hbad. unfold run, ltc428_clks_setup.
  destruct (Z.ltb_spec rate LTC4282_CLKIN_MIN); [lia |].
  destruct (Z.ltb_spec LTC4282_CLKIN_MAX rate); [lia |].
  cbn [orb]. cbv iota. unfold_proc.
  update_ok Hb st1 Hb1. cbn [Z.eqb]. cbv iota.
  rewrite Hv.
  destruct (Z.ltb_spec LTC4282_CLKOUT_TICK v); [reflexivity | lia].
Qed.

(** C6, the claim as stated fails: with a valid 24 V input mode and a
    current limit of 20000 uV, which is not one of the eight thresholds,
    [ltc4282_setup] returns [-EINVAL] after it has written the input mode to
    [LTC4282_CTRL_MSB] (0 before, 3 after) and the foldback mode to
    [LTC4282_ILIM_ADJUST] (0 before, 24 after).  And a clock-output mode
    of 5, above the two modes there are, aborts nothing when the board has
    no external clock: [ltc428_clks_setup] returns 0 before it reads the
    property. *)
Lemma setup_partial_counterexample :
  bad_config (props env_bad_current_limit) = true
  /\ fst (run (ltc4282_setup env_bad_current_limit)
               (fresh_state (device_with 0 0))) = - EINVAL
  /\ regs (map (fresh_state (device_with 0 0))) LTC4282_CTRL_MSB = 0
  /\ regs (map (snd (run (ltc4282_setup env_bad_current_limit)
                         (fresh_state (device_with 0 0)))))
          LTC4282_CTRL_MSB = 3
  /\ regs (map (fresh_state (device_with 0 0))) LTC4282_ILIM_ADJUST = 0
  /\ regs (map (snd (run (ltc4282_setup env_bad_current_limit)
                         (fresh_state (device_with 0 0)))))
          LTC4282_ILIM_ADJUST = 24
  /\ device_property_read_u32 fw_clkout_bad "adi,clkout-mode" = Ok 5
  /\ LTC4282_CLKOUT_TICK < 5
  /\ fst (run (ltc428_clks_setup (Ok None) fw_clkout_bad)
              (fresh_state (device_with 0 0))) = 0.
Proof. repeat split; vm_compute; reflexivity. Qed.

(** A GPIO function out of range makes [ltc4282_gpio_setup], and with it
    [ltc4282_setup], return 0: [dev_err_probe] is given the return code of
    the property read that has just succeeded. *)
Example setup_bad_gpio_func_returns_0 :
  fst (run (ltc4282_setup env_bad_gpio_func) (fresh_state (device_with 0 0)))
  = 0.
Proof. vm_compute. reflexivity. Qed.

(** *** No rollback *)

Lemma proc_bind_next {A B : Type} (p : proc A) (f : A -> proc B) st a s :
  p st = (Next a, s) -> (p ≫= f) st = f a s.
Proof. intros H. unfold mbind, proc_bind. now rewrite H. Qed.

Lemma proc_bind_return {A B : Type} (p : proc A) (f : A -> proc B) st r s :
  p st = (Return r, s) -> (p ≫= f) st = (Return r, s).
Proof. intros H. unfold mbind, proc_bind. now rewrite H. Qed.

(** A block whose value is in range, or absent, goes on to the next one on
    a bus without faults. *)
Lemma setup_vin_mode_goes_on fw st :
  bus_ok (map st) ->
  bad_property fw "vin-mode-microvolt" vin_mode_valid = false ->
  exists s, setup_vin_mode fw st = (Next tt, s) /\ bus_ok (map s).
Proof.
  intros Hb Hbad. unfold setup_vin_mode, bad_property in *.
  destruct (device_property_read_u32 fw "vin-mode-microvolt") as [v | e].
  2: { eexists. split; [reflexivity | exact Hb]. }
  unfold vin_mode_valid in Hbad. cbn [existsb] in Hbad.
  unfold_proc.
  destruct (v =? 3300000);
    [| destruct (v =? 5000000);
       [| destruct (v =? 12000000);
          [| destruct (v =? 24000000); [| discriminate Hbad]]]].
  all: cbv beta iota zeta.
  all: update_ok Hb st1 Hb1; cbn [Z.eqb].
  all: update_ok Hb1 st2 Hb2; cbn [Z.eqb].
  all: eexists; split; [reflexivity | exact Hb2].
Qed.

Lemma setup_current_limit_goes_on fw st :
  bus_ok (map st) ->
  bad_property fw "adi,current-limit-microvolt" current_limit_valid = false ->
  exists s, setup_current_limit fw st = (Next tt, s) /\ bus_ok (map s).
Proof.
  intros Hb Hbad. unfold setup_current_limit, bad_property in *.
  destruct (device_property_read_u32 fw "adi,current-limit-microvolt")
    as [v | e].
  2: { eexists. split; [reflexivity | exact Hb]. }
  unfold current_limit_valid in Hbad. cbn [existsb] in Hbad.
  unfold_proc.
  destruct (v =? 12500);
    [| destruct (v =? 15625);
       [| destruct (v =? 18750);
          [| destruct (v =? 21875);
             [| destruct (v =? 25000);
                [| destruct (v =? 28125);
                   [| destruct (v =? 31250);
                      [| destruct (v =? 34375);
                         [| discriminate Hbad]]]]]]]].
  all: update_ok Hb st1 Hb1; cbn [Z.eqb].
  all: eexists; split; [reflexivity | exact Hb1].
Qed.

Lemma setup_vdd_monitor_goes_on fw st :
  bus_ok (map st) ->
  exists s, setup_vdd_monitor fw st = (Next tt, s) /\ bus_ok (map s).
Proof.
  intros Hb. unfold setup_vdd_monitor. unfold_proc.
  cbn [vdd_monitor set_vdd_monitor].
  destruct (device_property_read_bool fw "adi,vin_monitor").
  - update_ok Hb st1 Hb1. cbn [Z.eqb].
    eexists; split; [reflexivity | exact Hb1].
  - eexists; split; [reflexivity | exact Hb].
Qed.

Lemma setup_divider_goes_on fw name mask st :
  bus_ok (map st) ->
  bad_property fw name divider_valid = false ->
  exists s, setup_divider fw name mask st = (Next tt, s) /\ bus_ok (map s).
Proof.
  intros Hb Hbad. unfold setup_divider, bad_property, divider_valid in *.
  destruct (device_property_read_u32 fw name) as [v | e].
  2: { eexists. split; [reflexivity | exact Hb]. }
  destruct (Z.ltb_spec LTC4282_DIV_15_PERCENT v) as [Hlt | Hle].
  - apply negb_false_iff, Z.leb_le in Hbad. lia.
  - unfold_proc. update_ok Hb st1 Hb1.
    eexists; split; [reflexivity | exact Hb1].
Qed.

Lemma setup_flag_goes_on fw name reg mask val st :
  bus_ok (map st) -> accessible reg = true ->
  exists s,
    setup_flag fw name (fun m => regmap_update_bits m reg mask val) st
    = (Next tt, s)
    /\ bus_ok (map s).
Proof.
  intros Hb Ha. unfold setup_flag.
  destruct (device_property_read_bool fw name).
  - unfold_proc.
    destruct (on_map_update_bits_bus_ok st reg mask val Hb Ha)
      as (st1 & -> & Hb1 & _).
    cbn [Z.eqb]. eexists; split; [reflexivity | exact Hb1].
  - eexists; split; [reflexivity | exact Hb].
Qed.

(** A block whose value is out of range returns [-EINVAL] at once; the
    state is the one it was entered with. *)
Lemma setup_current_limit_bad fw st :
  bad_property fw "adi,current-limit-microvolt" current_limit_valid = true ->
  setup_current_limit fw st = (Return (- EINVAL), st).
Proof.
  intros Hbad. unfold setup_current_limit, bad_property in *.
  destruct (device_property_read_u32 fw "adi,current-limit-microvolt")
    as [v | e]; [| discriminate Hbad].
  unfold current_limit_valid in Hbad. cbn [existsb] in Hbad.
  unfold_proc.
  destruct (v =? 12500); [discriminate Hbad |].
  destruct (v =? 15625); [discriminate Hbad |].
  destruct (v =? 18750); [discriminate Hbad |].
  destruct (v =? 21875); [discriminate Hbad |].
  destruct (v =? 25000); [discriminate Hbad |].
  destruct (v =? 28125); [discriminate Hbad |].
  destruct (v =? 31250); [discriminate Hbad |].
  destruct (v =? 34375); [discriminate Hbad |].
  reflexivity.
Qed.

Lemma setup_divider_bad fw name mask st :
  bad_property fw name divider_valid = true ->
  setup_divider fw name mask st = (Return (- EINVAL), st).
Proof.
  intros Hbad. unfold setup_divider, bad_property, divider_valid in *.
  destruct (device_property_read_u32 fw name) as [v | e];
    [| discriminate Hbad].
  destruct (Z.ltb_spec LTC4282_DIV_15_PERCENT v) as [Hlt | Hle];
    [reflexivity |].
  apply negb_true_iff, Z.leb_gt in Hbad. lia.
Qed.

Lemma setup_fet_bad_timeout_bad fw st :
  bad_property fw "adi,fet-bad-timeout-ms" fet_bad_timeout_valid = true ->
  setup_fet_bad_timeout fw st = (Return (- EINVAL), st).
Proof.
  intros Hbad.
  unfold setup_fet_bad_timeout, bad_property, fet_bad_timeout_valid in *.
  destruct (device_property_read_u32 fw "adi,fet-bad-timeout-ms") as [v | e];
    [| discriminate Hbad].
  destruct (Z.ltb_spec LTC4282_FET_BAD_MAX_TIMEOUT v) as [Hlt | Hle];
    [reflexivity |].
  apply negb_true_iff, Z.leb_gt in Hbad. lia.
Qed.

(** Run the next block of the goal, which goes on by [E]. *)
Ltac next_block E :=
  rewrite ?(proc_bind_next _ _ _ _ _ E), ?E; cbv beta.

(** C6 as amended: on a bus without faults and with the sense resistance
    given, a configuration whose input mode, current limit, over- or
    under-voltage divider or FET-bad timeout is out of range makes
    [ltc4282_setup] return [-EINVAL].  There is no rollback.  When the
    input mode, the first value examined, is the one out of range, the
    registers are as they were.  When a later value is the first one out of
    range, the run ends in the state the blocks before that value left:
    what they wrote stays written.  The clock-output mode is examined by
    [ltc428_clks_setup], and only with an external clock of an accepted
    rate: out of range it then makes the clock setup return [-EINVAL],
    after the clock divider has been written; without an external clock
    the clock setup returns 0 with the state as it was, whatever the
    clock-output mode. *)
Theorem setup_validation env st :
  bus_ok (map st) ->
  (exists v,
      device_property_read_u32 (props env) "adi,rsense-nano-ohms" = Ok v) ->
  (bad_config (props env) = true ->
   fst (run (ltc4282_setup env) st) = - EINVAL)
  /\ (bad_property (props env) "vin-mode-microvolt" vin_mode_valid = true ->
      fst (run (ltc4282_setup env) st) = - EINVAL
      /\ map (snd (run (ltc4282_setup env) st)) = map st)
  /\ (bad_property (props env) "vin-mode-microvolt" vin_mode_valid = false ->
      bad_property (props env) "adi,current-limit-microvolt"
        current_limit_valid = true ->
      run (ltc4282_setup env) st
      = (- EINVAL, snd (setup_before_current_limit (props env) st)))
  /\ (bad_property (props env) "vin-mode-microvolt" vin_mode_valid = false ->
      bad_property (props env) "adi,current-limit-microvolt"
        current_limit_valid = false ->
      bad_property (props env) "adi,overvoltage-dividers" divider_valid
      = true ->
      run (ltc4282_setup env) st
      = (- EINVAL, snd (setup_before_overvoltage (props env) st)))
  /\ (bad_property (props env) "vin-mode-microvolt" vin_mode_valid = false ->
      bad_property (props env) "adi,current-limit-microvolt"
        current_limit_valid = false ->
      bad_property (props env) "adi,overvoltage-dividers" divider_valid
      = false ->
      bad_property (props env) "adi,undervoltage-dividers" divider_valid
      = true ->
      run (ltc4282_setup env) st
      = (- EINVAL, snd (setup_before_undervoltage (props env) st)))
  /\ (bad_property (props env) "vin-mode-microvolt" vin_mode_valid = false ->
      bad_property (props env) "adi,current-limit-microvolt"
        current_limit_valid = false ->
      bad_property (props env) "adi,overvoltage-dividers" divider_valid
      = false ->
      bad_property (props env) "adi,undervoltage-dividers" divider_valid
      = false ->
      bad_property (props env) "adi,fet-bad-timeout-ms"
        fet_bad_timeout_valid = true ->
      run (ltc4282_setup env) st
      = (- EINVAL, snd (setup_before_fet_bad_timeout (props env) st)))
  /\ run (ltc428_clks_setup (Ok None) (props env)) st = (0, st)
  /\ (forall rate v,
         LTC4282_CLKIN_MIN <= rate <= LTC4282_CLKIN_MAX ->
         device_property_read_u32 (props env) "adi,clkout-mode" = Ok v ->
         LTC4282_CLKOUT_TICK < v ->
         run (ltc428_clks_setup (Ok (Some rate)) (props env)) st
         = (- EINVAL,
            snd (on_map st (fun m =>
                   regmap_update_bits m LTC4282_CLK_DIV LTC4282_CLK_DIV_MASK
                     (FIELD_PREP LTC4282_CLK_DIV_MASK
                        (u32 (rate / (2 * LTC4282_CLKIN_MIN)))))))).
Proof.
  intros Hb [rs Hrs].
  assert (E1 : setup_rsense (props env) st
               = (Next tt, set_rsense (rs / CENTI) st))
    by (unfold setup_rsense; now rewrite Hrs).
  assert (Hb1 : bus_ok (map (set_rsense (rs / CENTI) st))) by exact Hb.
  assert (Evfs : forall s,
             setup_vfs_out s
             = (Next tt,
                set_vfs_out (nth (Z.to_nat (vin_mode s)) ltc4282_vfs_milli 0)
                            s))
    by reflexivity.
  split; [| split; [| split; [| split; [| split; [| split; [| split]]]]]].
  - intros Hbad.
    apply (post_run (ltc4282_setup env) st (fun r _ => r = - EINVAL)).
    apply ltc4282_setup_rejects; [exact Hb | exact Hbad | now exists rs].
  - intros Hbad.
    apply (post_run (ltc4282_setup env) st
             (fun r s => r = - EINVAL /\ map s = map st)).
    apply ltc4282_setup_bad_vin_mode; [exact Hb | now exists rs | exact Hbad].
  - intros Hvin Hcl.
    destruct (setup_vin_mode_goes_on (props env) _ Hb1 Hvin)
      as (s2 & E2 & Hb2).
    unfold run, ltc4282_setup, setup_before_current_limit. cbv zeta.
    next_block E1. next_block E2. next_block (Evfs s2).
    now rewrite (proc_bind_return _ _ _ _ _
                   (setup_current_limit_bad (props env) _ Hcl)).
  - intros Hvin Hcl Hov.
    destruct (setup_vin_mode_goes_on (props env) _ Hb1 Hvin)
      as (s2 & E2 & Hb2).
    set (s3 := set_vfs_out
                 (nth (Z.to_nat (vin_mode s2)) ltc4282_vfs_milli 0) s2).
    assert (E3 : setup_vfs_out s2 = (Next tt, s3)) by reflexivity.
    assert (Hb3 : bus_ok (map s3)) by exact Hb2.
    destruct (setup_current_limit_goes_on (props env) s3 Hb3 Hcl)
      as (s4 & E4 & Hb4).
    destruct (setup_vdd_monitor_goes_on (props env) s4 Hb4)
      as (s5 & E5 & Hb5).
    unfold run, ltc4282_setup, setup_before_overvoltage. cbv zeta.
    next_block E1. next_block E2. next_block E3.
    next_block E4. next_block E5.
    now rewrite (proc_bind_return _ _ _ _ _
                   (setup_divider_bad (props env) _ _ s5 Hov)).
  - intros Hvin Hcl Hov Huv.
    destruct (setup_vin_mode_goes_on (props env) _ Hb1 Hvin)
      as (s2 & E2 & Hb2).
    set (s3 := set_vfs_out
                 (nth (Z.to_nat (vin_mode s2)) ltc4282_vfs_milli 0) s2).
    assert (E3 : setup_vfs_out s2 = (Next tt, s3)) by reflexivity.
    assert (Hb3 : bus_ok (map s3)) by exact Hb2.
    destruct (setup_current_limit_goes_on (props env) s3 Hb3 Hcl)
      as (s4 & E4 & Hb4).
    destruct (setup_vdd_monitor_goes_on (props env) s4 Hb4)
      as (s5 & E5 & Hb5).
    destruct (setup_divider_goes_on (props env) _
                LTC4282_CTRL_OV_MODE_MASK s5 Hb5 Hov)
      as (s6 & E6 & Hb6).
    unfold run, ltc4282_setup, setup_before_undervoltage. cbv zeta.
    next_block E1. next_block E2. next_block E3.
    next_block E4. next_block E5. next_block E6.
    now rewrite (proc_bind_return _ _ _ _ _
                   (setup_divider_bad (props env) _ _ s6 Huv)).
  - intros Hvin Hcl Hov Huv Hfet.
    destruct (setup_vin_mode_goes_on (props env) _ Hb1 Hvin)
      as (s2 & E2 & Hb2).
    set (s3 := set_vfs_out
                 (nth (Z.to_nat (vin_mode s2)) ltc4282_vfs_milli 0) s2).
    assert (E3 : setup_vfs_out s2 = (Next tt, s3)) by reflexivity.
    assert (Hb3 : bus_ok (map s3)) by exact Hb2.
    destruct (setup_current_limit_goes_on (props env) s3 Hb3 Hcl)
      as (s4 & E4 & Hb4).
    destruct (setup_vdd_monitor_goes_on (props env) s4 Hb4)
      as (s5 & E5 & Hb5).
    destruct (setup_divider_goes_on (props env) _
                LTC4282_CTRL_OV_MODE_MASK s5 Hb5 Hov)
      as (s6 & E6 & Hb6).
    destruct (setup_divider_goes_on (props env) _
                LTC4282_CTRL_UV_MODE_MASK s6 Hb6 Huv)
      as (s7 & E7 & Hb7).
    destruct (setup_flag_goes_on (props env) "adi,on-delay"
                LTC4282_CTRL_LSB LTC4282_CTRL_ON_DELAY_MASK
                LTC4282_CTRL_ON_DELAY_MASK s7 Hb7 eq_refl)
      as (s8 & E8 & Hb8).
    destruct (setup_flag_goes_on (props env) "adi,on-active-low"
                LTC4282_CTRL_LSB LTC4282_CTRL_ON_ACTIVE_LOW_MASK 0
                s8 Hb8 eq_refl)
      as (s9 & E9 & Hb9).
    destruct (setup_flag_goes_on (props env) "adi,overcurrent-retry"
                LTC4282_CTRL_LSB LTC4282_CTRL_OC_RETRY_MASK 0
                s9 Hb9 eq_refl)
      as (s10 & E10 & Hb10).
    change (fun m => regmap_update_bits m LTC4282_CTRL_LSB
                       LTC4282_CTRL_ON_DELAY_MASK LTC4282_CTRL_ON_DELAY_MASK)
      with (fun m => regmap_set_bits m LTC4282_CTRL_LSB
                       LTC4282_CTRL_ON_DELAY_MASK) in E8.
    change (fun m => regmap_update_bits m LTC4282_CTRL_LSB
                       LTC4282_CTRL_ON_ACTIVE_LOW_MASK 0)
      with (fun m => regmap_clear_bits m LTC4282_CTRL_LSB
                       LTC4282_CTRL_ON_ACTIVE_LOW_MASK) in E9.
    change (fun m => regmap_update_bits m LTC4282_CTRL_LSB
                       LTC4282_CTRL_OC_RETRY_MASK 0)
      with (fun m => regmap_clear_bits m LTC4282_CTRL_LSB
                       LTC4282_CTRL_OC_RETRY_MASK) in E10.
    unfold run, ltc4282_setup, setup_before_fet_bad_timeout. cbv zeta.
    next_block E1. next_block E2. next_block E3.
    next_block E4. next_block E5. next_block E6. next_block E7.
    next_block E8. next_block E9. next_block E10.
    now rewrite (proc_bind_return _ _ _ _ _
                   (setup_fet_bad_timeout_bad (props env) s10 Hfet)).
  - reflexivity.
  - intros rate v Hr Hv Hbad. unfold run, ltc428_clks_setup.
    destruct (Z.ltb_spec rate LTC4282_CLKIN_MIN); [lia |].
    destruct (Z.ltb_spec LTC4282_CLKIN_MAX rate); [lia |].
    cbn [orb]. cbv iota. unfold_proc.
    update_ok Hb st1 Hb1'. cbn [Z.eqb snd]. cbv iota.
    rewrite Hv.
    destruct (Z.ltb_spec LTC4282_CLKOUT_TICK v); [reflexivity | lia].
Qed.

Lemma setup_validation_witness :
  fst (run (ltc4282_setup env_bad_current_limit)
           (fresh_state (device_with 0 0))) = - EINVAL.
Proof.
  refine (proj1 (setup_validation env_bad_current_limit
                   (fresh_state (device_with 0 0)) _ _) _).
  - intros reg. reflexivity.
  - exists 200000. vm_compute. reflexivity.
  - vm_compute. reflexivity.
Defined.

(** * Further properties of the driver *)

(** ** Scale of the voltage and current reads *)

Lemma round_div_range x d : 0 <= x -> 0 < d -> 0 <= round_div x d <= x.
Proof.
  intros Hx Hd. unfold round_div. split.
  - apply Z.div_pos; lia.
  - destruct (Z.eq_dec x 0) as [-> | Hn].
    + rewrite Z.div_small; lia.
    + apply Z.lt_succ_r. apply Z.div_lt_upper_bound; nia.
Qed.

Lemma round_div_full_scale fs d : 0 < d -> round_div (d * fs) d = fs.
Proof.
  intros Hd. unfold round_div.
  symmetry. apply Z.div_unique with (r := d); lia.
Qed.

Lemma round_div_scale c fs d :
  0 <= c <= d -> 0 <= fs -> 0 < d -> round_div (c * fs) d <= fs.
Proof.
  intros Hc Hf Hd. apply Z.le_trans with (m := round_div (d * fs) d).
  - apply round_div_mono; nia.
  - rewrite round_div_full_scale by lia. lia.
Qed.

Lemma ltc4282_read_voltage_word_conv_range fs code :
  0 <= code <= 65535 -> 0 <= fs < 2 ^ 32 ->
  0 <= ltc4282_read_voltage_word_conv fs code <= fs.
Proof.
  intros Hc Hf. rewrite ltc4282_read_voltage_word_conv_exact by lia. split.
  - apply round_div_range; nia.
  - apply round_div_scale; lia.
Qed.

(** The word-width voltage read spans exactly the full scale: 0 at code 0,
    [fs] at code 65535, never above [fs] in between. *)
Theorem voltage_word_scale fs code :
  0 <= code <= 65535 -> 0 <= fs < 2 ^ 32 ->
  0 <= ltc4282_read_voltage_word_conv fs code <= fs
  /\ ltc4282_read_voltage_word_conv fs 0 = 0
  /\ ltc4282_read_voltage_word_conv fs 65535 = fs.
Proof.
  intros Hc Hf.
  split; [now apply ltc4282_read_voltage_word_conv_range |].
  rewrite !ltc4282_read_voltage_word_conv_exact by lia.
  split; [reflexivity | apply round_div_full_scale; lia].
Qed.

Lemma voltage_word_scale_witness :
  ltc4282_read_voltage_word_conv 33280 65535 = 33280.
Proof.
  refine (proj2 (proj2 (voltage_word_scale 33280 65535 _ _))).
  - lia.
  - pow2. lia.
Defined.

Lemma ltc4282_read_voltage_byte_conv_exact fs code :
  0 <= code <= 255 -> 0 <= fs -> 255 * fs + 127 < 2 ^ 32 ->
  ltc4282_read_voltage_byte_conv fs code = round_div (code * fs) 255.
Proof.
  intros Hc Hf Hb.
  unfold ltc4282_read_voltage_byte_conv, DIV_ROUND_CLOSEST, U8_MAX.
  change (255 / 2) with 127.
  assert (0 <= code * fs <= 255 * fs) by nia.
  rewrite (u32_small (code * fs)) by lia.
  rewrite wrap_small by lia.
  change 127 with (255 / 2). apply half_up_round_div. lia.
Qed.

(** The byte-width threshold read is monotone in the code, 0 at code 0 and
    exactly the full scale at code 255, as long as [255 * fs] does not wrap
    the 32-bit product of the source. *)
Theorem voltage_byte_scale fs c1 c2 :
  0 <= c1 -> c1 <= c2 -> c2 <= 255 ->
  0 <= fs -> 255 * fs + 127 < 2 ^ 32 ->
  ltc4282_read_voltage_byte_conv fs c1 <= ltc4282_read_voltage_byte_conv fs c2
  /\ ltc4282_read_voltage_byte_conv fs c2 <= fs
  /\ ltc4282_read_voltage_byte_conv fs 0 = 0
  /\ ltc4282_read_voltage_byte_conv fs 255 = fs.
Proof.
  intros H1 H12 H2 Hf Hb.
  rewrite !ltc4282_read_voltage_byte_conv_exact by lia.
  split; [| split; [| split]].
  - apply round_div_mono; nia.
  - apply round_div_scale; lia.
  - reflexivity.
  - apply round_div_full_scale. lia.
Qed.

Lemma voltage_byte_scale_witness :
  ltc4282_read_voltage_byte_conv 1280 255 = 1280.
Proof.
  refine (proj2 (proj2 (proj2
            (voltage_byte_scale 1280 100 255 _ _ _ _ _)))).
  - lia.
  - lia.
  - lia.
  - lia.
  - pow2. lia.
Defined.

Lemma ltc4282_current_of_sense_exact rs sense :
  0 < rs < 2 ^ 32 -> 0 <= sense <= 400000 ->
  ltc4282_current_of_sense rs sense = round_div (sense * 1000) rs.
Proof.
  intros Hr Hs. unfold ltc4282_current_of_sense, DIV_ROUND_CLOSEST, MILLI.
  assert (0 <= rs / 2 < 2 ^ 32).
  { split; [apply Z.div_pos; lia | apply Z.div_lt_upper_bound; lia]. }
  rewrite (u64_small (sense * 1000)) by (pow2; lia).
  rewrite wrap_small by (pow2; lia).
  rewrite half_up_round_div by lia.
  apply to_long_small.
  pose proof (round_div_range (sense * 1000) rs ltac:(lia) ltac:(lia)).
  pow2. lia.
Qed.

(** The current read from a 16-bit sense code, with a non-zero sense
    resistance: it is [round(round(code * 400000 / 65535) * 1000 / rsense)],
    monotone in the code, 0 at code 0 and [round(400000000 / rsense)] at
    full scale. *)
Theorem current_word_scale rs c1 c2 :
  0 < rs < 2 ^ 32 -> 0 <= c1 -> c1 <= c2 -> c2 <= 65535 ->
  ltc4282_current_of_sense rs (ltc4282_read_voltage_word_conv (400 * MILLI) c1)
  <= ltc4282_current_of_sense rs
       (ltc4282_read_voltage_word_conv (400 * MILLI) c2)
  /\ ltc4282_current_of_sense rs
       (ltc4282_read_voltage_word_conv (400 * MILLI) c2)
     = round_div (round_div (c2 * 400000) 65535 * 1000) rs
  /\ ltc4282_current_of_sense rs
       (ltc4282_read_voltage_word_conv (400 * MILLI) 0) = 0
  /\ ltc4282_current_of_sense rs
       (ltc4282_read_voltage_word_conv (400 * MILLI) 65535)
     = round_div 400000000 rs.
Proof.
  intros Hr H1 H12 H2. change (400 * MILLI) with 400000.
  assert (Hs : forall c, 0 <= c <= 65535 ->
             0 <= ltc4282_read_voltage_word_conv 400000 c <= 400000).
  { intros c Hc. apply ltc4282_read_voltage_word_conv_range; pow2; lia. }
  rewrite !ltc4282_current_of_sense_exact by (try apply Hs; lia).
  split; [| split; [| split]].
  - apply round_div_mono; [lia |].
    rewrite !ltc4282_read_voltage_word_conv_exact by (pow2; lia).
    assert (round_div (c1 * 400000) 65535 <= round_div (c2 * 400000) 65535)
      by (apply round_div_mono; lia).
    lia.
  - now rewrite ltc4282_read_voltage_word_conv_exact by (pow2; lia).
  - rewrite ltc4282_read_voltage_word_conv_exact by (pow2; lia).
    change (round_div (0 * 400000) 65535 * 1000) with 0.
    unfold round_div. apply Z.div_small. lia.
  - rewrite ltc4282_read_voltage_word_conv_exact by (pow2; lia).
    rewrite (round_div_full_scale 400000 65535) by lia. reflexivity.
Qed.

Lemma current_word_scale_witness :
  ltc4282_current_of_sense 2000
    (ltc4282_read_voltage_word_conv (400 * MILLI) 65535)
  = round_div 400000000 2000.
Proof.
  refine (proj2 (proj2 (proj2 (current_word_scale 2000 0 65535 _ _ _ _)))).
  - pow2. lia.
  - lia.
  - lia.
  - lia.
Defined.

(** ** Scale of the power threshold and energy reads *)

Lemma ltc4282_read_power_byte_conv_exact vfs rs power :
  0 <= power <= 255 -> 0 <= vfs <= 33280 ->
  0 < rs -> 65025 * rs < 2 ^ 32 ->
  ltc4282_read_power_byte_conv vfs rs power
  = round_div (power * 102400 * vfs * 1000000) (65025 * rs).
Proof.
  intros Hp Hv Hr Hw. unfold ltc4282_read_power_byte_conv, DECA, MICRO.
  change (int_pow U8_MAX 2) with 65025.
  assert (Ht : 0 <= power * 102400 * vfs <= 255 * 102400 * 33280) by nia.
  rewrite (u32_small (power * 40)) by (pow2; lia).
  replace (power * 40 * 10 * vfs * 256) with (power * 102400 * vfs) by lia.
  rewrite (u64_small (power * 102400 * vfs)) by (pow2; lia).
  rewrite (u64_small (power * 102400 * vfs * 1000000)) by (pow2; lia).
  rewrite (u64_small (65025 * rs)) by (pow2; lia).
  assert (0 <= 65025 * rs / 2 < 2 ^ 32).
  { split; [apply Z.div_pos; lia | apply Z.div_lt_upper_bound; lia]. }
  rewrite DIV_ROUND_CLOSEST_ULL_exact by (pow2; lia).
  apply to_long_small.
  pose proof (round_div_range (power * 102400 * vfs * 1000000) (65025 * rs)
                ltac:(lia) ltac:(lia)).
  pow2. lia.
Qed.

(** The power threshold read from a byte code, for a full scale up to
    33280 mV and a sense resistance up to 66051 (so that [255^2 * rsense]
    fits the 32-bit divisor): it is
    [round(code * 40 * 10 * vfs * 256 * 1000000 / (255^2 * rsense))],
    monotone in the code and 0 at code 0. *)
Theorem power_byte_scale vfs rs p1 p2 :
  0 <= vfs <= 33280 -> 0 < rs -> 65025 * rs < 2 ^ 32 ->
  0 <= p1 -> p1 <= p2 -> p2 <= 255 ->
  ltc4282_read_power_byte_conv vfs rs p1
  <= ltc4282_read_power_byte_conv vfs rs p2
  /\ ltc4282_read_power_byte_conv vfs rs p2
     = round_div (p2 * 40 * 10 * vfs * 256 * 1000000) (255 * 255 * rs)
  /\ ltc4282_read_power_byte_conv vfs rs 0 = 0.
Proof.
  intros Hv Hr Hw H1 H12 H2.
  rewrite !ltc4282_read_power_byte_conv_exact by lia.
  split; [| split].
  - apply round_div_mono; nia.
  - f_equal; lia.
  - unfold round_div. apply Z.div_small. lia.
Qed.

Lemma power_byte_scale_witness :
  ltc4282_read_power_byte_conv 16640 2000 0 = 0.
Proof.
  refine (proj2 (proj2 (power_byte_scale 16640 2000 0 240 _ _ _ _ _ _))).
  - lia.
  - lia.
  - pow2. lia.
  - lia.
  - lia.
  - lia.
Defined.

(** Below the overflow threshold of the fast path the energy read is
    monotone in the 48-bit code and 0 at code 0. *)
Theorem energy_fast_monotonic vfs rs e1 e2 :
  In vfs ltc4282_vfs_milli ->
  0 < rs -> U16_MAX * rs < 2 ^ 32 ->
  0 <= e1 -> e1 <= e2 -> e2 < 2 ^ 48 ->
  ltc4282_energy_factor vfs * e2 + U16_MAX * rs / 2 < 2 ^ 64 ->
  ltc4282_read_energy_conv vfs rs e1 <= ltc4282_read_energy_conv vfs rs e2
  /\ ltc4282_read_energy_conv vfs rs e2
     = round_div (10 * vfs * 40 * 256 * e2) (65535 * rs)
  /\ ltc4282_read_energy_conv vfs rs 0 = 0.
Proof.
  intros Hv Hr Hw H1 H12 H2 Hs.
  destruct (ltc4282_energy_factor_class vfs Hv) as (HK & Hvr & _).
  assert (Hh : 0 <= U16_MAX * rs / 2)
    by (apply Z.div_pos; unfold U16_MAX; lia).
  assert (Hfast : forall e, 0 <= e <= e2 ->
             ltc4282_read_energy_conv vfs rs e
             = round_div (102400 * vfs * e) (65535 * rs)).
  { intros e He.
    assert (ltc4282_energy_factor vfs * e <= ltc4282_energy_factor vfs * e2)
      by (rewrite HK; nia).
    unfold ltc4282_read_energy_conv, check_mul_overflow.
    destruct (Z.leb_spec (2 ^ 64) (ltc4282_energy_factor vfs * e)); [lia |].
    apply ltc4282_energy_fast_exact; try assumption; lia. }
  rewrite !Hfast by lia. split; [| split].
  - apply round_div_mono; [unfold U16_MAX in *; lia | nia].
  - f_equal. lia.
  - unfold round_div. apply Z.div_small. lia.
Qed.

Lemma energy_fast_monotonic_witness :
  ltc4282_read_energy_conv 16640 2000 1000
  <= ltc4282_read_energy_conv 16640 2000 1000000.
Proof.
  refine (proj1 (energy_fast_monotonic 16640 2000 1000 1000000
                   _ _ _ _ _ _ _)).
  - cbn. tauto.
  - lia.
  - vm_compute. reflexivity.
  - lia.
  - lia.
  - pow2. lia.
  - vm_compute. reflexivity.
Defined.

(** ** Attribute dispatch *)

Lemma regmap_bulk_read_le_bus_ok count : forall m reg,
  bus_ok m -> readable_span reg count = true ->
  exists v, regmap_bulk_read_le m reg count = Ok v.
Proof.
  induction count as [| n IH]; intros m reg Hb Hs.
  - now exists 0.
  - cbn [readable_span] in Hs.
    apply andb_prop in Hs as [Hs Hn]. apply andb_prop in Hs as [Hm Hr].
    apply Z.leb_le in Hm.
    destruct (IH m (reg + 1) Hb Hn) as [rest Hrest].
    cbn [regmap_bulk_read_le].
    rewrite regmap_read_bus_ok, result_bind_ok, Hrest by assumption.
    eexists. reflexivity.
Qed.

(** A bus on which every transfer fails with [e]. *)
Lemma regmap_read_bus_fail m reg e :
  (forall r, xfer m r = e) -> e <> 0 ->
  reg <= max_register -> ltc4282_readable_reg reg = true ->
  regmap_read m reg = Err e.
Proof.
  intros Hx He Hm Hr. unfold regmap_read. rewrite Hr, (Hx reg).
  destruct (Z.ltb_spec max_register reg); [lia |].
  destruct (Z.eqb_spec e 0); [contradiction | reflexivity].
Qed.

Lemma regmap_bulk_read_le_bus_fail m reg n e :
  (forall r, xfer m r = e) -> e <> 0 ->
  readable_span reg (S n) = true ->
  regmap_bulk_read_le m reg (S n) = Err e.
Proof.
  intros Hx He Hs. cbn [readable_span] in Hs.
  apply andb_prop in Hs as [Hs _]. apply andb_prop in Hs as [Hm Hr].
  apply Z.leb_le in Hm. cbn [regmap_bulk_read_le].
  now rewrite (regmap_read_bus_fail m reg e).
Qed.

Lemma regmap_write_bus_fail m reg val e :
  (forall r, xfer m r = e) -> e <> 0 -> accessible reg = true ->
  regmap_write m reg val = (e, m).
Proof.
  intros Hx He Ha. unfold accessible in Ha.
  apply andb_prop in Ha as [Ha Hw]. apply andb_prop in Ha as [Hm Hr].
  apply Z.leb_le in Hm.
  unfold regmap_write. rewrite Hw, (Hx reg).
  destruct (Z.ltb_spec max_register reg); [lia |].
  destruct (Z.eqb_spec e 0); [contradiction | reflexivity].
Qed.

(** Unfold the read helpers down to their register accesses. *)
Ltac unfold_reads :=
  cbn [ltc4282_read ltc4282_read_in ltc4282_read_curr ltc4282_read_power];
  unfold ltc4282_read_current_word, ltc4282_read_current_byte,
    ltc4282_read_power_average, ltc4282_read_energy,
    ltc4282_read_power_word, ltc4282_read_power_byte, ltc4282_read_alarm,
    ltc4282_read_voltage_word, ltc4282_read_voltage_byte.

(** Side conditions on a concrete register address. *)
Ltac reg_side := first [reflexivity | cbv; discriminate].

(** Run the register reads of the goal on a bus without faults. *)
Ltac reads_ok Hb :=
  repeat match goal with
  | |- context [regmap_bulk_read_le ?m ?reg ?n] =>
      let v := fresh "v" in
      let H := fresh "Hrd" in
      destruct (regmap_bulk_read_le_bus_ok n m reg Hb eq_refl) as [v H];
      rewrite H; clear H; rewrite ?result_bind_ok
  | |- context [regmap_read ?m ?reg] =>
      rewrite (regmap_read_bus_ok m reg Hb) by reg_side;
      rewrite ?result_bind_ok
  end.

(** Run the first register read of the goal on a bus that fails. *)
Ltac reads_fail Hx He :=
  match goal with
  | |- context [regmap_bulk_read_le ?m ?reg (S ?n)] =>
      rewrite (regmap_bulk_read_le_bus_fail m reg n _ Hx He eq_refl)
  | |- context [regmap_read ?m ?reg] =>
      rewrite (regmap_read_bus_fail m reg _ Hx He) by reg_side
  end.

(** With a sense resistance [st->rsense] that is not 0, none of the
    divisors the reads use is 0 after the cut to 32 bits: [rsense] itself
    (current reads, energy fallback), [U16_MAX * rsense] (energy, power
    word), [rsense * U16_MAX^2] (power word) and [U8_MAX^2 * rsense] (power
    byte). *)
Lemma read_divisors_not_zero rs :
  0 < rs < 2 ^ 32 ->
  u32 rs <> 0
  /\ u32 (u32 (U16_MAX * rs)) <> 0
  /\ u32 (u64 (rs * int_pow U16_MAX 2)) <> 0
  /\ u32 (u64 (int_pow U8_MAX 2 * rs)) <> 0.
Proof.
  intros Hr.
  assert (Hodd : forall k kinv,
             (k * kinv) mod 2 ^ 32 = 1 -> (k * rs) mod 2 ^ 32 <> 0).
  { intros k kinv Hinv E.
    assert (Hz : rs mod 2 ^ 32 = 0).
    { rewrite <- (Z.mul_1_l rs), <- Hinv.
      rewrite Z.mul_mod_idemp_l by (pow2; lia).
      replace (k * kinv * rs) with (kinv * (k * rs)) by ring.
      rewrite <- Z.mul_mod_idemp_r, E by (pow2; lia).
      now rewrite Z.mul_0_r. }
    rewrite Z.mod_small in Hz by lia. lia. }
  assert (Hcut : forall x, x mod 2 ^ 64 mod 2 ^ 32 = x mod 2 ^ 32).
  { intros x. change (2 ^ 64) with (2 ^ 32 * 2 ^ 32).
    rewrite Z.rem_mul_r by (pow2; lia).
    rewrite Z.mul_comm, Z.mod_add by (pow2; lia).
    apply Z.mod_mod. pow2. lia. }
  unfold u32, u64, wrap, U16_MAX, U8_MAX.
  change (int_pow 65535 2) with 4294836225.
  change (int_pow 255 2) with 65025.
  repeat split.
  - rewrite Z.mod_small by lia. lia.
  - rewrite Z.mod_mod by (pow2; lia).
    now apply (Hodd 65535 4294901759).
  - rewrite Hcut, Z.mul_comm. now apply (Hodd 4294836225 131073).
  - rewrite Hcut. now apply (Hodd 65025 67305985).
Qed.

(** On a bus without faults and with a sense resistance that is not 0 (so
    that no conversion divides by 0), a read of a voltage, current or power
    attribute succeeds exactly when [ltc4282_is_visible] shows the attribute
    and it is not a label; every other attribute gets [-ENOTSUPP]. *)
Theorem read_supported_iff_visible st sensor channel :
  bus_ok (map st) -> 0 < rsense st < 2 ^ 32 ->
  has_channels sensor = true ->
  ((exists v, ltc4282_read st sensor channel = Ok v)
   <-> ltc4282_is_visible sensor <> 0 /\ is_label sensor = false)
  /\ (ltc4282_is_visible sensor = 0 \/ is_label sensor = true ->
      ltc4282_read st sensor channel = Err (- ENOTSUPP)).
Proof.
  intros Hb _ Hc.
  destruct sensor as [| | attr | attr | attr | | | | |];
    try discriminate Hc; destruct attr.
  all: try (split;
            [split;
             [intros [v Hv]; discriminate Hv
             | intros [Hv Hl];
               first [discriminate Hl | exfalso; apply Hv; reflexivity]]
            | intros _; reflexivity]).
  all: split;
    [split;
     [intros _; split; [discriminate | reflexivity]
     | intros _; unfold_reads;
       try destruct (channel =? LTC4282_CHAN_VSOURCE);
       try destruct (channel =? LTC4282_CHAN_VFET);
       reads_ok Hb; eexists; reflexivity]
    | intros [Hv | Hl]; [discriminate Hv | discriminate Hl]].
Qed.

Lemma read_supported_iff_visible_witness :
  exists v, ltc4282_read (state_12v device_energy)
              (hwmon_power hwmon_power_average) 0 = Ok v.
Proof.
  refine (proj2 (proj1 (read_supported_iff_visible
                           (state_12v device_energy)
                           (hwmon_power hwmon_power_average) 0 _ _ _)) _).
  - intros reg. reflexivity.
  - change (0 < 2000 < 4294967296). lia.
  - reflexivity.
  - split; [vm_compute; discriminate | reflexivity].
Defined.

Ltac unfold_writes :=
  cbn [ltc4282_write ltc4282_write_in ltc4282_write_curr ltc4282_write_power];
  unfold ltc4282_write_voltage_byte, ltc4282_write_power_byte, on_map.

(** On a bus without faults, a write succeeds exactly for the attributes
    [ltc4282_is_visible] shows as writable (the max and min thresholds of
    voltage, current and power); every other write gets [-ENOTSUPP] and
    leaves the state as it was. *)
Theorem write_supported_iff_writable in_uninit st sensor channel val :
  bus_ok (map st) ->
  (fst (ltc4282_write in_uninit st sensor channel val) = 0
   <-> ltc4282_is_visible sensor = mode_0644)
  /\ (ltc4282_is_visible sensor <> mode_0644 ->
      ltc4282_write in_uninit st sensor channel val = (- ENOTSUPP, st)).
Proof.
  intros Hb.
  destruct sensor as [| | attr | attr | attr | | | | |]; try destruct attr.
  all: try (split;
            [split; [intros H; discriminate H | intros H; discriminate H]
            | intros _; reflexivity]).
  all: split;
    [split;
     [intros _; reflexivity
     | intros _; unfold_writes;
       try destruct (channel =? LTC4282_CHAN_VSOURCE);
       rewrite regmap_write_bus_ok by (exact Hb || reflexivity);
       reflexivity]
    | intros H; exfalso; apply H; reflexivity].
Qed.

Lemma write_supported_iff_writable_witness :
  fst (ltc4282_write 0 (state_12v (device_with 0 0))
         (hwmon_in hwmon_in_max) LTC4282_CHAN_VGPIO 2000) = 0.
Proof.
  refine (proj2 (proj1 (write_supported_iff_writable 0
                           (state_12v (device_with 0 0))
                           (hwmon_in hwmon_in_max) LTC4282_CHAN_VGPIO 2000
                           _)) _).
  - intros reg. reflexivity.
  - reflexivity.
Defined.

Lemma set_map_same st : set_map st (map st) = st.
Proof. destruct st. reflexivity. Qed.

(** A bus error is handed to the caller as it is: when every transfer fails
    with [e], every supported read returns [e], and every supported write
    returns [e] and leaves the state as it was. *)
Theorem bus_error_propagates in_uninit st sensor channel val e :
  (forall reg, xfer (map st) reg = e) -> e <> 0 ->
  has_channels sensor = true ->
  (ltc4282_is_visible sensor <> 0 -> is_label sensor = false ->
   ltc4282_read st sensor channel = Err e)
  /\ (ltc4282_is_visible sensor = mode_0644 ->
      ltc4282_write in_uninit st sensor channel val = (e, st)).
Proof.
  intros Hx He Hc.
  destruct sensor as [| | attr | attr | attr | | | | |];
    try discriminate Hc; destruct attr.
  all: split;
    [intros Hv Hl;
     first [discriminate Hl | exfalso; apply Hv; reflexivity | idtac]
    | intros Hv; first [discriminate Hv | idtac]].
  all: try (unfold_reads;
            try destruct (channel =? LTC4282_CHAN_VSOURCE);
            try destruct (channel =? LTC4282_CHAN_VFET);
            repeat reads_fail Hx He; reflexivity).
  all: unfold_writes;
    try destruct (channel =? LTC4282_CHAN_VSOURCE);
    rewrite (regmap_write_bus_fail _ _ _ e) by (assumption || reflexivity);
    now rewrite set_map_same.
Qed.

Lemma bus_error_propagates_witness :
  ltc4282_read
    (state_12v {| regs := fun _ => 0; xfer := fun _ => - EIO |})
    (hwmon_curr hwmon_curr_input) 0
  = Err (- EIO).
Proof.
  refine (proj1 (bus_error_propagates 0
                   (state_12v {| regs := fun _ => 0; xfer := fun _ => - EIO |})
                   (hwmon_curr hwmon_curr_input) 0 0 (- EIO) _ _ _) _ _).
  - intros reg. reflexivity.
  - discriminate.
  - reflexivity.
  - vm_compute. discriminate.
  - reflexivity.
Defined.

(** ** Threshold writes read back *)

Lemma regmap_read_after_write m reg val :
  bus_ok m -> accessible reg = true ->
  regmap_read (snd (regmap_write m reg val)) reg = Ok (u8 val).
Proof.
  intros Hb Ha. rewrite regmap_write_bus_ok by assumption. cbn [snd].
  pose proof Ha as Ha'. unfold accessible in Ha'.
  apply andb_prop in Ha' as [Ha' _]. apply andb_prop in Ha' as [Hm Hr].
  apply Z.leb_le in Hm.
  rewrite regmap_read_bus_ok by assumption.
  cbn [regs]. now rewrite fn_lookup_insert, u8_idem.
Qed.

(** A voltage max threshold written at or above the full scale of its
    channel reads back as exactly that full scale: the code is clamped to
    255.  (On a bus without faults, for a full scale whose 255-fold fits
    the 32-bit product of the read.) *)
Theorem in_max_clamp_round_trip in_uninit st channel val :
  bus_ok (map st) ->
  0 <= vfs_out st -> 255 * vfs_out st + 127 < 2 ^ 32 ->
  (if channel =? LTC4282_CHAN_VSOURCE then vfs_out st else 1280) <= val ->
  ltc4282_read
    (snd (ltc4282_write in_uninit st (hwmon_in hwmon_in_max) channel val))
    (hwmon_in hwmon_in_max) channel
  = Ok (if channel =? LTC4282_CHAN_VSOURCE then vfs_out st else 1280).
Proof.
  intros Hb Hf Hw Hv.
  cbn [ltc4282_write ltc4282_write_in ltc4282_read ltc4282_read_in].
  destruct (channel =? LTC4282_CHAN_VSOURCE);
    unfold ltc4282_write_voltage_byte, ltc4282_read_voltage_byte, on_map;
    rewrite ltc4282_write_voltage_byte_conv_clamp by exact Hv;
    match goal with
    | |- context [regmap_write ?m ?r ?v] =>
        pose proof (regmap_read_after_write m r v Hb eq_refl) as Hrd;
        destruct (regmap_write m r v) as [ret m'] eqn:Hwr
    end;
    cbn [snd map set_map vfs_out] in *; rewrite Hrd, result_bind_ok;
    f_equal; change (u8 U8_MAX) with 255;
    rewrite ltc4282_read_voltage_byte_conv_exact by (pow2; lia);
    apply round_div_full_scale; lia.
Qed.

Lemma in_max_clamp_round_trip_witness :
  ltc4282_read
    (snd (ltc4282_write 0 (state_12v (device_with 0 0))
            (hwmon_in hwmon_in_max) LTC4282_CHAN_VSOURCE 20000))
    (hwmon_in hwmon_in_max) LTC4282_CHAN_VSOURCE
  = Ok 16640.
Proof.
  apply (in_max_clamp_round_trip 0 (state_12v (device_with 0 0))
           LTC4282_CHAN_VSOURCE 20000).
  - intros reg. reflexivity.
  - cbn. lia.
  - vm_compute. reflexivity.
  - cbn. lia.
Defined.

(** A current max or min threshold whose sense voltage reaches the 40 mV
    full scale reads back as [round(400000000 / rsense)], the largest
    current the threshold register encodes. *)
Theorem curr_clamp_round_trip in_uninit st (is_max : bool) val :
  bus_ok (map st) -> 0 < rsense st < 2 ^ 32 ->
  40 <= ltc4282_write_curr_conv (rsense st) val ->
  let attr := if is_max then hwmon_curr_max else hwmon_curr_min in
  ltc4282_read
    (snd (ltc4282_write in_uninit st (hwmon_curr attr) 0 val))
    (hwmon_curr attr) 0
  = Ok (round_div 400000000 (rsense st)).
Proof.
  intros Hb Hr Hv attr. subst attr.
  destruct is_max;
    cbn [ltc4282_write ltc4282_write_curr ltc4282_read ltc4282_read_curr];
    unfold ltc4282_write_voltage_byte, ltc4282_read_current_byte,
      ltc4282_read_voltage_byte, on_map;
    rewrite ltc4282_write_voltage_byte_conv_clamp by exact Hv;
    match goal with
    | |- context [regmap_write ?m ?r ?v] =>
        pose proof (regmap_read_after_write m r v Hb eq_refl) as Hrd;
        destruct (regmap_write m r v) as [ret m'] eqn:Hwr
    end;
    cbn [snd map set_map rsense] in *; rewrite Hrd, !result_bind_ok;
    f_equal; change (u8 U8_MAX) with 255;
    change (400 * MILLI) with 400000;
    rewrite ltc4282_read_voltage_byte_conv_exact by (pow2; lia);
    rewrite (round_div_full_scale 400000 255) by lia;
    now rewrite ltc4282_current_of_sense_exact by lia.
Qed.

Lemma curr_clamp_round_trip_witness :
  ltc4282_read
    (snd (ltc4282_write 0 (state_12v (device_with 0 0))
            (hwmon_curr hwmon_curr_max) 0 250000))
    (hwmon_curr hwmon_curr_max) 0
  = Ok 200000.
Proof.
  apply (curr_clamp_round_trip 0 (state_12v (device_with 0 0)) true 250000).
  - intros reg. reflexivity.
  - cbn. pow2. lia.
  - vm_compute. discriminate.
Defined.

(** A write of a voltage min threshold is not read back: it goes to the MIN
    register, the min threshold is read from the MAX register, so the
    value read is the same before and after the write, whatever is
    written and whatever the bus does. *)
Theorem in_min_write_not_read_back in_uninit st channel val :
  ltc4282_read
    (snd (ltc4282_write in_uninit st (hwmon_in hwmon_in_min) channel val))
    (hwmon_in hwmon_in_min) channel
  = ltc4282_read st (hwmon_in hwmon_in_min) channel.
Proof.
  cbn [ltc4282_write ltc4282_write_in ltc4282_read ltc4282_read_in].
  destruct (channel =? LTC4282_CHAN_VSOURCE);
    unfold ltc4282_write_voltage_byte, ltc4282_read_voltage_byte, on_map,
      regmap_write;
    match goal with
    | |- context [if ?c then (- EIO, ?m) else _] => change c with false
    end;
    cbv iota;
    destruct (xfer (map st) _ =? 0); reflexivity.
Qed.

(** ** Outcomes of the power-on sequence *)

Lemma ltc4282_power_on_loop_polls poll : forall n_tries polled,
  (S polled
   <= snd (ltc4282_power_on_loop poll polled n_tries)
   <= S polled + n_tries)%nat.
Proof.
  induction n_tries as [| n IH]; intros polled;
    cbn [ltc4282_power_on_loop]; cbv zeta;
    destruct (poll polled =? 0);
    try destruct (negb (poll polled =? - ETIMEDOUT));
    cbn [snd]; try specialize (IH (S polled)); lia.
Qed.

(** The power-on sequence for any behaviour of the regulator and of the
    status register: a regulator failure is returned before any poll; with
    the regulator on, between one and six polls are made; the first poll
    that does not see a fault bit ends the loop, with its error code when
    the read failed, with success when it timed out at one of the first
    five polls and with [-ETIMEDOUT] when it timed out at the sixth; and
    six polls that all see a fault bit end in success. *)
Theorem power_on_outcomes vdd poll :
  (vdd <> 0 -> ltc4282_power_on vdd poll = (vdd, 0%nat))
  /\ (vdd = 0 ->
      (1 <= snd (ltc4282_power_on vdd poll) <= 6)%nat
      /\ (forall k,
             (k <= 5)%nat -> (forall j, (j < k)%nat -> poll j = 0) ->
             poll k <> 0 ->
             ltc4282_power_on vdd poll
             = (if poll k =? - ETIMEDOUT
                then (if (k =? 5)%nat then - ETIMEDOUT else 0)
                else poll k,
                S k))
      /\ ((forall j, (j <= 5)%nat -> poll j = 0) ->
          ltc4282_power_on vdd poll = (0, 6%nat))).
Proof.
  split.
  - intros Hv. unfold ltc4282_power_on.
    destruct (Z.eqb_spec vdd 0); [contradiction | reflexivity].
  - intros ->. split; [| split].
    + unfold ltc4282_power_on. cbn [Z.eqb negb].
      pose proof (ltc4282_power_on_loop_polls poll 5 0) as Hl.
      destruct (ltc4282_power_on_loop poll 0 5) as [[ret | n] polled];
        cbn [snd] in *; try destruct (n =? 0); cbn [snd]; lia.
    + intros k Hk Hz Hn. unfold ltc4282_power_on. cbn [Z.eqb negb].
      unfold dev_err_probe.
      destruct k as [| [| [| [| [| [| k]]]]]]; [| | | | | | lia];
        cbn [ltc4282_power_on_loop]; cbv zeta;
        rewrite ?(Hz 0%nat), ?(Hz 1%nat), ?(Hz 2%nat), ?(Hz 3%nat),
          ?(Hz 4%nat) by lia;
        cbn [Z.eqb];
        match goal with
        | |- context [poll ?i =? 0] =>
            destruct (Z.eqb_spec (poll i) 0); [contradiction |];
            destruct (Z.eqb_spec (poll i) (- ETIMEDOUT))
        end;
        reflexivity.
    + intros Hz. unfold ltc4282_power_on. cbn [Z.eqb negb].
      cbn [ltc4282_power_on_loop]; cbv zeta.
      rewrite (Hz 0%nat), (Hz 1%nat), (Hz 2%nat), (Hz 3%nat), (Hz 4%nat),
        (Hz 5%nat) by lia.
      reflexivity.
Qed.

Lemma power_on_outcomes_witness :
  ltc4282_power_on 0 (fun k => if (k =? 1)%nat then - EIO else 0)
  = (- EIO, 2%nat).
Proof.
  refine (proj1 (proj2 (proj2 (power_on_outcomes 0
            (fun k => if (k =? 1)%nat then - EIO else 0)) eq_refl))
            1%nat _ _ _).
  - lia.
  - intros j Hj. assert (j = 0%nat) as -> by lia. reflexivity.
  - cbn. discriminate.
Defined.

(** ** What the configuration code keeps *)

Lemma preserves_bind {A B : Type} P (m : proc A) (f : A -> proc B) :
  preserves P m -> (forall a, preserves P (f a)) -> preserves P (m ≫= f).
Proof.
  intros Hm Hf st Hst. eapply post_bind; [apply Hm, Hst |].
  intros a s Hs. apply Hf, Hs.
Qed.

Lemma preserves_mret {A : Type} P (a : A) : preserves P (mret a).
Proof. intros st Hst. exact Hst. Qed.

Lemma preserves_creturn {A : Type} P ret : preserves P (@creturn A ret).
Proof. intros st Hst. exact Hst. Qed.

Lemma preserves_return_if_err P ret : preserves P (return_if_err ret).
Proof.
  intros st Hst. unfold return_if_err. destruct (ret =? 0); exact Hst.
Qed.

Lemma preserves_get_state P : preserves P get_state.
Proof. intros st Hst. exact Hst. Qed.

Lemma preserves_modify P f :
  (forall st, P st -> P (f st)) -> preserves P (modify f).
Proof. intros Hf st Hst. apply Hf, Hst. Qed.

Lemma preserves_reg_op P op :
  (forall st, P st -> P (set_map st (snd (op (map st))))) ->
  preserves P (reg_op op).
Proof.
  intros Hop st Hst. unfold reg_op, on_map.
  specialize (Hop st Hst). destruct (op (map st)) as [ret m]. exact Hop.
Qed.

(** Take the code apart down to its state updates and register
    operations, which [leaf] has to deal with. *)
Ltac preserves_step leaf :=
  lazymatch goal with
  | |- preserves _ (_ ≫= _) => apply preserves_bind
  | |- preserves _ (mret _) => apply preserves_mret
  | |- preserves _ (creturn _) => apply preserves_creturn
  | |- preserves _ (return_if_err _) => apply preserves_return_if_err
  | |- preserves _ get_state => apply preserves_get_state
  | |- preserves _ (modify _) => apply preserves_modify; leaf
  | |- preserves _ (reg_op _) => apply preserves_reg_op; leaf
  | |- preserves _ (if ?c then _ else _) => destruct c
  | |- preserves _ (match ?x with _ => _ end) => destruct x
  | |- forall _, _ => intros
  end.

Ltac preserves_steps leaf := repeat preserves_step leaf.

Ltac unfold_setup :=
  unfold ltc4282_setup, setup_rsense, setup_vin_mode, setup_vfs_out,
    setup_current_limit, setup_vdd_monitor, setup_divider, setup_flag,
    setup_fet_bad_timeout, ltc4282_gpio_setup, ltc428_clks_setup;
  cbn [ltc4282_gpio_setup_loop];
  unfold ltc4282_gpio_setup_iter, ltc4282_non_gpio_setup;
  cbv zeta.

(** The calibration fields of the state. *)
Lemma calibration_kept_after_vfs env a b c :
  preserves (fun s => rsense s = a /\ vin_mode s = b /\ vfs_out s = c)
    (setup_current_limit (props env);;
     setup_vdd_monitor (props env);;
     setup_divider (props env) "adi,overvoltage-dividers"
       LTC4282_CTRL_OV_MODE_MASK;;
     setup_divider (props env) "adi,undervoltage-dividers"
       LTC4282_CTRL_UV_MODE_MASK;;
     setup_flag (props env) "adi,on-delay" (fun m =>
       regmap_set_bits m LTC4282_CTRL_LSB LTC4282_CTRL_ON_DELAY_MASK);;
     setup_flag (props env) "adi,on-active-low" (fun m =>
       regmap_clear_bits m LTC4282_CTRL_LSB LTC4282_CTRL_ON_ACTIVE_LOW_MASK);;
     setup_flag (props env) "adi,overcurrent-retry" (fun m =>
       regmap_clear_bits m LTC4282_CTRL_LSB LTC4282_CTRL_OC_RETRY_MASK);;
     setup_fet_bad_timeout (props env);;
     ltc4282_gpio_setup env).
Proof.
  unfold_setup.
  preserves_steps ltac:(intros s Hs; exact Hs).
Qed.

(** A register operation through [st->map] leaves the calibration fields
    alone. *)
Lemma on_map_calibration st op :
  rsense (snd (on_map st op)) = rsense st
  /\ vin_mode (snd (on_map st op)) = vin_mode st
  /\ vfs_out (snd (on_map st op)) = vfs_out st.
Proof. unfold on_map. destruct (op (map st)). repeat split. Qed.

Ltac on_map_calibration_cases ret st1 H :=
  match goal with
  | |- context [on_map ?s ?op] =>
      pose proof (on_map_calibration s op) as H;
      destruct (on_map s op) as [ret st1]; cbn [snd] in H
  end.

Lemma setup_vin_mode_calibration fw st :
  post (fun _ s =>
          rsense s = rsense st /\ 0 <= vin_mode s <= 3
          /\ (forall e,
                 device_property_read_u32 fw "vin-mode-microvolt" = Err e ->
                 vin_mode s = LTC4282_VIN_12V))
       (fun r _ => r <> 0)
       (setup_vin_mode fw st).
Proof.
  unfold setup_vin_mode.
  destruct (device_property_read_u32 fw "vin-mode-microvolt") as [v | e].
  2: { cbn. split; [reflexivity |]. split; [| intros; reflexivity].
       cbv. split; discriminate. }
  unfold_proc.
  destruct (v =? 3300000);
    [| destruct (v =? 5000000);
       [| destruct (v =? 12000000); [| destruct (v =? 24000000)]]].
  5: { cbn. discriminate. }
  all: on_map_calibration_cases ret1 s1 Hs1;
    destruct (Z.eqb_spec ret1 0); [| cbn; assumption];
    on_map_calibration_cases ret2 s2 Hs2;
    destruct (Z.eqb_spec ret2 0); [| cbn; assumption].
  all: cbn [post]; cbn in Hs1.
  all: destruct Hs1 as (Hr1 & Hv1 & _), Hs2 as (Hr2 & Hv2 & _).
  all: rewrite Hr2, Hr1, Hv2, Hv1.
  all: split; [reflexivity |]; split; [| intros e' He'; discriminate He'].
  all: cbv; split; discriminate.
Qed.

(** A missing sense resistance makes [ltc4282_setup] return the error of the
    property read with the state untouched.  When [ltc4282_setup] returns
    0, the state holds the sense resistance divided by 100, an input mode
    between 0 and 3 (the 12 V mode when the property is absent), and the
    full scale that [ltc4282_vfs_milli] gives for that mode. *)
Theorem setup_calibration env st :
  (forall e,
      device_property_read_u32 (props env) "adi,rsense-nano-ohms" = Err e ->
      run (ltc4282_setup env) st = (e, st))
  /\ (forall v,
         device_property_read_u32 (props env) "adi,rsense-nano-ohms" = Ok v ->
         fst (run (ltc4282_setup env) st) = 0 ->
         rsense (snd (run (ltc4282_setup env) st)) = v / CENTI
         /\ 0 <= vin_mode (snd (run (ltc4282_setup env) st)) <= 3
         /\ vfs_out (snd (run (ltc4282_setup env) st))
            = nth (Z.to_nat (vin_mode (snd (run (ltc4282_setup env) st))))
                  ltc4282_vfs_milli 0
         /\ In (vfs_out (snd (run (ltc4282_setup env) st))) ltc4282_vfs_milli
         /\ (forall e,
                device_property_read_u32 (props env) "vin-mode-microvolt"
                = Err e ->
                vfs_out (snd (run (ltc4282_setup env) st)) = 16640)).
Proof.
  split.
  - intros e He. unfold run, ltc4282_setup, setup_rsense. rewrite He.
    reflexivity.
  - intros v Hv Hret.
    set (G := fun s : ltc4282_state =>
                rsense s = v / CENTI /\ 0 <= vin_mode s <= 3
                /\ vfs_out s = nth (Z.to_nat (vin_mode s)) ltc4282_vfs_milli 0
                /\ (forall e,
                       device_property_read_u32 (props env)
                         "vin-mode-microvolt" = Err e ->
                       vin_mode s = LTC4282_VIN_12V)).
    assert (HG : fst (run (ltc4282_setup env) st) = 0 ->
                 G (snd (run (ltc4282_setup env) st))).
    { apply (post_run (ltc4282_setup env) st (fun r s => r = 0 -> G s)).
      unfold ltc4282_setup.
      eapply post_bind with (N := fun _ s => rsense s = v / CENTI).
      { unfold setup_rsense. rewrite Hv. reflexivity. }
      intros u1 s1 H1.
      eapply post_bind.
      { eapply post_weaken;
          [apply setup_vin_mode_calibration | intros a s H; exact H |].
        cbn. intros r s Hn Hz. contradiction. }
      intros u2 s2 (H2r & H2v & H2a).
      eapply post_bind with (N := fun _ s => G s).
      { cbn. unfold G. cbn. repeat split; try lia; try congruence.
        exact H2a. }
      intros u3 s3 H3.
      eapply post_weaken.
      - apply (calibration_kept_after_vfs env (rsense s3) (vin_mode s3)
                 (vfs_out s3)).
        repeat split.
      - cbn. intros a s (Ha & Hb & Hc) _. unfold G in *.
        rewrite Ha, Hb, Hc. exact H3.
      - cbn. intros r s (Ha & Hb & Hc) _. unfold G in *.
        rewrite Ha, Hb, Hc. exact H3. }
    destruct (HG Hret) as (Gr & Gv & Gf & Ga).
    repeat split; try assumption; try lia.
    + rewrite Gf.
      assert (Hm : vin_mode (snd (run (ltc4282_setup env) st)) = 0
                   \/ vin_mode (snd (run (ltc4282_setup env) st)) = 1
                   \/ vin_mode (snd (run (ltc4282_setup env) st)) = 2
                   \/ vin_mode (snd (run (ltc4282_setup env) st)) = 3) by lia.
      destruct Hm as [-> | [-> | [-> | ->]]]; cbn; tauto.
    + intros e He. rewrite Gf, (Ga e He). reflexivity.
Qed.

Lemma setup_calibration_witness :
  vfs_out (snd (run (ltc4282_setup env_24v) (fresh_state (device_with 0 0))))
  = nth (Z.to_nat
           (vin_mode (snd (run (ltc4282_setup env_24v)
                                (fresh_state (device_with 0 0))))))
        ltc4282_vfs_milli 0.
Proof.
  refine (proj1 (proj2 (proj2
            (proj2 (setup_calibration env_24v
                      (fresh_state (device_with 0 0))) 200000 _ _)))).
  - vm_compute. reflexivity.
  - vm_compute. reflexivity.
Defined.

(** ** Registers the attach sequence leaves alone *)

Lemma preserves_run P (p : proc Z) st :
  preserves P p -> P st -> P (snd (run p st)).
Proof.
  intros Hp Hst. specialize (Hp st Hst). unfold run.
  destruct (p st) as [[a | r] s]; exact Hp.
Qed.

(** A register write changes nothing or puts a byte into that register. *)
Lemma regmap_write_cases m reg val :
  snd (regmap_write m reg val) = m
  \/ snd (regmap_write m reg val)
     = {| regs := <[reg := u8 val]> (regs m); xfer := xfer m |}.
Proof.
  unfold regmap_write.
  destruct ((max_register <? reg) || negb (ltc4282_writable_reg reg));
    [now left |].
  destruct (xfer m reg =? 0); [now right | now left].
Qed.

(** So does an update, and the byte is the masked combination. *)
Lemma regmap_update_bits_cases m reg mask val :
  snd (regmap_update_bits m reg mask val) = m
  \/ snd (regmap_update_bits m reg mask val)
     = {| regs :=
            <[reg := u8 (Z.lor (Z.land (u8 (regs m reg)) (Z.lnot mask))
                               (Z.land val mask))]> (regs m);
          xfer := xfer m |}.
Proof.
  unfold regmap_update_bits.
  destruct (regmap_read m reg) as [orig |] eqn:Hr; [| now left].
  assert (orig = u8 (regs m reg)) as ->.
  { unfold regmap_read in Hr.
    destruct ((max_register <? reg) || negb (ltc4282_readable_reg reg));
      [discriminate |].
    destruct (xfer m reg =? 0); [now injection Hr | discriminate]. }
  match goal with |- context [if ?c then _ else _] => destruct c end;
    [now left | apply regmap_write_cases].
Qed.

(** Solve [In reg l] for a concrete register and list. *)
Ltac in_list := cbn [In]; repeat first [left; reflexivity | right].

(** A register operation on a register of [l] keeps a register outside. *)
Ltac other_register Hout :=
  let s := fresh "s" in
  let Hs := fresh "Hs" in
  intros s Hs; cbn [map set_map];
  unfold regmap_set_bits, regmap_clear_bits;
  lazymatch goal with
  | |- context [regmap_update_bits ?m ?r ?k ?v] =>
      destruct (regmap_update_bits_cases m r k v) as [-> | ->];
      [exact Hs
      | cbn [regs xfer]; destruct Hs as [Hs1 Hs2]; split; [| exact Hs2];
        rewrite fn_lookup_insert_ne; [exact Hs1 |];
        intros <-; apply Hout; in_list]
  | |- context [regmap_write ?m ?r ?v] =>
      destruct (regmap_write_cases m r v) as [-> | ->];
      [exact Hs
      | cbn [regs xfer]; destruct Hs as [Hs1 Hs2]; split; [| exact Hs2];
        rewrite fn_lookup_insert_ne; [exact Hs1 |];
        intros <-; apply Hout; in_list]
  | |- _ => exact Hs
  end.

Lemma ltc4282_setup_other_registers env r0 c x :
  ~ In r0 config_registers ->
  preserves (fun s => regs (map s) r0 = c /\ xfer (map s) = x)
            (ltc4282_setup env).
Proof.
  intros Hout. unfold_setup.
  preserves_steps ltac:(other_register Hout).
Qed.

Lemma ltc428_clks_setup_other_registers clkin fw r0 c x :
  ~ In r0 config_registers ->
  preserves (fun s => regs (map s) r0 = c /\ xfer (map s) = x)
            (ltc428_clks_setup clkin fw).
Proof.
  intros Hout. unfold_setup.
  preserves_steps ltac:(other_register Hout).
Qed.

Lemma on_map_snd st op :
  snd (on_map st op) = set_map st (snd (op (map st))).
Proof. unfold on_map. now destruct (op (map st)). Qed.

(** Whatever the firmware node asks for and whatever the bus does,
    [ltc4282_setup] and [ltc428_clks_setup] write to no register other than
    the clock divider, the two control bytes, the FET-bad timeout, the GPIO
    configuration and the current-limit adjust register: thresholds,
    status, energy and measurement registers keep their content. *)
Theorem setup_other_registers env clkin st r0 :
  ~ In r0 config_registers ->
  regs (map (snd (run (ltc4282_setup env) st))) r0 = regs (map st) r0
  /\ regs (map (snd (run (ltc428_clks_setup clkin (props env)) st))) r0
     = regs (map st) r0.
Proof.
  intros Hout. split.
  - apply (preserves_run
             (fun s => regs (map s) r0 = regs (map st) r0
                       /\ xfer (map s) = xfer (map st))
             (ltc4282_setup env) st).
    + now apply ltc4282_setup_other_registers.
    + split; reflexivity.
  - apply (preserves_run
             (fun s => regs (map s) r0 = regs (map st) r0
                       /\ xfer (map s) = xfer (map st))
             (ltc428_clks_setup clkin (props env)) st).
    + now apply ltc428_clks_setup_other_registers.
    + split; reflexivity.
Qed.

Lemma setup_other_registers_witness :
  regs (map (snd (run (ltc4282_setup env_bad_current_limit)
                      (fresh_state (device_with LTC4282_VSOURCE_MAX 200)))))
       LTC4282_VSOURCE_MAX
  = regs (map (fresh_state (device_with LTC4282_VSOURCE_MAX 200)))
         LTC4282_VSOURCE_MAX.
Proof.
  refine (proj1 (setup_other_registers env_bad_current_limit (Ok None)
                   (fresh_state (device_with LTC4282_VSOURCE_MAX 200))
                   LTC4282_VSOURCE_MAX _)).
  vm_compute. intuition discriminate.
Defined.

(** The whole attach sequence: however it ends, the state it leaves is
    attached to the regmap it was given, with every register outside the
    seven configuration registers as it found it. *)
Theorem probe_other_registers pe m st' r0 :
  pe_regmap pe = Ok m ->
  snd (ltc4282_probe pe) = Some st' ->
  ~ In r0 config_registers ->
  regs (map st') r0 = regs m r0 /\ xfer (map st') = xfer m.
Proof.
  intros Hm Hst Hout.
  set (P := fun s : ltc4282_state =>
              regs (map s) r0 = regs m r0 /\ xfer (map s) = xfer m).
  change (P st').
  assert (P0 : P (fresh_state m)) by (split; reflexivity).
  unfold ltc4282_probe in Hst. rewrite Hm in Hst.
  destruct (pe_kzalloc pe); [| discriminate Hst].
  destruct (pe_kmemdup pe); [| discriminate Hst].
  cbn [negb] in Hst. cbv zeta in Hst.
  destruct (negb (fst (ltc4282_power_on _ _) =? 0));
    [injection Hst as <-; exact P0 |].
  assert (P1 : P (snd (on_map (fresh_state m) (fun m0 =>
                   regmap_set_bits m0 LTC4282_ADC_CTRL LTC4282_RESET_MASK)))).
  { rewrite on_map_snd. revert P0. unfold P. generalize (fresh_state m).
    other_register Hout. }
  destruct (on_map (fresh_state m) _) as [ret1 st1]. cbn [snd] in P1.
  destruct (negb (ret1 =? 0)); [injection Hst as <-; exact P1 |].
  assert (P2 : P (snd (run (ltc428_clks_setup (pe_clkin pe)
                              (props (pe_env pe))) st1)))
    by (apply preserves_run;
        [now apply ltc428_clks_setup_other_registers | exact P1]).
  destruct (run (ltc428_clks_setup _ _) st1) as [ret2 st2]. cbn [snd] in P2.
  destruct (negb (ret2 =? 0)); [injection Hst as <-; exact P2 |].
  assert (P3 : P (snd (run (ltc4282_setup (pe_env pe)) st2)))
    by (apply preserves_run;
        [now apply ltc4282_setup_other_registers | exact P2]).
  destruct (run (ltc4282_setup _) st2) as [ret3 st3]. cbn [snd] in P3.
  destruct (negb (ret3 =? 0)); injection Hst as <-; exact P3.
Qed.

Lemma probe_other_registers_witness :
  match snd (ltc4282_probe probe_env_24v) with
  | Some st' => regs (map st') LTC4282_VSOURCE_MAX = 200
  | None => False
  end.
Proof.
  destruct (snd (ltc4282_probe probe_env_24v)) as [st' |] eqn:Hst.
  - refine (proj1 (probe_other_registers probe_env_24v
                     (device_with LTC4282_VSOURCE_MAX 200) st'
                     LTC4282_VSOURCE_MAX _ Hst _)).
    + reflexivity.
    + vm_compute. intuition discriminate.
  - vm_compute in Hst. discriminate Hst.
Defined.

(** ** Register fields written by the configuration *)

(** The masked combination holds the new value under the mask. *)
Lemma field_written mask orig val :
  Z.land 255 mask = mask ->
  Z.land (u8 (Z.lor (Z.land orig (Z.lnot mask)) (Z.land val mask))) mask
  = Z.land val mask.
Proof.
  intros Hm. unfold u8, wrap.
  rewrite <- Z.land_ones by lia. change (Z.ones 8) with 255.
  rewrite <- Z.land_assoc, Hm.
  rewrite Z.land_lor_distr_l, <- !Z.land_assoc.
  rewrite (Z.land_comm (Z.lnot mask) mask), Z.land_lnot_diag.
  now rewrite Z.land_0_r, Z.lor_0_l, Z.land_diag.
Qed.

(** It keeps what the register held under a disjoint mask. *)
Lemma field_kept mask kept orig val :
  Z.land kept mask = 0 -> Z.land 255 kept = kept ->
  Z.land (u8 (Z.lor (Z.land orig (Z.lnot mask)) (Z.land val mask))) kept
  = Z.land orig kept.
Proof.
  intros Hd Hk. unfold u8, wrap.
  rewrite <- Z.land_ones by lia. change (Z.ones 8) with 255.
  rewrite <- Z.land_assoc, Hk.
  apply Z.bits_inj'. intros i Hi.
  rewrite Z.land_spec, Z.lor_spec, !Z.land_spec, Z.lnot_spec by lia.
  assert (Hbit : Z.testbit kept i && Z.testbit mask i = false).
  { rewrite <- Z.land_spec, Hd. apply Z.bits_0. }
  destruct (Z.testbit kept i), (Z.testbit mask i), (Z.testbit orig i),
    (Z.testbit val i); try reflexivity; discriminate Hbit.
Qed.

(** An update that returns 0 has left the masked combination in the
    register. *)
Lemma regmap_update_bits_success m reg mask val :
  fst (regmap_update_bits m reg mask val) = 0 ->
  u8 (regs (snd (regmap_update_bits m reg mask val)) reg)
  = u8 (Z.lor (Z.land (u8 (regs m reg)) (Z.lnot mask)) (Z.land val mask)).
Proof.
  unfold regmap_update_bits, regmap_read, regmap_write.
  destruct ((max_register <? reg) || negb (ltc4282_readable_reg reg));
    [discriminate |].
  destruct (Z.eqb_spec (xfer m reg) 0) as [Hx | Hx];
    [| cbn [fst]; intros H; contradiction].
  match goal with |- context [?t =? u8 (regs m reg)] => set (tmp := t) end.
  destruct (Z.eqb_spec tmp (u8 (regs m reg))) as [E | E].
  - intros _. cbn [snd]. now rewrite E, u8_idem.
  - destruct ((max_register <? reg) || negb (ltc4282_writable_reg reg));
      [discriminate |].
    intros _. cbn [snd regs]. now rewrite fn_lookup_insert, u8_idem.
Qed.

Lemma FIELD_PREP_masked mask val :
  Z.land (FIELD_PREP mask val) mask = FIELD_PREP mask val.
Proof. unfold FIELD_PREP. now rewrite <- Z.land_assoc, Z.land_diag. Qed.

(** A register operation keeps the input-mode field of [LTC4282_CTRL_MSB]
    and the foldback field of [LTC4282_ILIM_ADJUST] when it writes another
    register or under a mask disjoint from them. *)
Ltac keeps_vin_fields :=
  let s := fresh "s" in
  let H1 := fresh "H1" in
  let H2 := fresh "H2" in
  let H3 := fresh "H3" in
  intros s (H1 & H2 & H3); cbn [map set_map];
  unfold regmap_set_bits, regmap_clear_bits;
  lazymatch goal with
  | |- context [regmap_update_bits ?m ?r ?k ?v] =>
      destruct (regmap_update_bits_cases m r k v) as [-> | ->];
      [exact (conj H1 (conj H2 H3))
      | cbn [regs]; split; [| split; [| exact H3]];
        first
          [ rewrite fn_lookup_insert_ne by (cbv; discriminate); assumption
          | rewrite fn_lookup_insert, u8_idem, field_kept by reflexivity;
            assumption ]]
  | |- context [regmap_write ?m ?r ?v] =>
      destruct (regmap_write_cases m r v) as [-> | ->];
      [exact (conj H1 (conj H2 H3))
      | cbn [regs]; split; [| split; [| exact H3]];
        rewrite fn_lookup_insert_ne by (cbv; discriminate); assumption]
  | |- _ => exact (conj H1 (conj H2 H3))
  end.

Lemma vin_fields_kept_after_vfs env f1 f2 b :
  preserves
    (fun s =>
       Z.land (u8 (regs (map s) LTC4282_CTRL_MSB)) LTC4282_CTRL_VIN_MODE_MASK
       = f1
       /\ Z.land (u8 (regs (map s) LTC4282_ILIM_ADJUST))
                 LTC4282_FOLDBACK_MODE_MASK = f2
       /\ vin_mode s = b)
    (setup_current_limit (props env);;
     setup_vdd_monitor (props env);;
     setup_divider (props env) "adi,overvoltage-dividers"
       LTC4282_CTRL_OV_MODE_MASK;;
     setup_divider (props env) "adi,undervoltage-dividers"
       LTC4282_CTRL_UV_MODE_MASK;;
     setup_flag (props env) "adi,on-delay" (fun m =>
       regmap_set_bits m LTC4282_CTRL_LSB LTC4282_CTRL_ON_DELAY_MASK);;
     setup_flag (props env) "adi,on-active-low" (fun m =>
       regmap_clear_bits m LTC4282_CTRL_LSB LTC4282_CTRL_ON_ACTIVE_LOW_MASK);;
     setup_flag (props env) "adi,overcurrent-retry" (fun m =>
       regmap_clear_bits m LTC4282_CTRL_LSB LTC4282_CTRL_OC_RETRY_MASK);;
     setup_fet_bad_timeout (props env);;
     ltc4282_gpio_setup env).
Proof.
  unfold_setup.
  preserves_steps ltac:(keeps_vin_fields).
Qed.

Lemma on_map_eq st op :
  on_map st op = (fst (op (map st)), set_map st (snd (op (map st)))).
Proof. unfold on_map. now destruct (op (map st)). Qed.

Lemma regmap_update_bits_other m reg mask val r :
  r <> reg ->
  regs (snd (regmap_update_bits m reg mask val)) r = regs m r.
Proof.
  intros Hne.
  destruct (regmap_update_bits_cases m reg mask val) as [-> | ->];
    [reflexivity |].
  cbn [regs]. apply fn_lookup_insert_ne. congruence.
Qed.

(** The two register updates of the input-mode block, both returning 0. *)
Lemma vin_mode_updates m mode :
  let m1 := snd (regmap_update_bits m LTC4282_CTRL_MSB
                   LTC4282_CTRL_VIN_MODE_MASK
                   (FIELD_PREP LTC4282_CTRL_VIN_MODE_MASK mode)) in
  let m2 := snd (regmap_update_bits m1 LTC4282_ILIM_ADJUST
                   LTC4282_FOLDBACK_MODE_MASK
                   (FIELD_PREP LTC4282_FOLDBACK_MODE_MASK mode)) in
  fst (regmap_update_bits m LTC4282_CTRL_MSB LTC4282_CTRL_VIN_MODE_MASK
         (FIELD_PREP LTC4282_CTRL_VIN_MODE_MASK mode)) = 0 ->
  fst (regmap_update_bits m1 LTC4282_ILIM_ADJUST LTC4282_FOLDBACK_MODE_MASK
         (FIELD_PREP LTC4282_FOLDBACK_MODE_MASK mode)) = 0 ->
  Z.land (u8 (regs m2 LTC4282_CTRL_MSB)) LTC4282_CTRL_VIN_MODE_MASK
  = FIELD_PREP LTC4282_CTRL_VIN_MODE_MASK mode
  /\ Z.land (u8 (regs m2 LTC4282_ILIM_ADJUST)) LTC4282_FOLDBACK_MODE_MASK
     = FIELD_PREP LTC4282_FOLDBACK_MODE_MASK mode.
Proof.
  intros m1 m2 E1 E2. split.
  - unfold m2. rewrite regmap_update_bits_other by discriminate.
    unfold m1. rewrite (regmap_update_bits_success _ _ _ _ E1).
    rewrite field_written by reflexivity. apply FIELD_PREP_masked.
  - unfold m2. rewrite (regmap_update_bits_success _ _ _ _ E2).
    rewrite field_written by reflexivity. apply FIELD_PREP_masked.
Qed.

Lemma setup_vin_mode_fields fw st v :
  device_property_read_u32 fw "vin-mode-microvolt" = Ok v ->
  post (fun _ s =>
          Z.land (u8 (regs (map s) LTC4282_CTRL_MSB))
                 LTC4282_CTRL_VIN_MODE_MASK
          = FIELD_PREP LTC4282_CTRL_VIN_MODE_MASK (vin_mode s)
          /\ Z.land (u8 (regs (map s) LTC4282_ILIM_ADJUST))
                    LTC4282_FOLDBACK_MODE_MASK
             = FIELD_PREP LTC4282_FOLDBACK_MODE_MASK (vin_mode s))
       (fun r _ => r <> 0)
       (setup_vin_mode fw st).
Proof.
  intros Hv. unfold setup_vin_mode. rewrite Hv. unfold_proc.
  destruct (v =? 3300000);
    [| destruct (v =? 5000000);
       [| destruct (v =? 12000000); [| destruct (v =? 24000000)]]].
  5: { cbn. discriminate. }
  all: rewrite on_map_eq; cbv beta iota zeta;
    match goal with
    | |- context [fst (regmap_update_bits ?m ?r ?k ?f) =? 0] =>
        destruct (Z.eqb_spec (fst (regmap_update_bits m r k f)) 0) as [E1 | E1]
    end;
    [| cbn; exact E1];
    rewrite on_map_eq; cbv beta iota zeta;
    match goal with
    | |- context [fst (regmap_update_bits ?m ?r LTC4282_FOLDBACK_MODE_MASK ?f)
                  =? 0] =>
        destruct (Z.eqb_spec (fst (regmap_update_bits m r
                                     LTC4282_FOLDBACK_MODE_MASK f)) 0)
          as [E2 | E2]
    end;
    [| cbn; exact E2];
    cbn [post map set_map vin_mode set_vin_mode] in *;
    apply vin_mode_updates; assumption.
Qed.

(** When the firmware node gives an input mode and [ltc4282_setup] returns
    0, the input-mode field of [LTC4282_CTRL_MSB] and the foldback field of
    [LTC4282_ILIM_ADJUST] both hold the mode the state records: the later
    writes to these two registers (current limit, VDD monitor, dividers,
    ADC input selection) leave the two fields as the input-mode block wrote
    them. *)
Theorem setup_foldback_mirrors_vin_mode env st v :
  device_property_read_u32 (props env) "adi,rsense-nano-ohms" = Ok v ->
  (exists mv,
      device_property_read_u32 (props env) "vin-mode-microvolt" = Ok mv) ->
  fst (run (ltc4282_setup env) st) = 0 ->
  Z.land (u8 (regs (map (snd (run (ltc4282_setup env) st)))
                   LTC4282_CTRL_MSB))
         LTC4282_CTRL_VIN_MODE_MASK
  = FIELD_PREP LTC4282_CTRL_VIN_MODE_MASK
      (vin_mode (snd (run (ltc4282_setup env) st)))
  /\ Z.land (u8 (regs (map (snd (run (ltc4282_setup env) st)))
                      LTC4282_ILIM_ADJUST))
            LTC4282_FOLDBACK_MODE_MASK
     = FIELD_PREP LTC4282_FOLDBACK_MODE_MASK
         (vin_mode (snd (run (ltc4282_setup env) st))).
Proof.
  intros Hv [mv Hmv] Hret.
  set (G := fun s : ltc4282_state =>
              Z.land (u8 (regs (map s) LTC4282_CTRL_MSB))
                     LTC4282_CTRL_VIN_MODE_MASK
              = FIELD_PREP LTC4282_CTRL_VIN_MODE_MASK (vin_mode s)
              /\ Z.land (u8 (regs (map s) LTC4282_ILIM_ADJUST))
                        LTC4282_FOLDBACK_MODE_MASK
                 = FIELD_PREP LTC4282_FOLDBACK_MODE_MASK (vin_mode s)).
  change (G (snd (run (ltc4282_setup env) st))).
  revert Hret.
  apply (post_run (ltc4282_setup env) st (fun r s => r = 0 -> G s)).
  unfold ltc4282_setup.
  eapply post_bind with (N := fun _ _ => True).
  { unfold setup_rsense. rewrite Hv. exact I. }
  intros u1 s1 _.
  eapply post_bind.
  { eapply post_weaken;
      [apply (setup_vin_mode_fields _ _ mv Hmv) | intros a s H; exact H |].
    cbn. intros r s Hn Hz. contradiction. }
  intros u2 s2 H2.
  eapply post_bind with (N := fun _ s => G s); [cbn; exact H2 |].
  intros u3 s3 [H3a H3b].
  eapply post_weaken.
  - apply (vin_fields_kept_after_vfs env
             (FIELD_PREP LTC4282_CTRL_VIN_MODE_MASK (vin_mode s3))
             (FIELD_PREP LTC4282_FOLDBACK_MODE_MASK (vin_mode s3))
             (vin_mode s3)).
    split; [exact H3a | split; [exact H3b | reflexivity]].
  - cbn. intros a s (Ha & Hb & Hc) _. unfold G. now rewrite Ha, Hb, Hc.
  - cbn. intros r s (Ha & Hb & Hc) _. unfold G. now rewrite Ha, Hb, Hc.
Qed.

Lemma setup_foldback_mirrors_vin_mode_witness :
  Z.land (u8 (regs (map (snd (run (ltc4282_setup env_24v)
                                  (fresh_state (device_with 0 0)))))
                   LTC4282_ILIM_ADJUST))
         LTC4282_FOLDBACK_MODE_MASK
  = FIELD_PREP LTC4282_FOLDBACK_MODE_MASK
      (vin_mode (snd (run (ltc4282_setup env_24v)
                          (fresh_state (device_with 0 0))))).
Proof.
  refine (proj2 (setup_foldback_mirrors_vin_mode env_24v
                   (fresh_state (device_with 0 0)) 200000 _ _ _)).
  - vm_compute. reflexivity.
  - exists 24000000. vm_compute. reflexivity.
  - vm_compute. reflexivity.
Defined.

(** ** The table of plain GPIO pins *)

Lemma on_map_update_bits_set_map st reg mask val :
  bus_ok (map st) -> accessible reg = true ->
  exists m1,
    on_map st (fun m => regmap_update_bits m reg mask val)
    = (0, set_map st m1)
    /\ bus_ok m1.
Proof.
  intros Hb Ha. unfold on_map.
  destruct (regmap_update_bits_bus_ok (map st) reg mask val Hb Ha)
    as (m' & -> & Hb' & _).
  now exists m'.
Qed.

(** Run the next register update, which succeeds under [Hb], keeping the
    state it starts from in sight. *)
Ltac update_set_map Hb m1 Hb1 :=
  match goal with
  | |- context [on_map ?s (fun m => regmap_update_bits m ?r ?k ?v)] =>
      let H := fresh "Hupd" in
      destruct (on_map_update_bits_set_map s r k v) as (m1 & H & Hb1);
      [exact Hb | reflexivity | rewrite H; clear H; cbv beta iota zeta]
  end.

Ltac iter_done :=
  cbn; rewrite ?orb_false_r, ?orb_true_r, ?Z.add_0_r; repeat split; auto.

(** One iteration of the GPIO loop on a bus without faults, for a function
    that is absent or in range: a plain GPIO pin is appended to the table
    at [ngpios]; a second request for the ADC input is the only way to
    return. *)
Lemma ltc4282_gpio_setup_iter_table fw gpio ngpios adc_in st :
  bus_ok (map st) ->
  gpio = LTC4282_GPIO_1 \/ gpio = LTC4282_GPIO_2 \/ gpio = LTC4282_GPIO_3 ->
  func_in_range fw gpio = true ->
  post (fun l s =>
          bus_ok (map s)
          /\ fst l = ngpios + (if asks_plain_gpio fw gpio then 1 else 0)
          /\ snd l = adc_in || asks_adc fw gpio
          /\ gpio_map s
             = (if asks_plain_gpio fw gpio
                then <[Z.to_nat ngpios := gpio]> (gpio_map st)
                else gpio_map st)
          /\ gc_added s = gc_added st)
       (fun _ _ => adc_in = true /\ asks_adc fw gpio = true)
       (ltc4282_gpio_setup_iter fw gpio (ngpios, adc_in) st).
Proof.
  intros Hb Hg Hr.
  unfold ltc4282_gpio_setup_iter, func_in_range, asks_plain_gpio, asks_adc
    in *.
  destruct (device_property_read_u32 fw _) as [func | e].
  2: { cbn. rewrite orb_false_r, Z.add_0_r. auto. }
  apply Z.ltb_lt in Hr.
  destruct (Z.leb_spec (n_funcs (gpio_desc gpio)) func); [lia |].
  cbv zeta.
  destruct (Z.eqb_spec func LTC4282_PIN_GPIO) as [-> | Hf].
  - unfold_proc.
    destruct Hg as [-> | [-> | ->]].
    + change (LTC4282_GPIO_1 =? LTC4282_GPIO_1) with true.
      cbv beta iota zeta. update_set_map Hb m1 Hb1. iter_done.
    + iter_done.
    + iter_done.
  - unfold ltc4282_non_gpio_setup. unfold_proc.
    destruct Hg as [-> | [-> | ->]].
    + change (LTC4282_GPIO_1 =? LTC4282_GPIO_1) with true.
      cbv beta iota zeta. update_set_map Hb m1 Hb1. iter_done.
    + change (LTC4282_GPIO_2 =? LTC4282_GPIO_1) with false.
      cbv beta iota zeta.
      destruct (Z.eqb_spec func LTC4282_PIN_FET_STRESS).
      * update_set_map Hb m1 Hb1. iter_done.
      * destruct adc_in; [iter_done |].
        update_set_map Hb m1 Hb1. iter_done.
    + change (LTC4282_GPIO_3 =? LTC4282_GPIO_1) with false.
      cbv beta iota zeta.
      destruct (Z.eqb_spec func LTC4282_PIN_FET_STRESS).
      * update_set_map Hb m1 Hb1. iter_done.
      * destruct adc_in; [iter_done |].
        update_set_map Hb m1 Hb1. iter_done.
Qed.

Lemma asks_adc_gpio1 fw : asks_adc fw LTC4282_GPIO_1 = false.
Proof.
  unfold asks_adc.
  now destruct (device_property_read_u32 fw _).
Qed.

(** On a bus without faults, with every GPIO function absent or in range
    and at most one of GPIO2 and GPIO3 asking for the ADC input,
    [ltc4282_gpio_setup] fills the first entries of [gpio_map] with the
    pins that ask to be plain GPIOs, in the order GPIO1, GPIO2, GPIO3,
    ALERT; it returns 0 without registering a chip when there is none, and
    the return code of the chip registration otherwise. *)
Theorem gpio_map_order env st :
  bus_ok (map st) -> config_gpiolib env = true ->
  length (gpio_map st) = 4%nat ->
  func_in_range (props env) LTC4282_GPIO_1 = true ->
  func_in_range (props env) LTC4282_GPIO_2 = true ->
  func_in_range (props env) LTC4282_GPIO_3 = true ->
  asks_adc (props env) LTC4282_GPIO_2 && asks_adc (props env) LTC4282_GPIO_3
  = false ->
  firstn (length (plain_gpio_pins (props env)))
         (gpio_map (snd (run (ltc4282_gpio_setup env) st)))
  = plain_gpio_pins (props env)
  /\ fst (run (ltc4282_gpio_setup env) st)
     = (if (length (plain_gpio_pins (props env)) =? 0)%nat
        then 0 else gpiochip_add_ret env).
Proof.
  intros Hb Hg Hlen R1 R2 R3 Hadc.
  set (fw := props env) in *.
  apply (post_run (ltc4282_gpio_setup env) st
           (fun r s =>
              firstn (length (plain_gpio_pins fw)) (gpio_map s)
              = plain_gpio_pins fw
              /\ r = (if (length (plain_gpio_pins fw) =? 0)%nat
                      then 0 else gpiochip_add_ret env))).
  unfold ltc4282_gpio_setup. rewrite Hg. cbn [negb]. cbv iota. fold fw.
  cbn [ltc4282_gpio_setup_loop].
  destruct (gpio_map st) as [| a [| b [| c [| d [| x l]]]]] eqn:Hmap;
    try discriminate Hlen.
  eapply post_bind with (N := fun l s =>
    bus_ok (map s)
    /\ fst l = (if asks_plain_gpio fw LTC4282_GPIO_1 then 1 else 0)
               + (if asks_plain_gpio fw LTC4282_GPIO_2 then 1 else 0)
               + (if asks_plain_gpio fw LTC4282_GPIO_3 then 1 else 0)
    /\ firstn (Z.to_nat (fst l)) (gpio_map s)
       = List.filter (asks_plain_gpio fw)
           [LTC4282_GPIO_1; LTC4282_GPIO_2; LTC4282_GPIO_3]
    /\ length (gpio_map s) = 4%nat).
  { eapply post_bind.
    { eapply post_weaken;
        [apply (ltc4282_gpio_setup_iter_table fw LTC4282_GPIO_1 0 false st);
         auto
        | intros l s H; exact H
        | cbn; intros r s [H _]; discriminate H]. }
    intros [n1 a1] s1 (Hb1 & Hn1 & Ha1 & Hm1 & _). cbn [fst snd] in *.
    rewrite asks_adc_gpio1 in Ha1. cbn [orb] in Ha1. subst n1 a1.
    eapply post_bind.
    { eapply post_weaken;
        [apply (ltc4282_gpio_setup_iter_table fw LTC4282_GPIO_2 _ _ s1);
         auto
        | intros l s H; exact H
        | cbn; intros r s [H _]; discriminate H]. }
    intros [n2 a2] s2 (Hb2 & Hn2 & Ha2 & Hm2 & _). cbn [fst snd] in *.
    subst n2 a2.
    eapply post_bind.
    { eapply post_weaken;
        [apply (ltc4282_gpio_setup_iter_table fw LTC4282_GPIO_3 _ _ s2);
         auto
        | intros l s H; exact H |].
      cbn. intros r s [H1 H2].
      rewrite H2, andb_true_r in Hadc. cbn [orb] in H1. congruence. }
    intros [n3 a3] s3 (Hb3 & Hn3 & _ & Hm3 & _). cbn [fst snd] in *.
    subst n3. cbn [post mret proc_ret fst snd].
    split; [exact Hb3 |]. split; [lia |].
    rewrite Hm3, Hm2, Hm1, Hmap. cbn [List.filter].
    destruct (asks_plain_gpio fw LTC4282_GPIO_1),
      (asks_plain_gpio fw LTC4282_GPIO_2),
      (asks_plain_gpio fw LTC4282_GPIO_3); cbn; auto. }
  intros [n adc] s (Hbs & Hn & Hfirst & Hl). cbn [fst snd] in *.
  unfold plain_gpio_pins. fold fw.
  destruct (gpio_map s) as [| a' [| b' [| c' [| d' [| x' l']]]]] eqn:Hms;
    try discriminate Hl.
  unfold_proc.
  destruct (device_property_read_bool fw "adi,alert-as-gp");
    rewrite Hn in *; cbn [List.filter] in *;
    destruct (asks_plain_gpio fw LTC4282_GPIO_1),
      (asks_plain_gpio fw LTC4282_GPIO_2),
      (asks_plain_gpio fw LTC4282_GPIO_3);
    cbn in Hfirst |- *;
    try (destruct (Z.eqb_spec (gpiochip_add_ret env) 0) as [E | E];
         try rewrite E);
    cbv [set_gc_added set_gpio_map]; cbn [gpio_map];
    rewrite ?Hms;
    repeat match goal with
           | |- context [Z.to_nat ?x] =>
               let v := eval vm_compute in (Z.to_nat x) in
               change (Z.to_nat x) with v
           | H : context [Z.to_nat ?x] |- _ =>
               let v := eval vm_compute in (Z.to_nat x) in
               change (Z.to_nat x) with v in H
           end;
    cbn in Hfirst |- *;
    repeat split; cbn; rewrite ?Hms; cbn; congruence.
Qed.

Lemma gpio_map_order_witness :
  firstn 3 (gpio_map (snd (run (ltc4282_gpio_setup env_plain_gpios)
                               (fresh_state (device_with 0 0)))))
  = [LTC4282_GPIO_1; LTC4282_GPIO_3; LTC4282_ALERT]
  /\ fst (run (ltc4282_gpio_setup env_plain_gpios)
              (fresh_state (device_with 0 0))) = -12.
Proof.
  refine (gpio_map_order env_plain_gpios (fresh_state (device_with 0 0))
            _ eq_refl eq_refl eq_refl eq_refl eq_refl eq_refl).
  intros reg. reflexivity.
Defined.

(** ** Clock divider *)

(** With an external clock whose rate is in the accepted range, on a bus
    without faults, [ltc428_clks_setup] returns 0 and leaves
    [rate / 500000] in the divider field of [LTC4282_CLK_DIV]: a value from
    0 (for every rate below 500 kHz) to 31, so the five-bit mask cuts
    nothing off.  The clock output field holds the "adi,clkout-mode" value
    plus one when the property is given as 0 or 1, and what it held before
    when the property is absent. *)
Theorem clks_setup_divider fw st rate :
  bus_ok (map st) ->
  LTC4282_CLKIN_MIN <= rate <= LTC4282_CLKIN_MAX ->
  match device_property_read_u32 fw "adi,clkout-mode" with
  | Ok v => v <= LTC4282_CLKOUT_TICK
  | Err _ => True
  end ->
  let res := run (ltc428_clks_setup (Ok (Some rate)) fw) st in
  let div := u8 (regs (map (snd res)) LTC4282_CLK_DIV) in
  fst res = 0
  /\ Z.land div LTC4282_CLK_DIV_MASK = rate / 500000
  /\ 0 <= rate / 500000 <= 31
  /\ Z.land div LTC4282_CLKOUT_MASK
     = match device_property_read_u32 fw "adi,clkout-mode" with
       | Ok v => Z.shiftl (v + 1) 5
       | Err _ => Z.land (u8 (regs (map st) LTC4282_CLK_DIV))
                         LTC4282_CLKOUT_MASK
       end.
Proof.
  intros Hb Hr Hv res div. subst div res.
  assert (Hq : 0 <= rate / 500000 <= 31).
  { change LTC4282_CLKIN_MIN with 250000 in Hr.
    change LTC4282_CLKIN_MAX with 15500000 in Hr.
    split; [apply Z.div_pos; lia |].
    apply Z.lt_succ_r, Z.div_lt_upper_bound; lia. }
  assert (Hfield : Z.land (FIELD_PREP LTC4282_CLK_DIV_MASK
                             (u32 (rate / (2 * LTC4282_CLKIN_MIN))))
                          LTC4282_CLK_DIV_MASK = rate / 500000).
  { rewrite FIELD_PREP_masked. unfold FIELD_PREP.
    change (2 * LTC4282_CLKIN_MIN) with 500000.
    rewrite u32_small by (pow2; lia).
    change (ffs LTC4282_CLK_DIV_MASK - 1) with 0.
    change LTC4282_CLK_DIV_MASK with (Z.ones 5).
    rewrite Z.shiftl_0_r, Z.land_ones by lia.
    apply Z.mod_small. pow2. lia. }
  unfold run, ltc428_clks_setup.
  destruct (Z.ltb_spec rate LTC4282_CLKIN_MIN); [lia |].
  destruct (Z.ltb_spec LTC4282_CLKIN_MAX rate); [lia |].
  cbn [orb]. cbv iota. unfold_proc. unfold on_map.
  destruct (regmap_update_bits_bus_ok (map st) LTC4282_CLK_DIV
              LTC4282_CLK_DIV_MASK
              (FIELD_PREP LTC4282_CLK_DIV_MASK
                 (u32 (rate / (2 * LTC4282_CLKIN_MIN)))) Hb eq_refl)
    as (m1 & -> & Hb1 & Hreg1 & _).
  cbn [Z.eqb]. cbv iota.
  destruct (device_property_read_u32 fw "adi,clkout-mode") as [v | e] eqn:Hp.
  - assert (Hv0 : 0 <= v).
    { unfold device_property_read_u32 in Hp.
      destruct (fw !! _); [| discriminate Hp].
      injection Hp as <-. apply wrap_range. lia. }
    destruct (Z.ltb_spec LTC4282_CLKOUT_TICK v); [lia |].
    cbn [map set_map].
    destruct (regmap_update_bits_bus_ok m1 LTC4282_CLK_DIV
                LTC4282_CLKOUT_MASK
                (FIELD_PREP LTC4282_CLKOUT_MASK (v + 1)) Hb1 eq_refl)
      as (m2 & -> & Hb2 & Hreg2 & _).
    cbn [fst snd map set_map].
    rewrite Hreg2.
    rewrite (field_kept LTC4282_CLKOUT_MASK LTC4282_CLK_DIV_MASK),
      field_written by reflexivity.
    rewrite Hreg1, field_written by reflexivity.
    repeat split; try assumption; try lia.
    rewrite FIELD_PREP_masked.
    change LTC4282_CLKOUT_TICK with 1 in *.
    assert (Hc : v = 0 \/ v = 1) by lia.
    destruct Hc as [-> | ->]; reflexivity.
  - cbn [fst snd map set_map].
    rewrite Hreg1.
    rewrite (field_kept LTC4282_CLK_DIV_MASK LTC4282_CLKOUT_MASK),
      field_written by reflexivity.
    repeat split; try assumption; lia.
Qed.

Lemma clks_setup_divider_witness :
  Z.land (u8 (regs (map (snd (run (ltc428_clks_setup (Ok (Some 1000000))
                                     fw_clkout_tick)
                                  (fresh_state
                                     (device_with LTC4282_CLK_DIV 0)))))
                   LTC4282_CLK_DIV))
         LTC4282_CLK_DIV_MASK
  = 1000000 / 500000.
Proof.
  refine (proj1 (proj2
            (clks_setup_divider fw_clkout_tick
               (fresh_state (device_with LTC4282_CLK_DIV 0)) 1000000
               _ _ _))).
  - intros reg. reflexivity.
  - change (250000 <= 1000000 <= 15500000). lia.
  - change (1 <= 1). lia.
Defined.

(** ** GPIO direction *)

Ltac gpio_pin_case E :=
  unfold ltc4282_gpio_output_set, ltc4282_gpio_input_set, ltc4282_gpio_set;
  rewrite !E;
  match goal with
  | |- context [gpio_desc ?p] =>
      let d := eval vm_compute in (gpio_desc p) in
      change (gpio_desc p) with d
  end;
  match goal with
  | |- context [?p =? LTC4282_GPIO_1] =>
      let b := eval vm_compute in (p =? LTC4282_GPIO_1) in
      change (p =? LTC4282_GPIO_1) with b
  end;
  cbn [out_reg out_mask active_high negb]; cbv iota zeta;
  change LTC4282_GPIO_CONFIG with 7 in *;
  change LTC4282_GPIO_1_CONFIG_MASK with 48 in *;
  unfold regmap_set_bits, on_map.

Ltac gpio_update Hb m1 Hb1 Hreg1 :=
  match goal with
  | |- context [regmap_update_bits ?m ?r ?k ?v] =>
      destruct (regmap_update_bits_bus_ok m r k v Hb eq_refl)
        as (m1 & -> & Hb1 & Hreg1 & _);
      cbv beta iota zeta; cbn [fst snd map set_map Z.eqb negb]; cbv iota
  end.

(** Direction-output on a bus without faults returns 0 and leaves under
    the pin's output mask the bit that value-set leaves there.  For GPIO1
    it also puts the configuration field of [LTC4282_GPIO_CONFIG] (bits
    5:4) to 10b; for GPIO2, GPIO3 and ALERT it does to the device exactly
    what value-set does. *)
Theorem gpio_output_direction st offset val :
  bus_ok (map st) ->
  0 <= gpio_pin st offset <= 3 ->
  let gpio := gpio_desc (gpio_pin st offset) in
  let res := ltc4282_gpio_output_set st offset val in
  fst res = 0
  /\ Z.land (u8 (regs (map (snd res)) (out_reg gpio))) (out_mask gpio)
     = Z.land (u8 (regs (map (ltc4282_gpio_set st offset val))
                        (out_reg gpio)))
              (out_mask gpio)
  /\ (gpio_pin st offset = LTC4282_GPIO_1 ->
      Z.land (u8 (regs (map (snd res)) LTC4282_GPIO_CONFIG))
             LTC4282_GPIO_1_CONFIG_MASK = 0x20)
  /\ (gpio_pin st offset <> LTC4282_GPIO_1 ->
      snd res = ltc4282_gpio_set st offset val).
Proof.
  intros Hb Hp gpio res. subst res gpio.
  assert (Hcase : gpio_pin st offset = 0 \/ gpio_pin st offset = 1
                  \/ gpio_pin st offset = 2 \/ gpio_pin st offset = 3) by lia.
  destruct Hcase as [E | [E | [E | E]]].
  - gpio_pin_case E.
    gpio_update Hb m1 Hb1 Hreg1.
    gpio_update Hb1 m2 Hb2 Hreg2.
    gpio_update Hb m3 Hb3 Hreg3.
    rewrite Hreg2, Hreg3, !field_written by reflexivity.
    split; [reflexivity |]. split; [reflexivity |].
    split; [| intros Hne; now elim Hne].
    intros _.
    rewrite (field_kept 8 48) by reflexivity.
    rewrite Hreg1, field_written by reflexivity.
    reflexivity.
  - gpio_pin_case E.
    gpio_update Hb m1 Hb1 Hreg1.
    repeat split; discriminate.
  - gpio_pin_case E.
    gpio_update Hb m1 Hb1 Hreg1.
    repeat split; discriminate.
  - gpio_pin_case E.
    gpio_update Hb m1 Hb1 Hreg1.
    repeat split; discriminate.
Qed.

Lemma gpio_output_direction_witness :
  Z.land (u8 (regs (map (snd (ltc4282_gpio_output_set
                                (state_12v (device_with LTC4282_GPIO_CONFIG
                                              0x30)) 0 1)))
                   LTC4282_GPIO_CONFIG))
         LTC4282_GPIO_1_CONFIG_MASK
  = 0x20.
Proof.
  refine (proj1 (proj2 (proj2
            (gpio_output_direction
               (state_12v (device_with LTC4282_GPIO_CONFIG 0x30)) 0 1
               _ _))) eq_refl).
  - intros reg. reflexivity.
  - change (0 <= 0 <= 3). lia.
Defined.

(** Direction-input on a bus without faults returns 0 and touches nothing
    but bits 5:4 of [LTC4282_GPIO_CONFIG]: for GPIO1 it sets both, for any
    other pin it leaves the device as it is, so the line stays whatever
    value-set or direction-output last made it. *)
Theorem gpio_input_direction st offset :
  bus_ok (map st) ->
  let res := ltc4282_gpio_input_set st offset in
  fst res = 0
  /\ (forall r, r <> LTC4282_GPIO_CONFIG ->
                regs (map (snd res)) r = regs (map st) r)
  /\ Z.land (u8 (regs (map (snd res)) LTC4282_GPIO_CONFIG)) 0xcf
     = Z.land (u8 (regs (map st) LTC4282_GPIO_CONFIG)) 0xcf
  /\ Z.land (u8 (regs (map (snd res)) LTC4282_GPIO_CONFIG))
            LTC4282_GPIO_1_CONFIG_MASK
     = (if gpio_pin st offset =? LTC4282_GPIO_1
        then LTC4282_GPIO_1_CONFIG_MASK
        else Z.land (u8 (regs (map st) LTC4282_GPIO_CONFIG))
                    LTC4282_GPIO_1_CONFIG_MASK).
Proof.
  intros Hb res. subst res. unfold ltc4282_gpio_input_set.
  destruct (gpio_pin st offset =? LTC4282_GPIO_1); cbn [negb]; cbv iota.
  - unfold regmap_set_bits, on_map.
    destruct (regmap_update_bits_bus_ok (map st) LTC4282_GPIO_CONFIG
                LTC4282_GPIO_1_CONFIG_MASK LTC4282_GPIO_1_CONFIG_MASK
                Hb eq_refl) as (m1 & -> & _ & Hreg & Hother).
    cbn [fst snd map set_map]. rewrite Hreg.
    rewrite (field_kept LTC4282_GPIO_1_CONFIG_MASK 0xcf),
      field_written by reflexivity.
    repeat split; assumption.
  - repeat split.
Qed.

Lemma gpio_input_direction_witness :
  Z.land (u8 (regs (map (snd (ltc4282_gpio_input_set
                                (state_12v (device_with LTC4282_GPIO_CONFIG
                                              0x08)) 0)))
                   LTC4282_GPIO_CONFIG))
         LTC4282_GPIO_1_CONFIG_MASK
  = LTC4282_GPIO_1_CONFIG_MASK.
Proof.
  refine (proj2 (proj2 (proj2
            (gpio_input_direction
               (state_12v (device_with LTC4282_GPIO_CONFIG 0x08)) 0 _)))).
  intros reg. reflexivity.
Defined.

(** ** Bounds of the voltage channel *)

Ltac read_in_code H code Hc :=
  unfold ltc4282_read_voltage_word, ltc4282_read_voltage_byte,
    ltc4282_read_alarm in H;
  lazymatch type of H with
  | context [regmap_bulk_read_le ?m ?r ?n] =>
      destruct (regmap_bulk_read_le m r n) as [code |] eqn:Hc;
      [apply regmap_bulk_read_le_range in Hc;
       change (2 ^ (8 * Z.of_nat 2)) with 65536 in Hc
      | discriminate H]
  | context [regmap_read ?m ?r] =>
      destruct (regmap_read m r) as [code |] eqn:Hc;
      [apply regmap_read_range in Hc; change (2 ^ 8) with 256 in Hc
      | discriminate H]
  end;
  rewrite result_bind_ok in H; injection H as <-.

(** Whatever the device holds, a voltage attribute that reads successfully
    lies between 0 and the full scale of its channel - [st->vfs_out] for
    VSOURCE, 1280 mV for every other channel - and an alarm attribute reads
    0 or 1. *)
Theorem read_in_bounded st attr channel v :
  0 <= vfs_out st -> 255 * vfs_out st + 127 < 2 ^ 32 ->
  ltc4282_read_in st attr channel = Ok v ->
  0 <= v
  <= match attr with
     | hwmon_in_max_alarm | hwmon_in_min_alarm | hwmon_in_crit_alarm
     | hwmon_in_lcrit_alarm => 1
     | _ => if channel =? LTC4282_CHAN_VSOURCE then vfs_out st else 1280
     end.
Proof.
  intros Hf Hw H.
  assert (Hword : forall fs code,
             0 <= code < 65536 -> 0 <= fs -> 255 * fs + 127 < 2 ^ 32 ->
             0 <= ltc4282_read_voltage_word_conv fs code <= fs).
  { intros fs code Hc Hfs Hb.
    apply ltc4282_read_voltage_word_conv_range; [lia | pow2; lia]. }
  assert (Hbyte : forall fs code,
             0 <= code < 256 -> 0 <= fs -> 255 * fs + 127 < 2 ^ 32 ->
             0 <= ltc4282_read_voltage_byte_conv fs code <= fs).
  { intros fs code Hc Hfs Hb.
    rewrite ltc4282_read_voltage_byte_conv_exact by lia. split.
    - apply Z.le_trans with (m := round_div (0 * fs) 255);
        [reflexivity | apply round_div_mono; nia].
    - apply round_div_scale; lia. }
  assert (Halarm : forall x, 0 <= to_bool x <= 1).
  { intros x. unfold to_bool. destruct (x =? 0); lia. }
  destruct attr; cbn [ltc4282_read_in] in H; try discriminate H;
    try (destruct (channel =? LTC4282_CHAN_VSOURCE));
    try (destruct (channel =? LTC4282_CHAN_VFET));
    read_in_code H code Hc;
    first [apply Halarm
          | apply Hword; [lia | lia | pow2; lia]
          | apply Hbyte; [lia | lia | pow2; lia]].
Qed.

Lemma read_in_bounded_witness :
  0 <= 13051 <= 16640.
Proof.
  refine (read_in_bounded
            (state_12v (device_with LTC4282_VSOURCE_MAX 200))
            hwmon_in_max LTC4282_CHAN_VSOURCE 13051 _ _ eq_refl).
  - change (0 <= 16640). lia.
  - change (255 * 16640 + 127 < 4294967296). lia.
Defined.

(** ** What the configuration never writes in the GPIO register *)

(** A register operation keeps the bits of [LTC4282_GPIO_CONFIG] outside
    the GPIO1 configuration field when it writes another register or under
    that field's mask. *)
Ltac keeps_gpio_config :=
  let s := fresh "s" in
  let H := fresh "H" in
  intros s H; cbn [map set_map];
  unfold regmap_set_bits, regmap_clear_bits;
  lazymatch goal with
  | |- context [regmap_update_bits ?m ?r ?k ?v] =>
      destruct (regmap_update_bits_cases m r k v) as [-> | ->];
      [exact H
      | cbn [regs];
        first
          [ rewrite fn_lookup_insert_ne by (cbv; discriminate); exact H
          | rewrite fn_lookup_insert, u8_idem, field_kept by reflexivity;
            exact H ]]
  | |- context [regmap_write ?m ?r ?v] =>
      destruct (regmap_write_cases m r v) as [-> | ->];
      [exact H
      | cbn [regs];
        rewrite fn_lookup_insert_ne by (cbv; discriminate); exact H]
  | |- _ => exact H
  end.

(** One iteration of the GPIO loop: the range check lets no function
    through that is as large as [LTC4282_PIN_FET_STRESS], so the FET-stress
    update of [ltc4282_non_gpio_setup] is never reached. *)
Lemma ltc4282_gpio_setup_iter_gpio_config fw gpio locals c :
  (n_funcs (gpio_desc gpio) <=? LTC4282_PIN_FET_STRESS) = true ->
  preserves
    (fun s => Z.land (u8 (regs (map s) LTC4282_GPIO_CONFIG)) 0xcf = c)
    (ltc4282_gpio_setup_iter fw gpio locals).
Proof.
  intros Hn. apply Z.leb_le in Hn.
  unfold ltc4282_gpio_setup_iter. destruct locals as [ngpios adc_in].
  destruct (device_property_read_u32 fw _) as [func | e];
    [| apply preserves_mret].
  cbv zeta.
  destruct (Z.leb_spec (n_funcs (gpio_desc gpio)) func);
    [apply preserves_creturn |].
  destruct (func =? LTC4282_PIN_GPIO).
  - preserves_steps ltac:(keeps_gpio_config).
  - unfold ltc4282_non_gpio_setup.
    apply preserves_bind.
    2: { preserves_steps ltac:(keeps_gpio_config). }
    destruct (gpio =? LTC4282_GPIO_1).
    { preserves_steps ltac:(keeps_gpio_config). }
    destruct (Z.eqb_spec func LTC4282_PIN_FET_STRESS); [lia |].
    preserves_steps ltac:(keeps_gpio_config).
Qed.

Lemma ltc4282_setup_gpio_config env c :
  preserves
    (fun s => Z.land (u8 (regs (map s) LTC4282_GPIO_CONFIG)) 0xcf = c)
    (ltc4282_setup env).
Proof.
  unfold ltc4282_setup, setup_rsense, setup_vin_mode, setup_vfs_out,
    setup_current_limit, setup_vdd_monitor, setup_divider, setup_flag,
    setup_fet_bad_timeout, ltc4282_gpio_setup.
  cbn [ltc4282_gpio_setup_loop]. cbv zeta.
  preserves_steps ltac:(keeps_gpio_config).
  all: apply ltc4282_gpio_setup_iter_gpio_config; reflexivity.
Qed.

(** Whatever the firmware node asks for and whatever the bus does,
    [ltc4282_setup] changes nothing in [LTC4282_GPIO_CONFIG] outside the
    GPIO1 configuration field (bits 5:4): the output bits of the three
    pins stay as they were, and so does the FET-stress bit, because the
    range check of [ltc4282_gpio_setup] rejects function 3 for every pin
    before [ltc4282_non_gpio_setup] could act on it. *)
Theorem setup_keeps_gpio_outputs env st :
  Z.land (u8 (regs (map (snd (run (ltc4282_setup env) st)))
                   LTC4282_GPIO_CONFIG)) 0xcf
  = Z.land (u8 (regs (map st) LTC4282_GPIO_CONFIG)) 0xcf.
Proof.
  apply (preserves_run
           (fun s => Z.land (u8 (regs (map s) LTC4282_GPIO_CONFIG)) 0xcf
                     = Z.land (u8 (regs (map st) LTC4282_GPIO_CONFIG)) 0xcf)
           (ltc4282_setup env) st).
  - apply ltc4282_setup_gpio_config.
  - reflexivity.
Qed.

(** ** The ADC input asked for twice *)

(** Once a pin holds the ADC input, an iteration of the GPIO loop leaves
    [LTC4282_ILIM_ADJUST], which selects the pin the ADC monitors, as it
    is, and the flag set. *)
Lemma ltc4282_gpio_setup_iter_adc_taken fw gpio ngpios st :
  post (fun l s =>
          snd l = true
          /\ regs (map s) LTC4282_ILIM_ADJUST
             = regs (map st) LTC4282_ILIM_ADJUST)
       (fun _ s =>
          regs (map s) LTC4282_ILIM_ADJUST
          = regs (map st) LTC4282_ILIM_ADJUST)
       (ltc4282_gpio_setup_iter fw gpio (ngpios, true) st).
Proof.
  unfold ltc4282_gpio_setup_iter.
  destruct (device_property_read_u32 fw _) as [func | e];
    [| cbn; auto].
  cbv zeta.
  destruct (n_funcs (gpio_desc gpio) <=? func); [reflexivity |].
  destruct (func =? LTC4282_PIN_GPIO).
  - destruct (gpio =? LTC4282_GPIO_1).
    + unfold mbind, proc_bind, modify, reg_op, return_if_err, mret, proc_ret,
        regmap_set_bits.
      rewrite on_map_eq. cbv beta iota zeta.
      destruct (_ =? 0); cbn [post snd map set_map set_gpio_map];
        rewrite regmap_update_bits_other by discriminate; auto.
    + cbn. split; reflexivity.
  - unfold ltc4282_non_gpio_setup.
    destruct (gpio =? LTC4282_GPIO_1);
      [| destruct (func =? LTC4282_PIN_FET_STRESS)].
    + unfold mbind, proc_bind, reg_op, return_if_err, mret, proc_ret.
      rewrite on_map_eq. cbv beta iota zeta. cbn [fst snd].
      destruct (_ =? 0); cbn [post snd map set_map];
        rewrite regmap_update_bits_other by discriminate; auto.
    + unfold mbind, proc_bind, reg_op, return_if_err, mret, proc_ret.
      rewrite on_map_eq. cbv beta iota zeta. cbn [fst snd].
      destruct (_ =? 0); cbn [post snd map set_map];
        rewrite regmap_update_bits_other by discriminate; auto.
    + cbn. reflexivity.
Qed.

Lemma ltc4282_gpio_setup_loop_adc_taken fw gpios : forall ngpios st,
  post (fun l s =>
          snd l = true
          /\ regs (map s) LTC4282_ILIM_ADJUST
             = regs (map st) LTC4282_ILIM_ADJUST)
       (fun _ s =>
          regs (map s) LTC4282_ILIM_ADJUST
          = regs (map st) LTC4282_ILIM_ADJUST)
       (ltc4282_gpio_setup_loop fw gpios (ngpios, true) st).
Proof.
  induction gpios as [| gpio rest IH]; intros ngpios st.
  - cbn. auto.
  - cbn [ltc4282_gpio_setup_loop].
    eapply post_bind; [apply ltc4282_gpio_setup_iter_adc_taken |].
    intros [n a] s [Ha Hs]. cbn [snd] in Ha. subst a.
    eapply post_weaken; [apply IH | |]; cbn.
    + intros l s' [Hl Hs']. split; [exact Hl | congruence].
    + intros r s' Hs'. congruence.
Qed.

(** C7, evaluated at the failing input: GPIO2 and GPIO3 are both given the
    function [LTC4282_PIN_ADC].  GPIO2 takes the ADC input
    ([LTC4282_ILIM_ADJUST] goes from 0 to the GPIO-mode bit); the request
    of GPIO3 is met by the range check, function 2 being not below the two
    functions of GPIO3, and the range check hands [dev_err_probe] the 0 of
    the property read: [ltc4282_gpio_setup] returns 0, not a validation
    error, and so does [ltc4282_setup].  A request that gets past the range
    check, function 1 on GPIO3, is refused with [-EINVAL].  What the claim
    says of the device does hold: once a pin holds the ADC input, the rest
    of the loop never writes [LTC4282_ILIM_ADJUST], whatever the firmware
    node, the pins that follow and the bus. *)
Theorem adc_second_request_returns_0 :
  device_property_read_u32 (props env_adc_twice) "adi,gpio1-mode"
  = Ok LTC4282_PIN_ADC
  /\ device_property_read_u32 (props env_adc_twice) "adi,gpio2-mode"
     = Ok LTC4282_PIN_ADC
  /\ fst (run (ltc4282_gpio_setup env_adc_twice)
               (fresh_state (device_with 0 0))) = 0
  /\ regs (map (snd (run (ltc4282_gpio_setup env_adc_twice)
                         (fresh_state (device_with 0 0)))))
          LTC4282_ILIM_ADJUST = LTC4282_GPIO_MODE_MASK
  /\ fst (run (ltc4282_setup env_adc_twice)
               (fresh_state (device_with 0 0))) = 0
  /\ fst (run (ltc4282_gpio_setup env_two_adc)
               (fresh_state (device_with 0 0))) = - EINVAL
  /\ (forall fw gpios ngpios st,
         post (fun l s =>
                 snd l = true
                 /\ regs (map s) LTC4282_ILIM_ADJUST
                    = regs (map st) LTC4282_ILIM_ADJUST)
              (fun _ s =>
                 regs (map s) LTC4282_ILIM_ADJUST
                 = regs (map st) LTC4282_ILIM_ADJUST)
              (ltc4282_gpio_setup_loop fw gpios (ngpios, true) st)).
Proof.
  do 6 (split; [vm_compute; reflexivity |]).
  intros fw gpios ngpios st. apply ltc4282_gpio_setup_loop_adc_taken.
Qed.
